(** * nonebot-plugin-comment-analysis: a shallow embedding of [__init__.py]

    The plugin recognises Bilibili links in chat messages, downloads and
    muxes the two media streams of a video, delivers the result, removes
    its temporary files and exports the danmaku and the comments to a CSV
    file.

    The embedding follows the Python source function by function.
    - Python [str] values are [string]s: sequences of bytes holding the
      UTF-8 encoding of the text.  The literal characters and the classes
      of ASCII characters the source tests for agree byte-wise and
      character-wise, since no byte of a multi-byte UTF-8 sequence is
      ASCII.  Three tests of the source reach beyond ASCII: the digit
      escape of the patterns, the white space of [str.strip] and the dot
      of the trigger pattern.  [is_digit], [is_space] and [Dot] hold their
      ASCII part, the dot one byte; a property that depends on more asks
      for ASCII characters in its hypotheses.
    - The file system is a finite map from paths to file sizes in bytes,
      [fsys].  The export of the CSV file, which only writes its file,
      also runs on a file system that keeps the bytes, [disk].
    - Effectful functions live in a small state-and-exception monad that
      also records the observable events (messages sent, uploads, log
      lines, files created and removed, pipeline steps).
    - Calls that leave the module (chat adapter, HTTP, platform API,
      clock, the sibling module [bilibili_analysis]) take their outcome
      from a [world] record, so a statement quantified over the world
      covers every behaviour of the environment.
    - [exn] stands for instances of Python's [Exception]; task
      cancellation and interpreter exit are outside the model. *)

From stdpp Require Import gmap strings list fin_maps pretty.
From Stdlib Require Import Ascii String QArith Qround Qabs.

Open Scope string_scope.
Open Scope Z_scope.
Open Scope list_scope.

(** ** Exceptions and results *)

Record exn := Exn { exn_class : string; exn_msg : string }.

Inductive result (A : Type) : Type :=
| Ok (a : A)
| Raise (e : exn).
Arguments Ok {A} a.
Arguments Raise {A} e.

Definition is_ok {A} (r : result A) : bool :=
  match r with Ok _ => true | Raise _ => false end.

(** ** Observable events *)

Inductive segment :=
| SegText (s : string)
| SegImage (url : string)
| SegVideo (file : string).

Inductive stream := Video | Audio.

Inductive event :=
| EvSend (m : list segment)          (* a chat message handed to the adapter *)
| EvUpload (file name : string)      (* a file upload handed to the adapter *)
| EvForward (nodes : list (list segment)) (* a forward message handed to the adapter *)
| EvLog (line : string)              (* print(...) *)
| EvCreate (path : string)           (* a file is opened for writing *)
| EvRemove (path : string)           (* os.remove / os.unlink *)
| EvDownloadStart (k : stream)       (* download_b_file launched *)
| EvDownloadEnd (k : stream) (ok : bool)
| EvMuxStart                         (* merge_file_to_mp4 started *)
| EvMuxEnd (ok : bool)
| EvFetchStart (url : string)        (* download_video opened its stream *)
| EvFetchEnd (ok : bool).

#[global] Instance segment_eq_dec : EqDecision segment.
Proof. solve_decision. Defined.
#[global] Instance stream_eq_dec : EqDecision stream.
Proof. solve_decision. Defined.
#[global] Instance event_eq_dec : EqDecision event.
Proof. solve_decision. Defined.

(** ** The monad: state, exceptions, emitted events *)

Module Py.

Record outcome (S A : Type) := Outcome {
  res : result A;
  st : S;
  emitted : list event
}.
Arguments Outcome {S A} res st emitted.
Arguments res {S A} o.
Arguments st {S A} o.
Arguments emitted {S A} o.

Definition prog (S A : Type) : Type := S → outcome S A.

Definition ret {S A} (a : A) : prog S A := fun s => Outcome (Ok a) s [].

Definition raise {S A} (e : exn) : prog S A := fun s => Outcome (Raise e) s [].

Definition bind {S A B} (m : prog S A) (f : A → prog S B) : prog S B :=
  fun s =>
    match m s with
    | Outcome (Ok a) s1 ev1 =>
        match f a s1 with
        | Outcome r s2 ev2 => Outcome r s2 (ev1 ++ ev2)
        end
    | Outcome (Raise e) s1 ev1 => Outcome (Raise e) s1 ev1
    end.

Definition emit {S} (e : event) : prog S unit := fun s => Outcome (Ok tt) s [e].

Definition get {S} : prog S S := fun s => Outcome (Ok s) s [].

Definition modify {S} (f : S → S) : prog S unit := fun s => Outcome (Ok tt) (f s) [].

Definition lift_result {S A} (r : result A) : prog S A :=
  match r with Ok a => ret a | Raise e => raise e end.

(** [try: body except Exception as e: handler e].  What the body did to
    the state and what it emitted before raising stays. *)
Definition try_except {S A} (body : prog S A) (handler : exn → prog S A) : prog S A :=
  fun s =>
    match body s with
    | Outcome (Ok a) s1 ev1 => Outcome (Ok a) s1 ev1
    | Outcome (Raise e) s1 ev1 =>
        match handler e s1 with
        | Outcome r s2 ev2 => Outcome r s2 (ev1 ++ ev2)
        end
    end.

(** [try: body finally: fin].  The final block runs on every exit of the
    body; an exception of the final block replaces the body's result. *)
Definition try_finally {S A} (body : prog S A) (fin : prog S unit) : prog S A :=
  fun s =>
    match body s with
    | Outcome r s1 ev1 =>
        match fin s1 with
        | Outcome (Ok _) s2 ev2 => Outcome r s2 (ev1 ++ ev2)
        | Outcome (Raise e) s2 ev2 => Outcome (Raise e) s2 (ev1 ++ ev2)
        end
    end.

(** [for x in l: body x] *)
Fixpoint for_each {S A} (l : list A) (body : A → prog S unit) : prog S unit :=
  match l with
  | [] => ret tt
  | x :: l' => bind (body x) (fun _ => for_each l' body)
  end.

(** Runs a computation over a local state [L] (the local variables a
    Python function mutates) inside a computation over [S]. *)
Definition with_local {S L A} (init : L) (m : prog L A) : prog S (result A * L) :=
  fun s =>
    match m init with
    | Outcome r l ev => Outcome (Ok (r, l)) s ev
    end.

End Py.

Import Py.

Notation "x <- m ;; k" := (bind m (fun x => k))
  (at level 100, m at next level, right associativity).
Notation "m ;;; k" := (bind m (fun _ => k))
  (at level 100, right associativity).


(** ** Strings, the way the source uses them *)

(** [sub in s] *)
Fixpoint contains (sub s : string) : bool :=
  String.prefix sub s
  || match s with
     | "" => false
     | String _ s' => contains sub s'
     end.

(** [s.startswith(p)] *)
Definition startswith (p s : string) : bool := String.prefix p s.

(** The rest of [s] after the prefix [p], when [s] starts with [p]. *)
Fixpoint strip_prefix (p s : string) : option string :=
  match p, s with
  | "", _ => Some s
  | String a p', String b s' => if Ascii.eqb a b then strip_prefix p' s' else None
  | String _ _, "" => None
  end.

(** The longest prefix of [s] whose characters satisfy [cls], and the rest:
    a greedy character-class repetition. *)
Fixpoint span (cls : ascii → bool) (s : string) : string * string :=
  match s with
  | "" => ("", "")
  | String c s' =>
      if cls c then let '(a, b) := span cls s' in (String c a, b)
      else ("", s)
  end.

Definition in_range (lo hi : nat) (c : ascii) : bool :=
  (lo <=? nat_of_ascii c)%nat && (nat_of_ascii c <=? hi)%nat.

(** [0-9]: the ASCII characters the digit escape of a pattern takes. *)
Definition is_digit (c : ascii) : bool := in_range 48 57 c.
Definition is_upper (c : ascii) : bool := in_range 65 90 c.          (* A-Z *)
Definition is_lower (c : ascii) : bool := in_range 97 122 c.         (* a-z *)
Definition is_alpha (c : ascii) : bool := is_upper c || is_lower c.

(** ASCII white space, what [str.strip()] removes (the white space
    beyond ASCII is multi-byte in UTF-8 and is left in place here). *)
Definition is_space (c : ascii) : bool :=
  in_range 9 13 c || in_range 28 32 c.

Fixpoint lstrip (s : string) : string :=
  match s with
  | "" => ""
  | String c s' => if is_space c then lstrip s' else s
  end.

Fixpoint rstrip (s : string) : string :=
  match s with
  | "" => ""
  | String c s' =>
      match rstrip s' with
      | "" => if is_space c then "" else String c ""
      | r => String c r
      end
  end.

(** [s.strip()] *)
Definition strip (s : string) : string := rstrip (lstrip s).

(** [s.replace(c, "")] for a one-character [c] *)
Fixpoint remove_char (c : ascii) (s : string) : string :=
  match s with
  | "" => ""
  | String a s' => if Ascii.eqb a c then remove_char c s' else String a (remove_char c s')
  end.

(** [s.split(c)[0]]: the part before the first [c] *)
Fixpoint before_char (c : ascii) (s : string) : string :=
  match s with
  | "" => ""
  | String a s' => if Ascii.eqb a c then "" else String a (before_char c s')
  end.

Definition slash : ascii := "/"%char.
Definition backslash : ascii := "\"%char.

(** [os.path.join(a, b)] on POSIX *)
Definition os_path_join (a b : string) : string :=
  if startswith "/" b then b
  else match a with
       | "" => b
       | _ => if String.eqb (String.substring (String.length a - 1) 1 a) "/"
              then a +:+ b else a +:+ "/" +:+ b
       end.

(** [os.path.basename(p)] on POSIX: what follows the last slash *)
Fixpoint os_path_basename (p : string) : string :=
  match p with
  | "" => ""
  | String c p' =>
      if contains "/" p then os_path_basename p' else p
  end.

(** [delete_boring_characters]: [re.sub(r'[\n\t\r]', '', text)] *)
Fixpoint delete_boring_characters (text : string) : string :=
  match text with
  | "" => ""
  | String c s' =>
      if in_range 10 10 c || in_range 9 9 c || in_range 13 13 c
      then delete_boring_characters s'
      else String c (delete_boring_characters s')
  end.

(** ** Configuration *)

Record config := Config {
  GLOBAL_NICKNAME : string;
  BILI_SESSDATA : string;
  VIDEO_DURATION_MAXIMUM : Z
}.

(** The defaults of the source: nickname "Bot", no session data, 480 s. *)
Definition default_config : config := Config "Bot" "" 480.

Definition VIDEO_MAX_MB : Z := 100.

(** A Python string is true when it is not empty. *)
Definition truthy (s : string) : bool := negb (String.eqb s "").

(** ** File size in megabytes *)

(** Python's [round(x)] on the exact value of [x]: to the nearest integer,
    ties to the even one. *)
Definition round_half_even (x : Q) : Z :=
  let f := Qfloor x in
  match (x - inject_Z f ?= 1 # 2)%Q with
  | Lt => f
  | Gt => f + 1
  | Eq => if Z.even f then f else f + 1
  end.

(** [round(x, 2)].
    The source divides an [int] by 2^20, which is exact in binary floating
    point for every size below 2^53, and [round] rounds the exact value of
    its argument; the result is the double nearest to a decimal with two
    places, kept here as that decimal. *)
Definition py_round2 (x : Q) : Q := Qred (inject_Z (round_half_even (x * 100)) / 100)%Q.

(** [size_in_bytes / (1024 * 1024)] *)
Definition bytes_to_mb (size_in_bytes : N) : Q :=
  (inject_Z (Z.of_N size_in_bytes) / inject_Z (1024 * 1024))%Q.

(** The path is shown as Python's [repr] shows a text of printable
    characters that holds neither a quote nor a backslash: between single
    quotes. *)
Definition FileNotFoundError (path : string) : exn :=
  Exn "FileNotFoundError" ("[Errno 2] No such file or directory: '" +:+ path +:+ "'").

Definition TypeError (msg : string) : exn := Exn "TypeError" msg.
Definition AttributeError (msg : string) : exn := Exn "AttributeError" msg.
Definition KeyError (msg : string) : exn := Exn "KeyError" msg.
Definition IndexError (msg : string) : exn := Exn "IndexError" msg.
Definition ValueError (msg : string) : exn := Exn "ValueError" msg.

(** The error of [int(s)] on a text that is no number; the text is shown
    between single quotes, as [repr] shows it. *)
Definition invalid_literal (s : string) : exn :=
  ValueError ("invalid literal for int() with base 10: '" +:+ s +:+ "'").

(** [os.path.getsize(file_path)]; [None] is not a path. *)
Definition os_path_getsize (file_path : option string) : prog (gmap string N) N :=
  match file_path with
  | None => raise (TypeError "stat: path should be string, bytes, os.PathLike or integer, not NoneType")
  | Some p =>
      fs <- get ;;
      match fs !! p with
      | Some n => ret n
      | None => raise (FileNotFoundError p)
      end
  end.

Definition get_file_size_mb (file_path : option string) : prog (gmap string N) Q :=
  size_in_bytes <- os_path_getsize file_path ;;
  let size_in_mb := bytes_to_mb size_in_bytes in
  ret (py_round2 size_in_mb).

(** [x > VIDEO_MAX_MB] *)
Definition exceeds_max_mb (file_size_in_mb : Q) : bool :=
  negb (Qle_bool file_size_in_mb (inject_Z VIDEO_MAX_MB)).

(** How Python prints a float with at most two decimal places (the value
    of [round(x, 2)]): the integer part, a point, and the decimals without
    a trailing zero, one digit at least. *)
Definition float_repr2 (x : Q) : string :=
  let c := Qfloor (x * 100) in
  let i := c / 100 in
  let d := c mod 100 in
  pretty i +:+ "." +:+
    (if d mod 10 =? 0 then pretty (d / 10)
     else if d <? 10 then "0" +:+ pretty d
     else pretty d).

(** ** The environment *)

Abbreviation fsys := (gmap string N).

(** The chat event that triggered the handler.  [send_both] and
    [upload_both] test it with [isinstance]. *)
Inductive chat_event :=
| GroupMessageEvent (group_id : Z)
| PrivateMessageEvent (user_id : Z)
| OtherEvent.

(** Where the adapter is asked to send: back to where the event came from
    ([bot.send], [bili_matcher.send]), to a group, or to a user. *)
Inductive target :=
| Origin
| ToGroup (group_id : Z)
| ToUser (user_id : Z).

(** What a call to the chat adapter does. *)
Inductive io_outcome := IoOk | IoRaise (e : exn).

(** What a call that writes a file does: it completes and leaves [size]
    bytes, or it raises and leaves nothing or a partial file. *)
Inductive write_outcome :=
| Written (size : N)
| Broken (partial : option N) (e : exn).

(** [video_info]: the fields of [v.get_info()] the handler reads. *)
Record page := Page { page_duration : option Z }.

Record video_info := VideoInfo {
  vi_title : string;
  vi_pic : string;
  vi_desc : string;
  vi_duration : Z;
  vi_pages : option (list page);     (* None: no 'pages' key *)
  vi_aid : Z
}.

Record online := Online { online_total : string; online_count : string }.

(** A JSON field that may be absent, null, or a list. *)
Inductive json_list (A : Type) :=
| Missing
| Null
| Items (l : list A).
Arguments Missing {A}.
Arguments Null {A}.
Arguments Items {A} l.

(** One sub-reply and one comment of [comment.get_comments]; [None] is a
    missing key. *)
Record sub_reply := SubReply { sr_message : option string }.

Record reply := Reply {
  r_uname : option string;           (* r['member']['uname'] *)
  r_message : option string;         (* r['content']['message'] *)
  r_like : option Z;                 (* r['like'] *)
  r_replies : json_list sub_reply    (* r.get("replies", []) *)
}.

Record page_info := PageInfo { pi_num : Z; pi_size : Z; pi_count : Z }.

Record comments_res := CommentsRes {
  cr_replies : json_list reply;      (* res.get("replies", []) *)
  cr_page : option page_info         (* res["page"] *)
}.

Record world := World {
  (* the process *)
  w_cwd : string;                                    (* os.getcwd() *)
  w_clock : string;                                  (* str(time.time()) *)
  (* library functions *)
  w_query_params : string → gmap string (list string);
                                                     (* parse_qs(urlparse(url).query) *)
  w_int : string → option Z;                         (* int(s); None: ValueError *)
  (* the chat adapter *)
  w_send : target → list segment → io_outcome;
  w_upload : target → string → string → io_outcome;
  w_forward : target → list (list segment) → io_outcome;
  w_thumbnail : string → option N;                   (* the adapter's .jpg next to a video it is handed *)
  (* HTTP *)
  w_resolve_short : string → result string;          (* httpx.get(..., follow_redirects=True).url *)
  w_fetch : string → write_outcome;                  (* the streamed GET of download_video *)
  w_pagelist : string → result (option (list (option Z)));
                                                     (* pagelist request; resp.json()["data"] with each "cid" *)
  w_danmaku_xml : Z → result (option (list (option string)));
                                                     (* dm list request; None: not XML; else each d.text *)
  (* the platform API *)
  w_get_info : string → result (option video_info);  (* None: an empty record *)
  w_get_online : string → result online;
  w_extra_bili_info : video_info → string;
  w_best_streams : string → Z → result (string * string);
                                                     (* get_download_url, detect_best_streams, the two urls *)
  w_get_comments : Z → Z → result comments_res;      (* comment.get_comments(oid, page_index) *)
  (* bilibili_analysis *)
  w_download_b_file : string → string → write_outcome;
  w_first_done : stream;                             (* which of the two downloads ends first *)
  w_inflight : option N;                             (* what the other has written by then *)
  w_merge : string → string → string → write_outcome;
  (* the bodies of the branches that are not about videos *)
  w_dynamic : string → prog fsys unit;
  w_live : string → prog fsys unit;
  w_read : string → prog fsys unit;
  w_favlist : string → prog fsys unit;
  (* get_cid(0), get_ai_conclusion, and the summary of the model result if there is one *)
  w_ai_summary : string → result (option string)
}.

(** ** Files *)

Definition write_file (path : string) (size : N) : prog fsys unit :=
  emit (EvCreate path) ;;; modify (fun fs : fsys => <[path := size]> fs).

(** What a file system keeps of a text that is written to a file: [fsys]
    keeps the number of its bytes, [disk] the bytes. *)
Class TextStore (S : Type) := store_text : string → string → S → S.

#[global] Instance fsys_text : TextStore fsys :=
  fun path text fs => <[path := N.of_nat (String.length text)]> fs.

(** A file system that keeps the bytes of every file. *)
Definition disk : Type := gmap string string.

#[global] Instance disk_text : TextStore disk :=
  fun path text d => <[path := text]> d.

(** A file is opened for writing and [text] is written to it. *)
Definition write_text {S} `{TextStore S} (path text : string) : prog S unit :=
  emit (EvCreate path) ;;; modify (store_text path text).

Definition os_path_exists (path : string) : prog fsys bool :=
  fs <- get ;; ret (bool_decide (is_Some ((fs : fsys) !! path))).

Definition os_remove (path : string) : prog fsys unit :=
  fs <- get ;;
  match (fs : fsys) !! path with
  | Some _ => emit (EvRemove path) ;;; modify (fun fs : fsys => delete path fs)
  | None => raise (FileNotFoundError path)
  end.

(** [if os.path.exists(f): os.remove(f)] *)
Definition remove_if_exists (f : string) : prog fsys unit :=
  exists_ <- os_path_exists f ;;
  if (exists_ : bool) then os_remove f else ret tt.

(** A file-writing call with the outcome the world gives it. *)
Definition write_with (o : write_outcome) (path : string) : prog fsys unit :=
  match o with
  | Written n => write_file path n
  | Broken (Some n) e => write_file path n ;;; raise e
  | Broken None e => raise e
  end.

(** ** The chat adapter *)

Definition lift_io {S} (o : io_outcome) : prog S unit :=
  match o with IoOk => ret tt | IoRaise e => raise e end.

(** The adapter writes a thumbnail next to a local video it is given. *)
Definition thumbnails (w : world) (m : list segment) : prog fsys unit :=
  for_each m (fun seg =>
    match seg with
    | SegVideo file =>
        match strip_prefix "file://" file with
        | Some p =>
            match w_thumbnail w p with
            | Some n => write_file (p +:+ ".jpg") n
            | None => ret tt
            end
        | None => ret tt
        end
    | _ => ret tt
    end).

Definition adapter_send (w : world) (to : target) (m : list segment) : prog fsys unit :=
  emit (EvSend m) ;;; thumbnails w m ;;; lift_io (w_send w to m).

Definition adapter_upload (w : world) (to : target) (file name : string) : prog fsys unit :=
  emit (EvUpload file name) ;;; lift_io (w_upload w to file name).

Definition send_both (w : world) (ev : chat_event) (segments : segment) : prog fsys unit :=
  match ev with
  | GroupMessageEvent group_id => adapter_send w (ToGroup group_id) [segments]
  | PrivateMessageEvent user_id => adapter_send w (ToUser user_id) [segments]
  | OtherEvent => ret tt
  end.

Definition upload_both (w : world) (ev : chat_event) (file_path name : string) : prog fsys unit :=
  match ev with
  | GroupMessageEvent group_id => adapter_upload w (ToGroup group_id) file_path name
  | PrivateMessageEvent user_id => adapter_upload w (ToUser user_id) file_path name
  | OtherEvent => ret tt
  end.

(** [make_node_segment(user_id, segments)] for a list: one node for each
    element, its content the message made of that element. *)
Definition make_node_segment (segments : list string) : list (list segment) :=
  map (fun segment => [SegText segment]) segments.

(** [send_forward_both]: the second branch reads [event.user_id], which an
    event that is not a private message need not have. *)
Definition send_forward_both (w : world) (ev : chat_event) (segments : list (list segment))
  : prog fsys unit :=
  match ev with
  | GroupMessageEvent group_id =>
      emit (EvForward segments) ;;; lift_io (w_forward w (ToGroup group_id) segments)
  | PrivateMessageEvent user_id =>
      emit (EvForward segments) ;;; lift_io (w_forward w (ToUser user_id) segments)
  | OtherEvent => raise (AttributeError "'Event' object has no attribute 'user_id'")
  end.

(** ** Delivery *)

Definition nl : string := String (ascii_of_nat 10) "".

(** [download_video(url)]: the file is opened once the response stream is
    there, and is written chunk by chunk; the path is returned only when
    the whole body has arrived. *)
Definition download_video (w : world) (url : string) : prog fsys string :=
  let file_name := w_clock w +:+ ".mp4" in
  emit (EvFetchStart url) ;;;
  match w_fetch w url with
  | Written n =>
      write_file (os_path_join (w_cwd w) file_name) n ;;;
      emit (EvFetchEnd true) ;;;
      ret (os_path_join (w_cwd w) file_name)
  | Broken partial e =>
      match partial with
      | Some n => write_file (os_path_join (w_cwd w) file_name) n
      | None => ret tt
      end ;;;
      emit (EvFetchEnd false) ;;;
      raise e
  end.

(** Runs [m] and hands back its result instead of raising. *)
Definition attempt {S A} (m : prog S A) : prog S (result A) :=
  fun s =>
    match m s with
    | Outcome r s1 ev1 => Outcome (Ok r) s1 ev1
    end.

(** [str(data_path)] inside an f-string *)
Definition str_of_path (data_path : option string) : string :=
  match data_path with Some p => p | None => "None" end.

Definition oversize_notice (file_size_in_mb : Q) : string :=
  "当前解析文件 " +:+ float_repr2 file_size_in_mb +:+ " MB 大于 " +:+ pretty VIDEO_MAX_MB
  +:+ " MB，尝试改用文件方式发送，请稍等...".

(** The [finally] block of [auto_video_send]. *)
Definition unlink_artifacts (data_path : option string) : prog fsys unit :=
  for_each [data_path; Some (str_of_path data_path +:+ ".jpg")] (fun path =>
    match path with
    | Some p => if truthy p then remove_if_exists p else ret tt
    | None => ret tt
    end).

(** [auto_video_send(event, data_path)].
    The local variable [data_path] is rebound at line 113 only when
    [download_video] returns; [fetched] is that call's result and
    [data_path'] the variable as the rest of the function sees it. *)
Definition auto_video_send (w : world) (ev : chat_event) (data_path : option string)
  : prog fsys unit :=
  fetched <- attempt
    (match data_path with
     | Some p => if startswith "http" p
                 then (p' <- download_video w p ;; ret (Some p'))
                 else ret data_path
     | None => ret data_path
     end) ;;
  let data_path' := match fetched with Ok p => p | Raise _ => data_path end in
  try_finally
    (try_except
       (lift_result fetched ;;;
        file_size_in_mb <- get_file_size_mb data_path' ;;
        if exceeds_max_mb file_size_in_mb then
          adapter_send w Origin [SegText (oversize_notice file_size_in_mb)] ;;;
          upload_both w ev (str_of_path data_path') (os_path_basename (str_of_path data_path'))
        else
          send_both w ev (SegVideo ("file://" +:+ str_of_path data_path')))
       (fun e => emit (EvLog ("解析发送出现错误，具体为" +:+ nl +:+ exn_msg e))))
    (unlink_artifacts data_path').

(** ** Danmaku and comments *)

(** [get_danmaku_list_async(bvid)].  The local list [danmaku_list] is the
    state; an element is [None] when the XML element has no text. *)
Definition get_danmaku_list_async {S} (w : world) (bvid : string)
  : prog S (list (option string)) :=
  r <- with_local ([] : list (option string))
    (try_except
       (data <- lift_result (w_pagelist w bvid) ;;
        cid <- match data with
               | None => raise (KeyError "'data'")
               | Some [] => raise (IndexError "list index out of range")
               | Some (None :: _) => raise (KeyError "'cid'")
               | Some (Some cid :: _) => ret cid
               end ;;
        xml <- lift_result (w_danmaku_xml w cid) ;;
        root <- match xml with
                | None => raise (Exn "ParseError" "syntax error")
                | Some ds => ret ds
                end ;;
        modify (fun danmaku_list => danmaku_list ++ root))
       (fun e => emit (EvLog ("获取弹幕失败: " +:+ exn_msg e)))) ;;
  match r with
  | (Ok _, danmaku_list) => ret danmaku_list
  | (Raise e, _) => raise e
  end.

(** The local variables [comments_list] and [count]. *)
Definition comments_state : Type := list string * Z.

(** [comments_list.append(s); count += 1] *)
Definition append_comment (s : string) : prog comments_state unit :=
  modify (fun cs : comments_state => (cs.1 ++ [s], cs.2 + 1)).

(** [d[key]] on a record whose key may be missing *)
Definition subscript {S A} (key : string) (field : option A) : prog S A :=
  match field with
  | Some a => ret a
  | None => raise (KeyError key)
  end.

(** The body of [for r in replies]. *)
Definition append_reply (r : reply) : prog comments_state unit :=
  uname <- subscript "'uname'" (r_uname r) ;;
  message <- subscript "'message'" (r_message r) ;;
  like <- subscript "'like'" (r_like r) ;;
  append_comment (uname +:+ ":" +:+ message +:+ ",点赞：" +:+ pretty like) ;;;
  sub <- match r_replies r with
         | Missing => ret []
         | Null => raise (TypeError "'NoneType' object is not iterable")
         | Items l => ret l
         end ;;
  for_each sub (fun reply =>
    uname <- subscript "'uname'" (r_uname r) ;;
    message <- subscript "'message'" (sr_message reply) ;;
    append_comment ("回复@" +:+ uname +:+ ": " +:+ message)).

(** The [while count < max_comments] loop, from page [page] on.  The
    result says whether the loop came to its end within [fuel] rounds. *)
Fixpoint comments_loop (w : world) (aid max_comments : Z) (fuel : nat) (page : Z)
  : prog comments_state bool :=
  cs <- get ;;
  if (cs : comments_state).2 <? max_comments then
    match fuel with
    | O => ret false
    | S fuel' =>
        res <- lift_result (w_get_comments w aid page) ;;
        match cr_replies res with
        | Items (r :: rs) =>
            for_each (r :: rs) append_reply ;;;
            pg <- subscript "'page'" (cr_page res) ;;
            if pi_count pg <=? pi_num pg * pi_size pg then ret true
            else comments_loop w aid max_comments fuel' (page + 1)
        | _ => ret true
        end
    end
  else ret true.

(** The [try] statement around the loop, entered with the loop at page
    [page]. *)
Definition comments_fetch_from (w : world) (aid max_comments : Z) (fuel : nat) (page : Z)
  : prog comments_state bool :=
  try_except
    (comments_loop w aid max_comments fuel page)
    (fun e => emit (EvLog ("获取评论失败: " +:+ exn_msg e)) ;;; ret true).

Definition comments_fetch (w : world) (aid max_comments : Z) : prog comments_state bool :=
  comments_fetch_from w aid max_comments (Z.to_nat max_comments) 1.

(** [get_comments_list_async(aid, max_comments)] *)
Definition get_comments_list_async {S} (w : world) (aid : Z) (max_comments : Z)
  : prog S (list string) :=
  r <- with_local (([], 0) : comments_state) (comments_fetch w aid max_comments) ;;
  match r with
  | (Ok _, (comments_list, _)) => ret comments_list
  | (Raise e, _) => raise e
  end.

(** ** The CSV export *)

(** [itertools.zip_longest(a, b, fillvalue=fill)] *)
Fixpoint zip_longest {A B} (a : list A) (b : list B) (fa : A) (fb : B) : list (A * B) :=
  match a with
  | [] => map (fun y => (fa, y)) b
  | x :: a' =>
      match b with
      | [] => (x, fb) :: zip_longest a' [] fa fb
      | y :: b' => (x, y) :: zip_longest a' b' fa fb
      end
  end.

Definition dquote : ascii := ascii_of_nat 34.
Definition comma : ascii := ","%char.
Definition cr : ascii := ascii_of_nat 13.
Definition lf : ascii := ascii_of_nat 10.

(** [csv.writer] with the default dialect: a field is quoted when it
    holds the delimiter, the quote character or a line break, and a quote
    character inside it is doubled. *)
Fixpoint needs_quote (field : string) : bool :=
  match field with
  | "" => false
  | String c s' =>
      Ascii.eqb c comma || Ascii.eqb c dquote || Ascii.eqb c cr || Ascii.eqb c lf
      || needs_quote s'
  end.

Fixpoint double_quotes (field : string) : string :=
  match field with
  | "" => ""
  | String c s' =>
      if Ascii.eqb c dquote then String dquote (String dquote (double_quotes s'))
      else String c (double_quotes s')
  end.

Definition csv_field (field : string) : string :=
  if needs_quote field
  then String dquote (double_quotes field) +:+ String dquote ""
  else field.

(** How the writer prints a cell: [None] as the empty string. *)
Definition csv_cell (cell : option string) : string :=
  match cell with Some s => s | None => "" end.

(** One [writer.writerow([a, b])] *)
Definition csv_row (a b : string) : string :=
  csv_field a +:+ String comma "" +:+ csv_field b +:+ String cr (String lf "").

(** The rows handed to [writerow] after the header. *)
Definition csv_data_rows (danmakus : list (option string)) (comments : list string)
  : list (string * string) :=
  map (fun dc => (csv_cell dc.1, dc.2))
      (zip_longest danmakus comments (Some "") "").

(** The byte order mark the codec utf-8-sig writes first. *)
Definition utf8_bom : string :=
  String (ascii_of_nat 239) (String (ascii_of_nat 187) (String (ascii_of_nat 191) "")).

Definition csv_header : string * string := ("弹幕", "评论").

(** The text the calls of [writerow] produce, one after the other. *)
Definition csv_body (rows : list (string * string)) : string :=
  fold_right (fun row acc => csv_row row.1 row.2 +:+ acc) "" rows.

(** The bytes of the file. *)
Definition csv_file_bytes (danmakus : list (option string)) (comments : list string) : string :=
  utf8_bom +:+ csv_body (csv_header :: csv_data_rows danmakus comments).

Definition DEFAULT_MAX_COMMENTS : Z := 2000.

(** [create_danmaku_comment_csv_async(bvid, aid)].  Neither fetcher
    raises, so the order in which [asyncio.gather] runs them shows only in
    the order of their log lines; the danmaku come first here.  The
    function touches the file system only by writing its file, so it runs
    on every file system that takes a text. *)
Definition create_danmaku_comment_csv_async {S} `{TextStore S}
    (w : world) (bvid : string) (aid : Z) : prog S string :=
  danmakus <- get_danmaku_list_async w bvid ;;
  comments <- get_comments_list_async w aid DEFAULT_MAX_COMMENTS ;;
  let file_path := os_path_join (w_cwd w) (bvid +:+ "_弹幕评论.csv") in
  write_text file_path (csv_file_bytes danmakus comments) ;;;
  emit (EvLog ("数据已保存至: " +:+ file_path)) ;;;
  ret file_path.

(** ** Regular expressions of the handler

    Each pattern of the source is written out as a matcher [string →
    option _] that gives the match of the pattern at the start of its
    argument; [re_search] tries the positions from left to right, as
    [re.search] does.  The patterns have no choice that needs
    backtracking: their alternatives differ in a literal character and
    their only repetitions are a greedy character class at the end. *)

Fixpoint re_search {A} (m : string → option A) (s : string) : option A :=
  match m s with
  | Some a => Some a
  | None =>
      match s with
      | "" => None
      | String _ s' => re_search m s'
      end
  end.

(** A character of a pattern: a literal, [.] (anything but a line feed;
    one byte here, so one ASCII character), or a class. *)
Inductive atom :=
| Chr (c : ascii)
| Dot
| Cls (f : ascii → bool).

Definition atom_ok (a : atom) (c : ascii) : bool :=
  match a with
  | Chr c' => Ascii.eqb c' c
  | Dot => negb (Ascii.eqb c lf)
  | Cls f => f c
  end.

(** Matches a sequence of atoms; the result is the rest of the string. *)
Fixpoint match_atoms (p : list atom) (s : string) : option string :=
  match p with
  | [] => Some s
  | a :: p' =>
      match s with
      | "" => None
      | String c s' => if atom_ok a c then match_atoms p' s' else None
      end
  end.

Fixpoint lit (s : string) : list atom :=
  match s with
  | "" => []
  | String c s' => Chr c :: lit s'
  end.

(** [$]: the end of the string, or just before a final line feed *)
Definition at_end (s : string) : bool :=
  String.eqb s "" || String.eqb s (String lf "").

(** [[0-9a-zA-Z]] and [[1-9a-zA-Z]] *)
Definition is_alnum (c : ascii) : bool := is_digit c || is_alpha c.
Definition is_alnum_no0 (c : ascii) : bool := in_range 49 57 c || is_alpha c.

(** [[A-Za-z\d._?%&+\-=\/#]] *)
Definition is_url_char (c : ascii) : bool :=
  is_alpha c || is_digit c
  || existsb (Ascii.eqb c) (list_ascii_of_string "._?%&+-=/#").

(** [[^\\/ ]] *)
Definition is_id_char (c : ascii) : bool :=
  negb (Ascii.eqb c backslash || Ascii.eqb c slash || Ascii.eqb c " "%char).

Definition is_match {A} (o : option A) : bool :=
  match o with Some _ => true | None => false end.

(** [^BV[0-9a-zA-Z]{10}$] at the start of the text *)
Definition bv_trigger (text : string) : bool :=
  match match_atoms (lit "BV" ++ replicate 10 (Cls is_alnum)) text with
  | Some rest => at_end rest
  | None => false
  end.

(** The rule of [bili_matcher]:
    [re.search(r"(bilibili.com|b23.tv|bili2233.cn|^BV[0-9a-zA-Z]{10}$)", text)] *)
Definition bili_matcher (text : string) : bool :=
  is_match (re_search (match_atoms (lit "bilibili" ++ [Dot] ++ lit "com")) text)
  || is_match (re_search (match_atoms (lit "b23" ++ [Dot] ++ lit "tv")) text)
  || is_match (re_search (match_atoms (lit "bili2233" ++ [Dot] ++ lit "cn")) text)
  || bv_trigger text.

(** [re.match(r'^BV[1-9a-zA-Z]{10}$', url)] *)
Definition bv_expand (url : string) : bool :=
  match match_atoms (lit "BV" ++ replicate 10 (Cls is_alnum_no0)) url with
  | Some rest => at_end rest
  | None => false
  end.

Definition orelse {A} (a b : option A) : option A :=
  match a with Some _ => a | None => b end.

(** A greedy character class at the end of a pattern: [cls*] and [cls+]. *)
Definition many (cls : ascii → bool) (s : string) : string := (span cls s).1.

Definition many1 (cls : ascii → bool) (s : string) : option string :=
  match many cls s with
  | "" => None
  | g => Some g
  end.

(** [b_short_rex]:
    [(https?://(?:b23\.tv|bili2233\.cn)/[A-Za-z\d._?%&+\-=\/#]+)], group 0 *)
Definition b_short_rex (s : string) : option string :=
  let host (scheme : string) (r : string) : option string :=
    let tail (h : string) : option string :=
      r' ← strip_prefix h r;
      r'' ← strip_prefix "/" r';
      g ← many1 is_url_char r'';
      Some (scheme +:+ h +:+ "/" +:+ g) in
    orelse (tail "b23.tv") (tail "bili2233.cn") in
  orelse (strip_prefix "https://" s ≫= host "https://")
         (strip_prefix "http://" s ≫= host "http://").

(** [url_reg]:
    [(http:|https:)\\/\/(space|www|live).bilibili.com\/[A-Za-z\d._?%&+\-=\/#]*],
    group 0.  In the raw string [\\] is a literal backslash, so the
    pattern asks for a backslash between the colon and the two slashes. *)
Definition url_reg (s : string) : option string :=
  let body (scheme : string) (r : string) : option string :=
    r1 ← strip_prefix (String backslash "//") r;
    let sub (name : string) : option string :=
      r2 ← strip_prefix name r1;
      r3 ← match_atoms ([Dot] ++ lit "bilibili" ++ [Dot] ++ lit "com" ++ lit "/") r2;
      Some (String.substring 0
              (String.length s - String.length r3 + String.length (many is_url_char r3)) s) in
    orelse (sub "space") (orelse (sub "www") (sub "live")) in
  orelse (strip_prefix "http:" s ≫= body "http:")
         (strip_prefix "https:" s ≫= body "https:").

(** [\/(\d+)], group 1 *)
Definition live_rex (s : string) : option string :=
  strip_prefix "/" s ≫= many1 is_digit.

(** [read\/cv(\d+)], group 1 *)
Definition read_rex (s : string) : option string :=
  strip_prefix "read/cv" s ≫= many1 is_digit.

(** [favlist\?fid=(\d+)], group 1 *)
Definition favlist_rex (s : string) : option string :=
  strip_prefix "favlist?fid=" s ≫= many1 is_digit.

(** [video\/([^\\/ ]+)], group 1 *)
Definition video_rex (s : string) : option string :=
  strip_prefix "video/" s ≫= many1 is_id_char.

(** ** The media pipeline *)

(** A coroutine with one suspension: what it does when it is started, what
    it does when it is resumed and runs to its end, and what it has left
    behind when the awaiting caller is resumed before it. *)
Record task := Task {
  t_start : prog fsys unit;
  t_finish : prog fsys unit;
  t_inflight : prog fsys unit
}.

(** [await asyncio.gather(t1, t2)]: both coroutines are wrapped in tasks
    and started in the order of the arguments; the caller is resumed when
    both have returned, or as soon as one raises, with that exception (the
    other is not cancelled and not awaited).  [first] says which of the
    two comes to its end first. *)
Definition gather2 (first : stream) (t1 t2 : task) : prog fsys unit :=
  t_start t1 ;;;
  t_start t2 ;;;
  let '(a, b) := match first with Video => (t1, t2) | Audio => (t2, t1) end in
  r <- attempt (t_finish a) ;;
  match r with
  | Ok _ => t_finish b
  | Raise e => t_inflight b ;;; raise e
  end.

(** Modelled from the spec: [download_b_file] of the module
    [bilibili_analysis], the chunked fetcher of section 4.1.  It opens a
    streaming connection and appends the chunks to the destination; on an
    error it raises and leaves the partial file to its caller. *)
Definition download_b_file (w : world) (k : stream) (url path : string) : task :=
  {| t_start := emit (EvDownloadStart k);
     t_finish :=
       try_finally (write_with (w_download_b_file w url path) path)
         (emit (EvDownloadEnd k
            (match w_download_b_file w url path with Written _ => true | _ => false end)));
     t_inflight :=
       match w_inflight w with
       | Some n => write_file path n
       | None => ret tt
       end |}.

(** Modelled from the spec: [merge_file_to_mp4] of the module
    [bilibili_analysis], the muxer of section 4.3.  It writes one file at
    [output_path], never touches its inputs, and raises when the muxing
    fails. *)
Definition merge_file_to_mp4 (w : world) (video_path audio_path output_path : string)
  : prog fsys unit :=
  emit EvMuxStart ;;;
  try_finally (write_with (w_merge w video_path audio_path output_path) output_path)
    (emit (EvMuxEnd
       (match w_merge w video_path audio_path output_path with Written _ => true | _ => false end))).

(** Lines 310 to 325 of [handle_bilibili]. *)
Definition media_pipeline (w : world) (ev : chat_event)
    (video_id video_url audio_url : string) : prog fsys unit :=
  let path := os_path_join (w_cwd w) video_id in
  let video_path := path +:+ "-video.m4s" in
  let audio_path := path +:+ "-audio.m4s" in
  let output_path := path +:+ "-res.mp4" in
  try_finally
    (gather2 (w_first_done w)
       (download_b_file w Video video_url video_path)
       (download_b_file w Audio audio_url audio_path) ;;;
     merge_file_to_mp4 w video_path audio_path output_path ;;;
     auto_video_send w ev (Some output_path))
    (for_each [video_path; audio_path] remove_if_exists).

(** ** The export and the summary *)

Definition exporting_notice : string := "正在导出弹幕和评论，请稍候...".
Definition export_apology : string := "导出弹幕评论失败了。".

(** Lines 327 to 334 of [handle_bilibili]. *)
Definition export_block (w : world) (ev : chat_event) (video_id : string) (aid : Z)
  : prog fsys unit :=
  try_except
    (adapter_send w Origin [SegText exporting_notice] ;;;
     csv_file_path <- create_danmaku_comment_csv_async w video_id aid ;;
     upload_both w ev csv_file_path (os_path_basename csv_file_path) ;;;
     os_remove csv_file_path)
    (fun e =>
       emit (EvLog ("导出弹幕评论CSV失败: " +:+ exn_msg e)) ;;;
       adapter_send w Origin [SegText export_apology]).

(** Lines 336 to 340 of [handle_bilibili]. *)
Definition ai_block (cfg : config) (w : world) (ev : chat_event) (video_id : string)
  : prog fsys unit :=
  if truthy (BILI_SESSDATA cfg) then
    summary <- lift_result (w_ai_summary w video_id) ;;
    match summary with
    | Some text =>
        if truthy text
        then send_forward_both w ev (make_node_segment ["bilibili AI总结"; text])
        else ret tt
    | None => ret tt
    end
  else ret tt.

(** ** The video branch of the handler *)

(** [l[i]] with Python's negative indices *)
Definition py_index {A} (l : list A) (i : Z) : option A :=
  if 0 <=? i then l !! Z.to_nat i
  else if - Z.of_nat (List.length l) <=? i then l !! Z.to_nat (Z.of_nat (List.length l) + i)
  else None.

(** Lines 284 to 287: the zero-based page index from the query.  The
    result of [urlparse] is a non-empty tuple and so always true; an empty
    dictionary is false. *)
Definition page_num_of (w : world) (url : string) : result Z :=
  let query_params := w_query_params w url in
  if bool_decide (query_params = ∅) then Ok 0
  else
    match query_params !! "p" with
    | None => Ok (1 - 1)                          (* int([1][0]) - 1 *)
    | Some [] => Raise (IndexError "list index out of range")
    | Some (s :: _) =>
        match w_int w s with
        | Some k => Ok (k - 1)
        | None => Raise (invalid_literal s)
        end
    end.

(** Lines 289 and 290: the duration the limit is applied to. *)
Definition select_duration (video_info : video_info) (page_num : Z) : result Z :=
  let video_duration := vi_duration video_info in
  match vi_pages video_info with
  | Some pages =>
      if page_num <? Z.of_nat (List.length pages) then
        match py_index pages page_num with
        | Some pg => Ok (default video_duration (page_duration pg))
        | None => Raise (IndexError "list index out of range")
        end
      else Ok video_duration
  | None => Ok video_duration
  end.

Definition info_msg_of (cfg : config) (w : world) (video_info : video_info) (online : online)
  : string :=
  let video_title_safe := delete_boring_characters (vi_title video_info) in
  let online_str := "🏄‍♂️ 总共 " +:+ online_total online +:+ " 人在观看，"
                    +:+ online_count online +:+ " 人在网页端观看" in
  nl +:+ GLOBAL_NICKNAME cfg +:+ "识别：B站，" +:+ video_title_safe +:+ nl
  +:+ w_extra_bili_info w video_info +:+ nl
  +:+ "📝 简介：" +:+ vi_desc video_info +:+ nl +:+ online_str.

Definition too_long_notice (cfg : config) (video_duration : Z) : string :=
  nl +:+ "---------" +:+ nl +:+ "⚠️ 当前视频时长 " +:+ pretty (video_duration / 60)
  +:+ " 分钟，超过管理员设置的最长时间 " +:+ pretty (VIDEO_DURATION_MAXIMUM cfg / 60)
  +:+ " 分钟！".

(** Lines 276 to 340 of [handle_bilibili]. *)
Definition video_branch (cfg : config) (w : world) (ev : chat_event) (url video_id : string)
  : prog fsys unit :=
  got <- lift_result (w_get_info w video_id) ;;
  match got with
  | None =>
      adapter_send w Origin [SegText (GLOBAL_NICKNAME cfg +:+ "识别：B站，出错，无法获取数据！")]
  | Some video_info =>
      page_num <- lift_result (page_num_of w url) ;;
      video_duration <- lift_result (select_duration video_info page_num) ;;
      online <- lift_result (w_get_online w video_id) ;;
      let info_msg := info_msg_of cfg w video_info online in
      (if VIDEO_DURATION_MAXIMUM cfg <? video_duration then
         adapter_send w Origin
           [SegImage (vi_pic video_info);
            SegText (info_msg +:+ too_long_notice cfg video_duration)]
       else
         adapter_send w Origin [SegImage (vi_pic video_info); SegText info_msg] ;;;
         urls <- lift_result (w_best_streams w video_id page_num) ;;
         media_pipeline w ev video_id urls.1 urls.2) ;;;
      export_block w ev video_id (vi_aid video_info) ;;;
      ai_block cfg w ev video_id
  end.

(** ** The handler *)

Definition NoneType_subscript : exn := TypeError "'NoneType' object is not subscriptable".
Definition NoneType_group : exn := AttributeError "'NoneType' object has no attribute 'group'".

Definition handle_bilibili (cfg : config) (w : world) (ev : chat_event) (message : string)
  : prog fsys unit :=
  let url := strip message in
  let url := if bv_expand url then "https://www.bilibili.com/video/" +:+ url else url in
  url <- (if contains "b23.tv" url || contains "bili2233.cn" url || contains "QQ小程序" url
          then
            match re_search b_short_rex (remove_char backslash url) with
            | Some b_short_url => lift_result (w_resolve_short w b_short_url)
            | None => raise NoneType_subscript
            end
          else
            ret (match re_search url_reg url with
                 | Some matched => matched
                 | None => url
                 end)) ;;
  if (contains "t.bilibili.com" url || contains "/opus" url) && truthy (BILI_SESSDATA cfg) then
    w_dynamic w url
  else if contains "live" url then
    match re_search live_rex (before_char "?" url) with
    | Some room_id => w_live w room_id
    | None => raise NoneType_group
    end
  else if contains "read" url then
    match re_search read_rex url with
    | Some read_id => w_read w read_id
    | None => raise NoneType_group
    end
  else if contains "favlist" url && truthy (BILI_SESSDATA cfg) then
    match re_search favlist_rex url with
    | Some fav_id => w_favlist w fav_id
    | None => raise NoneType_group
    end
  else
    match re_search video_rex url with
    | Some video_id => video_branch cfg w ev url video_id
    | None => ret tt
    end.

(** ** Sample environments *)

Definition ConnectError : exn := Exn "ConnectError" "All connection attempts failed".
Definition ActionFailed : exn := Exn "ActionFailed" "retcode=1200".

Definition MuxError : exn := Exn "MuxError" "ffmpeg exited with status 1".

(** A video without a page list. *)
Definition sample_info (duration : Z) : video_info :=
  VideoInfo "title" "cover.png" "desc" duration None 42.

(** A three-page video of 300 s; the pages last 100 s, an unknown time,
    and 700 s. *)
Definition paged_info : video_info :=
  VideoInfo "title" "cover.png" "desc" 300
            (Some [Page (Some 100); Page None; Page (Some 700)]) 42.

(** Unsigned decimal numerals, the part of [int] the samples need. *)
Fixpoint parse_digits (acc : Z) (s : string) : option Z :=
  match s with
  | "" => Some acc
  | String c s' =>
      if is_digit c then parse_digits (10 * acc + Z.of_nat (nat_of_ascii c) - 48) s'
      else None
  end.

Definition sample_int (s : string) : option Z :=
  match s with "" => None | _ => parse_digits 0 s end.

(** An environment in which every call succeeds, but for the outcomes
    given as arguments; [p] is the value of the query parameter of that
    name, if the URL has one. *)
Definition sample_world (info : video_info) (p : option string) (upload : io_outcome)
    (fetch dl_video dl_audio merge : write_outcome) : world :=
  {| w_cwd := "/bot";
     w_clock := "1700000000.5";
     w_query_params := fun _ => match p with Some s => {["p" := [s]]} | None => ∅ end;
     w_int := sample_int;
     w_send := fun _ _ => IoOk;
     w_upload := fun _ _ _ => upload;
     w_forward := fun _ _ => IoOk;
     w_thumbnail := fun _ => Some 7%N;
     w_resolve_short := fun u => Ok u;
     w_fetch := fun _ => fetch;
     w_pagelist := fun _ => Ok (Some [Some 7]);
     w_danmaku_xml := fun _ => Ok (Some [Some "d1"; None]);
     w_get_info := fun _ => Ok (Some info);
     w_get_online := fun _ => Ok (Online "3" "1");
     w_extra_bili_info := fun _ => "extra";
     w_best_streams := fun _ _ => Ok ("http://v", "http://a");
     w_get_comments := fun _ _ =>
       Ok (CommentsRes
             (Items [Reply (Some "u") (Some "m") (Some 5) (Items [SubReply (Some "r")])])
             (Some (PageInfo 1 20 1)));
     w_download_b_file := fun url _ => if String.eqb url "http://v" then dl_video else dl_audio;
     w_first_done := Video;
     w_inflight := None;
     w_merge := fun _ _ _ => merge;
     w_dynamic := fun _ => ret tt;
     w_live := fun _ => ret tt;
     w_read := fun _ => ret tt;
     w_favlist := fun _ => ret tt;
     w_ai_summary := fun _ => Ok None |}.

Definition sample_url : string := "https://www.bilibili.com/video/BV1xx411c7mD".
Definition sample_event : chat_event := GroupMessageEvent 1.

Definition calm_world : world :=
  sample_world (sample_info 300) None IoOk (Written 10) (Written 1000) (Written 1000) (Written 2000).

(** The files of a state, as a list. *)
Definition files_of {A} (o : outcome fsys A) : list (string * N) := map_to_list (st o).

(** ** The branches that are not about videos

    The bodies the handler runs once it has cut a number out of the
    address.  The handler takes them from the world ([w_live], [w_read],
    [w_favlist]); here they are written out, with what the platform API
    answers as a parameter. *)

(** [room_info]: the fields of [room.get_room_info()['room_info']] the
    handler reads; [None] is a missing key. *)
Record room_info := RoomInfo {
  ri_title : option string;
  ri_cover : option string;
  ri_keyframe : option string
}.

(** Lines 240 to 245 of [handle_bilibili], the live branch once the room
    number is cut out of the address.  [get_room_info] stands for
    [live.LiveRoom(room_display_id=...).get_room_info()]; its value is the
    ['room_info'] entry of the answer, if the answer has one. *)
Definition live_branch (cfg : config) (w : world)
    (get_room_info : Z → result (option room_info)) (room_id : string) : prog fsys unit :=
  room <- match w_int w room_id with
          | Some k => ret k
          | None => raise (invalid_literal room_id)
          end ;;
  answer <- lift_result (get_room_info room) ;;
  room_info <- subscript "'room_info'" answer ;;
  title <- subscript "'title'" (ri_title room_info) ;;
  cover <- subscript "'cover'" (ri_cover room_info) ;;
  keyframe <- subscript "'keyframe'" (ri_keyframe room_info) ;;
  adapter_send w Origin
    [SegImage cover; SegImage keyframe;
     SegText (GLOBAL_NICKNAME cfg +:+ "识别：哔哩哔哩直播，" +:+ title)].

(** An article: what building it, asking whether it is a note, turning it
    into one and fetching its content do, and what [markdown()] gives. *)
Record article := Article {
  ar_fetch_content : io_outcome;
  ar_markdown : result string
}.

(** Lines 249 to 259 of [handle_bilibili], the article branch once the
    article number is cut out of the address.  The file is opened, and so
    created, before [markdown()] is called. *)
Definition read_branch (cfg : config) (w : world) (get_article : string → article)
    (ev : chat_event) (read_id : string) : prog fsys unit :=
  let ar := get_article read_id in
  lift_io (ar_fetch_content ar) ;;;
  let markdown_path := os_path_join (w_cwd w) "article.md" in
  write_file markdown_path 0 ;;;
  text <- lift_result (ar_markdown ar) ;;
  modify (fun fs : fsys => <[markdown_path := N.of_nat (String.length text)]> fs) ;;;
  adapter_send w Origin [SegText (GLOBAL_NICKNAME cfg +:+ "识别：哔哩哔哩专栏")] ;;;
  upload_both w ev markdown_path "article.md" ;;;
  os_remove markdown_path.

(** One entry of a list of favourites; [None] is a missing key. *)
Record fav_media := FavMedia {
  fm_cover : option string;
  fm_title : option string;
  fm_intro : option string;
  fm_link : option string
}.

(** The two segments made for one entry. *)
Definition fav_segments {S} (fav : fav_media) : prog S (list segment) :=
  cover <- subscript "'cover'" (fm_cover fav) ;;
  title <- subscript "'title'" (fm_title fav) ;;
  intro <- subscript "'intro'" (fm_intro fav) ;;
  link <- subscript "'link'" (fm_link fav) ;;
  ret [SegImage cover;
       SegText ("🧉 标题：" +:+ title +:+ nl +:+ "📝 简介：" +:+ intro +:+ nl
                +:+ "🔗 链接：" +:+ link)].

(** A list comprehension whose element expression may raise. *)
Fixpoint comprehension {S A B} (f : A → prog S B) (l : list A) : prog S (list B) :=
  match l with
  | [] => ret []
  | x :: l' => y <- f x ;; ys <- comprehension f l' ;; ret (y :: ys)
  end.

(** [make_node_segment(user_id, segments)] for a list of lists of
    segments: one node for each element, its content the message made of
    the segments of that element. *)
Definition make_node_segment_messages (segments : list (list segment)) : list (list segment) :=
  map (fun segment => segment) segments.

(** Lines 263 to 269 of [handle_bilibili], the favourites branch once the
    number of the list is cut out of the address.  [get_favorites] stands
    for [get_video_favorite_list_content]; its value is the ['medias']
    entry of the answer. *)
Definition favlist_branch (cfg : config) (w : world)
    (get_favorites : string → result (json_list fav_media))
    (ev : chat_event) (fav_id : string) : prog fsys unit :=
  answer <- lift_result (get_favorites fav_id) ;;
  fav_list <- match answer with
              | Missing => raise (KeyError "'medias'")
              | Null => raise NoneType_subscript
              | Items l => ret (take 10 l)
              end ;;
  favs <- comprehension fav_segments fav_list ;;
  adapter_send w Origin [SegText (GLOBAL_NICKNAME cfg +:+ "识别：哔哩哔哩收藏夹...")] ;;;
  send_forward_both w ev (make_node_segment_messages favs).

(** ** More sample environments *)

(** The world [w] with other functions behind the dynamic branch, the
    favourites branch and the summary. *)
Definition with_session_apis (w : world) (dynamic favlist : string → prog fsys unit)
    (ai_summary : string → result (option string)) : world :=
  {| w_cwd := w_cwd w;
     w_clock := w_clock w;
     w_query_params := w_query_params w;
     w_int := w_int w;
     w_send := w_send w;
     w_upload := w_upload w;
     w_forward := w_forward w;
     w_thumbnail := w_thumbnail w;
     w_resolve_short := w_resolve_short w;
     w_fetch := w_fetch w;
     w_pagelist := w_pagelist w;
     w_danmaku_xml := w_danmaku_xml w;
     w_get_info := w_get_info w;
     w_get_online := w_get_online w;
     w_extra_bili_info := w_extra_bili_info w;
     w_best_streams := w_best_streams w;
     w_get_comments := w_get_comments w;
     w_download_b_file := w_download_b_file w;
     w_first_done := w_first_done w;
     w_inflight := w_inflight w;
     w_merge := w_merge w;
     w_dynamic := dynamic;
     w_live := w_live w;
     w_read := w_read w;
     w_favlist := favlist;
     w_ai_summary := ai_summary |}.

(** [calm_world] with other functions behind the live branch and the
    comment API. *)
Definition calm_world_with (live : string → prog fsys unit)
    (get_comments : Z → Z → result comments_res) : world :=
  {| w_cwd := w_cwd calm_world;
     w_clock := w_clock calm_world;
     w_query_params := w_query_params calm_world;
     w_int := w_int calm_world;
     w_send := w_send calm_world;
     w_upload := w_upload calm_world;
     w_forward := w_forward calm_world;
     w_thumbnail := w_thumbnail calm_world;
     w_resolve_short := w_resolve_short calm_world;
     w_fetch := w_fetch calm_world;
     w_pagelist := w_pagelist calm_world;
     w_danmaku_xml := w_danmaku_xml calm_world;
     w_get_info := w_get_info calm_world;
     w_get_online := w_get_online calm_world;
     w_extra_bili_info := w_extra_bili_info calm_world;
     w_best_streams := w_best_streams calm_world;
     w_get_comments := get_comments;
     w_download_b_file := w_download_b_file calm_world;
     w_first_done := w_first_done calm_world;
     w_inflight := w_inflight calm_world;
     w_merge := w_merge calm_world;
     w_dynamic := w_dynamic calm_world;
     w_live := live;
     w_read := w_read calm_world;
     w_favlist := w_favlist calm_world;
     w_ai_summary := w_ai_summary calm_world |}.

(** A room with a title, a cover and a key frame. *)
Definition sample_room : room_info := RoomInfo (Some "t") (Some "c.png") (Some "k.png").

(** A comment whose list of sub-replies is null. *)
Definition sample_null_reply : reply := Reply (Some "u") (Some "m") (Some 5) Null.

(** ** Definitions used in the statements *)

(** The size in hundredths of a megabyte. *)
Definition centi (n : N) : Z := round_half_even (bytes_to_mb n * 100).

(** [auto_video_send] on a local file whose rounded size is [size]. *)
Definition deliver_local (w : world) (ev : chat_event) (p : string) (size : Q) : prog fsys unit :=
  try_finally
    (try_except
       (if exceeds_max_mb size then
          adapter_send w Origin [SegText (oversize_notice size)] ;;;
          upload_both w ev p (os_path_basename p)
        else send_both w ev (SegVideo ("file://" +:+ p)))
       (fun e => emit (EvLog ("解析发送出现错误，具体为" +:+ nl +:+ exn_msg e))))
    (unlink_artifacts (Some p)).

(** The duration of page [k] (counted from 1) if the page list has it and
    the entry has a duration, the duration of the whole video otherwise. *)
Definition duration_of_page (vi : video_info) (pages : list page) (k : Z) : Z :=
  match pages !! Z.to_nat (k - 1) with
  | Some pg => default (vi_duration vi) (page_duration pg)
  | None => vi_duration vi
  end.

(** The reader side of the CSV format: the records a reader with the
    default dialect finds in a text.  A quoted field may hold commas, line
    breaks and doubled quotes; a record ends at a line break outside
    quotes. *)
Inductive rstate := StartRecord | StartField | InField | InQuoted | QuoteInQuoted | AfterCR.

Fixpoint csv_read (state : rstate) (field : string) (row : list string) (s : string)
  : list (list string) :=
  match s with
  | "" =>
      match state with
      | StartRecord | AfterCR => []
      | _ => [row ++ [field]]
      end
  | String c s' =>
      let snoc := field +:+ String c "" in
      match state with
      | InQuoted =>
          if Ascii.eqb c dquote then csv_read QuoteInQuoted field row s'
          else csv_read InQuoted snoc row s'
      | AfterCR =>
          if Ascii.eqb c lf then csv_read StartRecord "" [] s'
          else if Ascii.eqb c cr then [] :: csv_read AfterCR "" [] s'
          else if Ascii.eqb c dquote then csv_read InQuoted "" [] s'
          else if Ascii.eqb c comma then csv_read StartField "" [""] s'
          else csv_read InField (String c "") [] s'
      | StartRecord =>
          if Ascii.eqb c lf then [] :: csv_read StartRecord "" [] s'
          else if Ascii.eqb c cr then [] :: csv_read AfterCR "" [] s'
          else if Ascii.eqb c dquote then csv_read InQuoted "" [] s'
          else if Ascii.eqb c comma then csv_read StartField "" [""] s'
          else csv_read InField (String c "") [] s'
      | StartField =>
          if Ascii.eqb c lf then (row ++ [""]) :: csv_read StartRecord "" [] s'
          else if Ascii.eqb c cr then (row ++ [""]) :: csv_read AfterCR "" [] s'
          else if Ascii.eqb c dquote then csv_read InQuoted "" row s'
          else if Ascii.eqb c comma then csv_read StartField "" (row ++ [""]) s'
          else csv_read InField (String c "") row s'
      | InField =>
          if Ascii.eqb c lf then (row ++ [field]) :: csv_read StartRecord "" [] s'
          else if Ascii.eqb c cr then (row ++ [field]) :: csv_read AfterCR "" [] s'
          else if Ascii.eqb c comma then csv_read StartField "" (row ++ [field]) s'
          else csv_read InField snoc row s'
      | QuoteInQuoted =>
          if Ascii.eqb c dquote then csv_read InQuoted snoc row s'
          else if Ascii.eqb c lf then (row ++ [field]) :: csv_read StartRecord "" [] s'
          else if Ascii.eqb c cr then (row ++ [field]) :: csv_read AfterCR "" [] s'
          else if Ascii.eqb c comma then csv_read StartField "" (row ++ [field]) s'
          else csv_read InField snoc row s'
      end
  end.

Definition csv_reader (text : string) : list (list string) := csv_read StartRecord "" [] text.

(** What a run over the local variables of the comment fetcher keeps:
    nothing is emitted, the list only grows, the counter does not shrink. *)
Definition grows (cs : comments_state) {A} (o : outcome comments_state A) : Prop :=
  emitted o = [] ∧ cs.1 `prefix_of` (st o).1 ∧ cs.2 <= (st o).2.

(** The loop came to its end, and kept what it had. *)
Definition loop_ok (cs : comments_state) (o : outcome comments_state bool) : Prop :=
  res o ≠ Ok false ∧ grows cs o.

(** Every character of [s] satisfies [f]. *)
Fixpoint all_chars (f : ascii → bool) (s : string) : bool :=
  match s with
  | "" => true
  | String c s' => f c && all_chars f s'
  end.

Definition not_zero (c : ascii) : bool := negb (Ascii.eqb c "0"%char).
Definition not_backslash (c : ascii) : bool := negb (Ascii.eqb c backslash).

(** Kinds of events, by the step of the media pipeline that emits them.
    The creation of a file belongs to the step that writes it. *)
Definition download_event (e : event) : bool :=
  match e with EvDownloadEnd _ _ | EvCreate _ => true | _ => false end.
Definition mux_event (e : event) : bool :=
  match e with EvMuxStart | EvMuxEnd _ | EvCreate _ => true | _ => false end.
(** What delivery sends: the video, or the notice that it is too large. *)
Definition is_delivery_message (m : list segment) : bool :=
  match m with
  | [SegVideo _] => true
  | [SegText s] => startswith "当前解析文件" s
  | _ => false
  end.
Definition delivery_event (e : event) : bool :=
  match e with
  | EvSend m => is_delivery_message m
  | EvUpload _ _ | EvLog _ | EvFetchStart _ | EvFetchEnd _ | EvCreate _ => true
  | _ => false
  end.
Definition cleanup_event (e : event) : bool :=
  match e with EvRemove _ => true | _ => false end.

Definition is_written (o : write_outcome) : bool :=
  match o with Written _ => true | Broken _ _ => false end.

(** A trace of delivery events followed by cleanup events. *)
Definition delivery_then_cleanup (tr : list event) : Prop :=
  ∃ dlv rm, tr = dlv ++ rm ∧ forallb delivery_event dlv = true
            ∧ forallb cleanup_event rm = true.

(** An event only the media pipeline emits: a step of a download, of the
    muxing or of a remote fetch, or a message of the delivery. *)
Definition media_step (e : event) : bool :=
  match e with
  | EvDownloadStart _ | EvDownloadEnd _ _ | EvMuxStart | EvMuxEnd _
  | EvFetchStart _ | EvFetchEnd _ => true
  | EvSend m => is_delivery_message m
  | _ => false
  end.

(** The message that opens the export. *)
Definition export_start : event := EvSend [SegText exporting_notice].

(** The path of the export file of a video. *)
Definition csv_path (w : world) (video_id : string) : string :=
  os_path_join (w_cwd w) (video_id +:+ "_弹幕评论.csv").

(** What the export and the summary after it emit: their messages, their
    log lines, and the creation, upload and removal of the file [csv]. *)
Definition export_event (csv : string) (e : event) : Prop :=
  match e with
  | EvSend m => m = [SegText exporting_notice] ∨ m = [SegText export_apology]
  | EvCreate p | EvRemove p | EvUpload p _ => p = csv
  | EvLog _ | EvForward _ => True
  | _ => False
  end.


Definition is_log (e : event) : bool := match e with EvLog _ => true | _ => false end.


(** ** Definitions used in the further properties *)

(** The characters [delete_boring_characters] takes out: line feed, tab
    and carriage return. *)
Definition is_boring (c : ascii) : bool :=
  Ascii.eqb c lf || Ascii.eqb c (ascii_of_nat 9) || Ascii.eqb c cr.

Definition not_boring (c : ascii) : bool := negb (is_boring c).

(** The characters of [s] that satisfy [f], in their order. *)
Fixpoint keep_chars (f : ascii → bool) (s : string) : string :=
  match s with
  | "" => ""
  | String c s' => if f c then String c (keep_chars f s') else keep_chars f s'
  end.

(** An ASCII character.  In front of one a byte is a character; among
    them the digit escape of a pattern takes [0-9] and [str.strip] the
    ASCII white space, as [is_digit] and [is_space] do. *)
Definition is_ascii (c : ascii) : bool := (nat_of_ascii c <? 128)%nat.

Definition not_colon (c : ascii) : bool := negb (Ascii.eqb c ":"%char).
Definition not_slash (c : ascii) : bool := negb (Ascii.eqb c slash).

(** A text the handler takes as it is: it has no white space at its
    ends and no backslash, and names neither a short-link host nor a
    dynamic. *)
Definition plain_address (url : string) : bool :=
  String.eqb (strip url) url
  && all_chars not_backslash url
  && negb (contains "b23.tv" url || contains "bili2233.cn" url || contains "QQ小程序" url)
  && negb (contains "t.bilibili.com" url || contains "/opus" url).

(** A program over the file system leaves every path outside [ps] as it
    found it. *)
Definition only_touches {A} (ps : list string) (m : prog fsys A) : Prop :=
  ∀ (s : fsys) (k : string), k ∉ ps → st (m s) !! k = s !! k.


(** The temporary files of the video branch. *)
Definition video_files (w : world) (video_id : string) : list string :=
  let path := os_path_join (w_cwd w) video_id in
  [path +:+ "-video.m4s"; path +:+ "-audio.m4s"; path +:+ "-res.mp4";
   path +:+ "-res.mp4" +:+ ".jpg"; csv_path w video_id].

(** An event that hands a video or a file over to the adapter. *)
Definition hands_over_video (e : event) : bool :=
  match e with
  | EvUpload _ _ => true
  | EvSend m => existsb (λ seg, match seg with SegVideo _ => true | _ => false end) m
  | _ => false
  end.

(** Whether a call to the adapter went through. *)
Definition io_ok (o : io_outcome) : bool :=
  match o with IoOk => true | IoRaise _ => false end.

(** The line a comment gives, and the line one of its sub-replies gives. *)
Definition comment_line (r : reply) : string :=
  default "" (r_uname r) +:+ ":" +:+ default "" (r_message r) +:+ ",点赞："
  +:+ pretty (default 0 (r_like r)).

Definition sub_reply_line (r : reply) (reply : sub_reply) : string :=
  "回复@" +:+ default "" (r_uname r) +:+ ": " +:+ default "" (sr_message reply).

(** The sub-replies of a comment; a missing key stands for none. *)
Definition sub_replies (r : reply) : list sub_reply :=
  match r_replies r with Items l => l | _ => [] end.

Definition reply_lines (r : reply) : list string :=
  comment_line r :: map (sub_reply_line r) (sub_replies r).

(** A comment with all the keys the fetcher reads, whose list of
    sub-replies is not null. *)
Definition well_formed (r : reply) : bool :=
  bool_decide (is_Some (r_uname r)) && bool_decide (is_Some (r_message r))
  && bool_decide (is_Some (r_like r))
  && match r_replies r with Null => false | _ => true end
  && forallb (λ reply, bool_decide (is_Some (sr_message reply))) (sub_replies r).

(** Whether an entry has the four keys the favourites branch reads. *)
Definition fav_complete (fav : fav_media) : bool :=
  bool_decide (is_Some (fm_cover fav)) && bool_decide (is_Some (fm_title fav))
  && bool_decide (is_Some (fm_intro fav)) && bool_decide (is_Some (fm_link fav)).

(** The segments of an entry that has its four keys. *)
Definition fav_node (fav : fav_media) : list segment :=
  [SegImage (default "" (fm_cover fav));
   SegText ("🧉 标题：" +:+ default "" (fm_title fav) +:+ nl +:+ "📝 简介："
            +:+ default "" (fm_intro fav) +:+ nl +:+ "🔗 链接：" +:+ default "" (fm_link fav))].

(** ** The dynamic branch *)

(** One picture of a dynamic: what [pic['url']] gives. *)
Record dyn_pic := DynPic { dp_url : result string }.

(** The value of [.get('pic', {}).get('pics', [])]: something the
    comprehension of line 234 cannot iterate over, or the pictures. *)
Inductive dyn_pics :=
| NotIterable (e : exn)
| Pics (l : list dyn_pic).

(** One paragraph of a dynamic, as lines 231 and 232 read it:
    [.get('text', {}).get('nodes', [{}])[0].get('word', {}).get('words', "")]
    as the message prints it, and [.get('pic', {}).get('pics', [])]; each
    chain may raise. *)
Record dyn_paragraph := DynParagraph {
  pa_words : result string;
  pa_pics : result dyn_pics
}.

(** The value of [m.get('module_content', {}).get('paragraphs', [])] for
    one module: something that cannot be subscripted, or a list. *)
Inductive dyn_paragraphs :=
| NotSubscriptable (e : exn)
| Paragraphs (l : list dyn_paragraph).

(** What the handler reads of a dynamic: [['item']['basic']['title']], and
    the list the comprehension of line 230 builds, one entry for each
    module; both may raise. *)
Record dynamic_info := DynamicInfo {
  di_title : result string;
  di_paragraphs : result (list dyn_paragraphs)
}.

(** The part of [run] before its last line feed, if it has one. *)
Fixpoint before_last_lf (run : string) : option string :=
  match run with
  | "" => None
  | String c r =>
      match before_last_lf r with
      | Some p => Some (String c p)
      | None => if Ascii.eqb c lf then Some "" else None
      end
  end.

(** [[^/]+(?!.*/)], group 0: a run of characters other than a slash that
    no slash follows on the same line.  At the end of the text the whole
    run matches; before a slash the run is given back up to its last line
    feed, which the dot of the look-ahead cannot cross. *)
Definition last_segment_rex (s : string) : option string :=
  let '(run, rest) := span not_slash s in
  match rest with
  | "" => match run with "" => None | _ => Some run end
  | String _ _ =>
      match before_last_lf run with
      | Some (String c p) => Some (String c p)
      | _ => None
      end
  end.

(** [paragraphs[0][i]] *)
Definition paragraph_at {S} (first : dyn_paragraphs) (i : nat) : prog S dyn_paragraph :=
  match first with
  | NotSubscriptable e => raise e
  | Paragraphs l =>
      match l !! i with
      | Some p => ret p
      | None => raise (IndexError "list index out of range")
      end
  end.

(** [make_node_segment(user_id, segments)] for one segment: one node, its
    content the message made of that segment. *)
Definition make_node_segment_one (segments : segment) : list segment := [segments].

(** Lines 223 to 236 of [handle_bilibili], the dynamic branch.
    [get_info] stands for [Opus(dynamic_id, credential).get_info()];
    [None] is an answer that is false. *)
Definition dynamic_branch (cfg : config) (w : world)
    (get_info : Z → result (option dynamic_info)) (ev : chat_event) (url : string)
  : prog fsys unit :=
  let url := before_char "?" url in
  matched <- match re_search last_segment_rex url with
             | Some m => ret m
             | None => raise NoneType_subscript
             end ;;
  dynamic_id <- match w_int w matched with
                | Some k => ret k
                | None => raise (invalid_literal matched)
                end ;;
  dynamic_info <- lift_result (get_info dynamic_id) ;;
  match dynamic_info with
  | None => ret tt
  | Some info =>
      title <- lift_result (di_title info) ;;
      paragraphs <- lift_result (di_paragraphs info) ;;
      match paragraphs with
      | [] => ret tt
      | first :: _ =>
          p0 <- paragraph_at first 0 ;;
          desc <- lift_result (pa_words p0) ;;
          p1 <- paragraph_at first 1 ;;
          pics <- lift_result (pa_pics p1) ;;
          adapter_send w Origin
            [SegText (GLOBAL_NICKNAME cfg +:+ "识别：B站动态，" +:+ title +:+ nl +:+ desc)] ;;;
          send_pics <- match pics with
                       | NotIterable e => raise e
                       | Pics l =>
                           comprehension
                             (fun pic => pic_url <- lift_result (dp_url pic) ;;
                                         ret (make_node_segment_one (SegImage pic_url))) l
                       end ;;
          send_forward_both w ev send_pics
      end
  end.

(** A character of an address before its query: neither a line feed nor a
    question mark. *)
Definition plain_char (c : ascii) : bool :=
  negb (Ascii.eqb c lf) && negb (Ascii.eqb c "?"%char).

(** A picture whose address can be read. *)
Definition picture (u : string) : dyn_pic := DynPic (Ok u).

(** The node of the forward message for the picture at [u]. *)
Definition picture_node (u : string) : list segment := [SegImage u].

(* ===================================================================== *)
(** * Properties *)

(** ** Tactics for running a program *)

Ltac py_unfold :=
  unfold bind, ret, raise, emit, get, modify, lift_result, lift_io,
         try_except, try_finally, attempt, with_local in *.

(** Case analysis on an innermost scrutinee that does not reduce. *)
Ltac py_case :=
  match goal with
  | |- context [match ?x with _ => _ end] =>
      lazymatch x with
      | context [match _ with _ => _ end] => fail
      | _ => destruct x eqn:?
      end
  end.

(** ** Strings *)

Lemma append_nil_l (a : string) : "" +:+ a = a.
Proof. reflexivity. Qed.

Lemma append_cons (c : ascii) (a b : string) : String c a +:+ b = String c (a +:+ b).
Proof. reflexivity. Qed.

Lemma append_assoc (a b c : string) : (a +:+ b) +:+ c = a +:+ (b +:+ c).
Proof.
  induction a as [|x a IH]; [reflexivity|].
  rewrite !append_cons. f_equal. exact IH.
Qed.

Lemma append_nil_r (a : string) : a +:+ "" = a.
Proof.
  induction a as [|x a IH]; [reflexivity|].
  rewrite append_cons. f_equal. exact IH.
Qed.

Ltac str_simpl := rewrite ?append_assoc, ?append_cons, ?append_nil_l.

(** ** The monad *)

Lemma bind_ret_l {S A B} (a : A) (f : A → prog S B) (s : S) : bind (ret a) f s = f a s.
Proof. unfold bind, ret. by destruct (f a s). Qed.

Lemma bind_raise_l {S A B} (e : exn) (f : A → prog S B) (s : S) :
  bind (raise e) f s = raise e s.
Proof. reflexivity. Qed.

Lemma bind_get {S B} (f : S → prog S B) (s : S) : bind get f s = f s s.
Proof. unfold bind, get. by destruct (f s s). Qed.


(** ** File size and delivery mode *)

Lemma round_half_even_frac (a : Z) (b : positive) :
  round_half_even (a # b) =
    match 2 * (a mod Zpos b) ?= Zpos b with
    | Lt => a / Zpos b
    | Gt => a / Zpos b + 1
    | Eq => if Z.even (a / Zpos b) then a / Zpos b else a / Zpos b + 1
    end.
Proof.
  unfold round_half_even, Qfloor, Qcompare, Qminus, Qplus, Qopp, inject_Z. cbn [Qnum Qden].
  replace ((a * 1 + - (a / Z.pos b) * Z.pos b) * 2) with (2 * (a mod Z.pos b))
    by (rewrite Z.mod_eq by lia; lia).
  replace (1 * Z.pos (b * 1)) with (Z.pos b) by lia.
  reflexivity.
Qed.

Lemma round_half_even_near (a : Z) (b : positive) :
  2 * Zpos b * round_half_even (a # b) - Zpos b <= 2 * a <= 2 * Zpos b * round_half_even (a # b) + Zpos b.
Proof.
  rewrite round_half_even_frac.
  pose proof (Z.mod_pos_bound a (Zpos b) ltac:(lia)) as Hm.
  pose proof (Z.div_mod a (Zpos b) ltac:(lia)) as Hd.
  destruct (2 * (a mod Z.pos b) ?= Z.pos b) eqn:E.
  - apply Z.compare_eq in E. destruct (Z.even _); nia.
  - rewrite Z.compare_lt_iff in E. nia.
  - rewrite Z.compare_gt_iff in E. nia.
Qed.

Lemma centi_near (n : N) :
  2097152 * centi n - 1048576 <= 200 * Z.of_N n <= 2097152 * centi n + 1048576.
Proof.
  unfold centi, bytes_to_mb.
  pose proof (round_half_even_near (Z.of_N n * 1 * 100) 1048576) as H.
  change (inject_Z (Z.of_N n) / inject_Z (1024 * 1024) * 100)%Q
    with (Z.of_N n * 1 * 100 # 1048576). lia.
Qed.

Lemma exceeds_centi (n : N) :
  exceeds_max_mb (py_round2 (bytes_to_mb n)) = true ↔ 10000 < centi n.
Proof.
  unfold exceeds_max_mb, py_round2. fold (centi n).
  rewrite negb_true_iff, <- not_true_iff_false, Qle_bool_iff, Qred_correct.
  unfold Qle, Qdiv, Qmult, Qinv, inject_Z, VIDEO_MAX_MB. cbn [Qnum Qden]. lia.
Qed.

Lemma upload_threshold (n : N) :
  exceeds_max_mb (py_round2 (bytes_to_mb n)) = true ↔ (104862843 <= n)%N.
Proof.
  rewrite exceeds_centi. pose proof (centi_near n). lia.
Qed.

Lemma py_round2_two_places (n : N) :
  (py_round2 (bytes_to_mb n) == centi n # 100)%Q
  ∧ (Qabs (bytes_to_mb n - py_round2 (bytes_to_mb n)) <= 1 # 200)%Q.
Proof.
  assert (E : (py_round2 (bytes_to_mb n) == centi n # 100)%Q).
  { unfold py_round2. fold (centi n). rewrite Qred_correct.
    unfold Qeq, Qdiv, Qmult, Qinv, inject_Z. cbn [Qnum Qden]. lia. }
  split; [exact E|]. rewrite E.
  pose proof (centi_near n) as H.
  apply Qabs_Qle_condition.
  change (bytes_to_mb n) with (Z.of_N n * 1 # 1048576).
  unfold Qle, Qminus, Qplus, Qopp. cbn [Qnum Qden].
  split; lia.
Qed.


Lemma get_file_size_mb_present (p : string) (n : N) (fs : fsys) :
  fs !! p = Some n →
  get_file_size_mb (Some p) fs = Outcome (Ok (py_round2 (bytes_to_mb n))) fs [].
Proof.
  intros Hp. unfold get_file_size_mb, os_path_getsize. py_unfold. rewrite Hp. reflexivity.
Qed.

Lemma auto_video_send_local (w : world) (ev : chat_event) (p : string) (n : N) (fs : fsys) :
  fs !! p = Some n → startswith "http" p = false →
  auto_video_send w ev (Some p) fs = deliver_local w ev p (py_round2 (bytes_to_mb n)) fs.
Proof.
  intros Hp Hhttp. unfold auto_video_send, deliver_local. rewrite Hhttp.
  unfold bind at 1. unfold attempt at 1. unfold ret at 1.
  unfold try_finally, try_except. unfold bind at 1. unfold lift_result at 1. unfold ret at 1.
  unfold bind at 1. rewrite (get_file_size_mb_present _ _ _ Hp). cbn [str_of_path].
  generalize (unlink_artifacts (Some p)); intros fin.
  repeat (py_case; cbn); reflexivity.
Qed.

(** C2, as the code has it.  Delivery takes the size of the local file in
    megabytes, rounded to two decimal places, and compares the rounded
    value with the threshold of 100: the file is uploaded, after a notice
    to the user, exactly when it has 104862843 bytes or more (the first
    size that rounds to 100.01), and is sent inline otherwise.  A file of
    exactly 100 * 2^20 bytes, and one of a byte more, are sent inline. *)
Theorem delivery_mode_follows_rounded_size
    (w : world) (ev : chat_event) (p : string) (n : N) (fs : fsys) :
  fs !! p = Some n → startswith "http" p = false → ev ≠ OtherEvent →
  let size := py_round2 (bytes_to_mb n) in
  let o := auto_video_send w ev (Some p) fs in
  res (get_file_size_mb (Some p) fs) = Ok size
  ∧ (∃ c : Z, size == c # 100 ∧ Qabs (bytes_to_mb n - size) <= 1 # 200)%Q
  ∧ if bool_decide (104862843 ≤ n)%N
    then ∃ tail, emitted o = EvSend [SegText (oversize_notice size)] :: tail
                 ∧ (w_send w Origin [SegText (oversize_notice size)] = IoOk →
                    ∃ tail', tail = EvUpload p (os_path_basename p) :: tail')
    else ∃ tail, emitted o = EvSend [SegVideo ("file://" +:+ p)] :: tail.
Proof.
  intros Hp Hhttp Hev size o.
  split; [rewrite (get_file_size_mb_present _ _ _ Hp); reflexivity|].
  split; [exists (centi n); apply py_round2_two_places|].
  subst o. rewrite (auto_video_send_local _ _ _ _ _ Hp Hhttp). fold size.
  unfold deliver_local. generalize (unlink_artifacts (Some p)); intros fin.
  case_bool_decide as Hn.
  - apply upload_threshold in Hn. fold size in Hn. rewrite Hn. clearbody size.
    unfold adapter_send, upload_both, adapter_upload, thumbnails.
    destruct (w_send w Origin [SegText (oversize_notice size)]) eqn:Hs.
    + destruct ev; try done; py_unfold; cbn -[oversize_notice os_path_basename];
        repeat (py_case; cbn -[oversize_notice os_path_basename]); eauto.
    + py_unfold; cbn -[oversize_notice os_path_basename];
        repeat (py_case; cbn -[oversize_notice os_path_basename]);
        (eexists; split; [reflexivity|done]).
  - assert (Hf : exceeds_max_mb size = false).
    { apply not_true_is_false. intros Ht. apply upload_threshold in Ht. done. }
    rewrite Hf. clearbody size. unfold send_both, adapter_send, thumbnails.
    destruct ev; try done; py_unfold; cbn;
      repeat (py_case; py_unfold; cbn); eauto.
Qed.

(** ** The CSV export *)

Lemma needs_quote_cons (c : ascii) (f : string) :
  needs_quote (String c f) = false →
  Ascii.eqb c comma = false ∧ Ascii.eqb c dquote = false ∧ Ascii.eqb c cr = false
  ∧ Ascii.eqb c lf = false ∧ needs_quote f = false.
Proof. cbn. rewrite !orb_false_iff. tauto. Qed.

Lemma read_quoted_body (f acc : string) (row : list string) (r : string) :
  csv_read InQuoted acc row (double_quotes f +:+ r) = csv_read InQuoted (acc +:+ f) row r.
Proof.
  revert acc. induction f as [|c f IH]; intros acc; cbn [double_quotes].
  - by rewrite append_nil_r.
  - destruct (Ascii.eqb c dquote) eqn:E; str_simpl; cbn [csv_read].
    + apply Ascii.eqb_eq in E. subst c. rewrite !Ascii.eqb_refl.
      rewrite IH. str_simpl. reflexivity.
    + rewrite E, IH. str_simpl. reflexivity.
Qed.

Lemma read_plain (f acc : string) (row : list string) (r : string) :
  needs_quote f = false →
  csv_read InField acc row (f +:+ r) = csv_read InField (acc +:+ f) row r.
Proof.
  revert acc. induction f as [|c f IH]; intros acc Hq.
  - by rewrite append_nil_r.
  - apply needs_quote_cons in Hq as (Hc & Hd & Hr & Hl & Hq).
    str_simpl. cbn [csv_read]. rewrite Hc, Hr, Hl, IH by done. str_simpl. reflexivity.
Qed.

(** A printed field is read back when the comma or the line break after
    it is reached. *)
Lemma read_field_comma (state : rstate) (f : string) (row : list string) (r : string) :
  state = StartField ∨ (state = StartRecord ∧ row = []) →
  csv_read state "" row (csv_field f +:+ String comma r)
  = csv_read StartField "" (row ++ [f]) r.
Proof.
  intros Hst. unfold csv_field. destruct (needs_quote f) eqn:Hq.
  - assert (Hopen : ∀ t, csv_read state "" row (String dquote t) = csv_read InQuoted "" row t).
    { intros t. destruct Hst as [->|[-> ->]]; reflexivity. }
    str_simpl. rewrite !Hopen, !read_quoted_body. str_simpl. reflexivity.
  - destruct f as [|c f].
    + destruct Hst as [->|[-> ->]]; reflexivity.
    + apply needs_quote_cons in Hq as (Hc & Hd & Hr & Hl & Hq).
      assert (Hopen : ∀ t, csv_read state "" row (String c t) = csv_read InField (String c "") row t).
      { intros t. destruct Hst as [->|[-> ->]]; cbn; rewrite Hc, Hd, Hr, Hl; reflexivity. }
      str_simpl. rewrite !Hopen, !read_plain by done. str_simpl. reflexivity.
Qed.

Lemma read_field_crlf (f : string) (row : list string) (r : string) :
  csv_read StartField "" row (csv_field f +:+ String cr (String lf r))
  = (row ++ [f]) :: csv_read StartRecord "" [] r.
Proof.
  unfold csv_field. destruct (needs_quote f) eqn:Hq.
  - str_simpl. cbn [csv_read]. rewrite Ascii.eqb_refl.
    change (Ascii.eqb dquote lf) with false. change (Ascii.eqb dquote cr) with false.
    cbn match. rewrite read_quoted_body. str_simpl. reflexivity.
  - destruct f as [|c f]; [reflexivity|].
    apply needs_quote_cons in Hq as (Hc & Hd & Hr & Hl & Hq).
    str_simpl. cbn [csv_read]. rewrite Hc, Hd, Hr, Hl, read_plain by done.
    str_simpl. reflexivity.
Qed.

Lemma read_row (a b r : string) :
  csv_read StartRecord "" [] (csv_row a b +:+ r) = [a; b] :: csv_read StartRecord "" [] r.
Proof.
  unfold csv_row. str_simpl.
  rewrite read_field_comma by (right; done).
  rewrite read_field_crlf. reflexivity.
Qed.

Lemma read_body (rows : list (string * string)) :
  csv_reader (csv_body rows) = map (fun row => [row.1; row.2]) rows.
Proof.
  unfold csv_reader. induction rows as [|[a b] rows IH]; [reflexivity|].
  cbn [csv_body fold_right map fst snd]. rewrite read_row. f_equal. exact IH.
Qed.

(** zip_longest *)
Lemma zip_longest_length {A B} (a : list A) (b : list B) fa fb :
  List.length (zip_longest a b fa fb) = Nat.max (List.length a) (List.length b).
Proof.
  revert b. induction a as [|x a IH]; intros b; cbn.
  - by rewrite length_map.
  - destruct b as [|y b]; cbn; rewrite IH; cbn; lia.
Qed.

Lemma zip_longest_lookup {A B} (a : list A) (b : list B) fa fb (i : nat) :
  (i < Nat.max (List.length a) (List.length b))%nat →
  zip_longest a b fa fb !! i = Some (default fa (a !! i), default fb (b !! i)).
Proof.
  revert b i. induction a as [|x a IH]; intros b i Hi; cbn in *.
  - rewrite list_lookup_fmap. destruct (lookup_lt_is_Some_2 b i Hi) as [y Hy].
    rewrite Hy. reflexivity.
  - destruct b as [|y b], i as [|i]; cbn in *; try reflexivity.
    + rewrite IH by (cbn; lia). reflexivity.
    + rewrite IH by lia. reflexivity.
Qed.

(** The rows of the file and its bytes, for the two lists the export has
    got. *)
Lemma csv_rows_of_lists (danmakus : list (option string)) (comments : list string) :
  let rows := csv_data_rows danmakus comments in
  List.length rows = Nat.max (List.length danmakus) (List.length comments)
  ∧ (∀ i, (i < Nat.max (List.length danmakus) (List.length comments))%nat →
       rows !! i = Some (csv_cell (default (Some "") (danmakus !! i)),
                         default "" (comments !! i)))
  ∧ (∀ i, (List.length danmakus ≤ i)%nat → ∀ row, rows !! i = Some row → row.1 = "")
  ∧ (∀ i, (List.length comments ≤ i)%nat → ∀ row, rows !! i = Some row → row.2 = "")
  ∧ csv_file_bytes danmakus comments = utf8_bom +:+ csv_body (csv_header :: rows)
  ∧ csv_reader (csv_body (csv_header :: rows))
    = ["弹幕"; "评论"] :: map (fun row => [row.1; row.2]) rows.
Proof.
  intros rows. subst rows. unfold csv_data_rows.
  assert (L : ∀ i, (i < Nat.max (List.length danmakus) (List.length comments))%nat →
       map (λ dc : option string * string, (csv_cell dc.1, dc.2))
         (zip_longest danmakus comments (Some "") "") !! i =
       Some (csv_cell (default (Some "") (danmakus !! i)), default "" (comments !! i))).
  { intros i Hi. rewrite list_lookup_fmap, zip_longest_lookup by done. reflexivity. }
  split; [by rewrite length_map, zip_longest_length|].
  split; [exact L|].
  split; [|split; [|split; [reflexivity|apply read_body]]]; intros i Hi row Hrow.
  - assert (Hlt : (i < Nat.max (List.length danmakus) (List.length comments))%nat).
    { apply lookup_lt_Some in Hrow. by rewrite length_map, zip_longest_length in Hrow. }
    rewrite L in Hrow by done. injection Hrow as <-. cbn.
    by rewrite (lookup_ge_None_2 danmakus i).
  - assert (Hlt : (i < Nat.max (List.length danmakus) (List.length comments))%nat).
    { apply lookup_lt_Some in Hrow. by rewrite length_map, zip_longest_length in Hrow. }
    rewrite L in Hrow by done. injection Hrow as <-. cbn.
    by rewrite (lookup_ge_None_2 comments i).
Qed.

(** ** The page whose duration is compared *)

Lemma page_num_of_p (w : world) (url s : string) (rest : list string) (k : Z) :
  w_query_params w url !! "p" = Some (s :: rest) → w_int w s = Some k →
  page_num_of w url = Ok (k - 1).
Proof.
  intros Hq Hk. unfold page_num_of. rewrite Hq, Hk.
  case_bool_decide as He; [|reflexivity].
  rewrite He, lookup_empty in Hq. discriminate.
Qed.

Lemma select_duration_page (vi : video_info) (pages : list page) (k : Z) :
  vi_pages vi = Some pages → 1 <= k →
  select_duration vi (k - 1) = Ok (duration_of_page vi pages k).
Proof.
  intros Hp Hk. unfold select_duration, duration_of_page, py_index. rewrite Hp.
  destruct (Z.ltb_spec (k - 1) (Z.of_nat (List.length pages))) as [Hlt|Hge].
  - rewrite (proj2 (Z.leb_le 0 (k - 1))) by lia.
    destruct (lookup_lt_is_Some_2 pages (Z.to_nat (k - 1)) ltac:(lia)) as [pg Hpg].
    rewrite Hpg. reflexivity.
  - rewrite (lookup_ge_None_2 pages (Z.to_nat (k - 1))) by lia. reflexivity.
Qed.

(** C9.  With a query parameter p=k, k at least 1, the duration the limit
    is applied to is that of entry k-1 of the page list when k is at most
    the number of pages and the entry has a duration, and the duration of
    the whole video when k is larger or the entry has none; that duration
    decides between the message with the notice that the video is too
    long and the plain one. *)
Theorem page_duration_is_compared
    (cfg : config) (w : world) (ev : chat_event) (url video_id s : string)
    (rest : list string) (k : Z) (vi : video_info) (pages : list page)
    (online : online) (fs : fsys) :
  w_get_info w video_id = Ok (Some vi) →
  w_get_online w video_id = Ok online →
  w_query_params w url !! "p" = Some (s :: rest) →
  w_int w s = Some k →
  vi_pages vi = Some pages →
  1 <= k →
  let d := duration_of_page vi pages k in
  let info := info_msg_of cfg w vi online in
  (k <= Z.of_nat (List.length pages) →
     ∃ pg, pages !! Z.to_nat (k - 1) = Some pg
           ∧ d = default (vi_duration vi) (page_duration pg))
  ∧ (Z.of_nat (List.length pages) < k → d = vi_duration vi)
  ∧ select_duration vi (k - 1) = Ok d
  ∧ ∃ tail,
      emitted (video_branch cfg w ev url video_id fs)
      = EvSend [SegImage (vi_pic vi);
                SegText (if VIDEO_DURATION_MAXIMUM cfg <? d
                         then info +:+ too_long_notice cfg d else info)] :: tail.
Proof.
  intros Hinfo Honline Hq Hint Hpages Hk d info.
  split; [|split; [|split]].
  - intros Hle. subst d. unfold duration_of_page.
    destruct (lookup_lt_is_Some_2 pages (Z.to_nat (k - 1)) ltac:(lia)) as [pg Hpg].
    exists pg. rewrite Hpg. done.
  - intros Hgt. subst d. unfold duration_of_page.
    by rewrite (lookup_ge_None_2 pages (Z.to_nat (k - 1))) by lia.
  - by apply select_duration_page.
  - unfold video_branch.
    generalize (export_block w ev video_id (vi_aid vi)), (ai_block cfg w ev video_id),
      (media_pipeline w ev video_id).
    intros export ai media.
    rewrite Hinfo. unfold adapter_send, thumbnails. py_unfold.
    cbn -[too_long_notice info_msg_of select_duration page_num_of].
    rewrite (page_num_of_p _ _ _ _ _ Hq Hint).
    cbn -[too_long_notice info_msg_of select_duration page_num_of].
    rewrite (select_duration_page _ _ _ Hpages Hk).
    cbn -[too_long_notice info_msg_of select_duration page_num_of].
    rewrite Honline.
    fold d. subst info. clearbody d.
    destruct (VIDEO_DURATION_MAXIMUM cfg <? d); cbn -[too_long_notice info_msg_of];
      repeat (py_case; cbn -[too_long_notice info_msg_of]); eauto.
Qed.

(** ** The fetchers *)

Lemma grows_ret {A} (a : A) (cs : comments_state) : grows cs (ret a cs).
Proof. repeat split; cbn; [done|lia]. Qed.

Lemma grows_raise {A} (e : exn) (cs : comments_state) : grows cs (raise (A := A) e cs).
Proof. repeat split; cbn; [done|lia]. Qed.

Lemma grows_bind {A B} (m : prog comments_state A) (f : A → prog comments_state B)
    (cs : comments_state) :
  grows cs (m cs) → (∀ a cs', grows cs' (f a cs')) → grows cs (bind m f cs).
Proof.
  intros (He & Hp & Hc) Hf. unfold bind.
  destruct (m cs) as [[a|e] cs1 ev1]; cbn in *; subst.
  - specialize (Hf a cs1). destruct (f a cs1) as [r cs2 ev2]. destruct Hf as (He2 & Hp2 & Hc2).
    cbn in *. subst. repeat split; cbn; [by etrans|lia].
  - repeat split; cbn; [done|lia].
Qed.

Lemma grows_append_comment (s : string) (cs : comments_state) :
  grows cs (append_comment s cs).
Proof. repeat split; cbn; [by apply prefix_app_r|lia]. Qed.

Lemma grows_subscript {A} key (o : option A) (cs : comments_state) :
  grows cs (subscript key o cs).
Proof. destruct o; [apply grows_ret|apply grows_raise]. Qed.

Lemma grows_for_each {A} (l : list A) (body : A → prog comments_state unit)
    (cs : comments_state) :
  (∀ x cs', grows cs' (body x cs')) → grows cs (for_each l body cs).
Proof.
  intros Hb. revert cs. induction l as [|x l IH]; intros cs; cbn [for_each].
  - apply grows_ret.
  - apply grows_bind; [apply Hb|]. intros _ cs'. apply IH.
Qed.

Ltac grows_step :=
  first [ apply grows_ret | apply grows_raise | apply grows_subscript
        | apply grows_append_comment | apply grows_bind; [|intros ? ?] ].

Lemma grows_append_reply (r : reply) (cs : comments_state) :
  grows cs (append_reply r cs).
Proof.
  unfold append_reply. repeat grows_step.
  - destruct (r_replies r); repeat grows_step.
  - apply grows_for_each. intros ? ?. repeat grows_step.
Qed.

Lemma append_reply_advances (r : reply) (cs : comments_state) :
  is_ok (res (append_reply r cs)) = true → cs.2 + 1 <= (st (append_reply r cs)).2.
Proof.
  unfold append_reply.
  destruct (r_uname r) as [uname|]; [|discriminate].
  destruct (r_message r) as [message|]; [|discriminate].
  destruct (r_like r) as [like|]; [|discriminate].
  cbn [subscript]. rewrite !bind_ret_l. intros _.
  match goal with
  | |- context [bind (append_comment ?s) ?k] => set (line := s); set (rest := k)
  end.
  assert (G : grows (cs.1 ++ [line], cs.2 + 1) (rest tt (cs.1 ++ [line], cs.2 + 1))).
  { subst rest. cbv beta. repeat grows_step.
    - destruct (r_replies r); repeat grows_step.
    - apply grows_for_each. intros ? ?. repeat grows_step. }
  destruct G as (_ & _ & G).
  unfold bind at 1. unfold append_comment at 1. unfold modify at 1.
  destruct (rest tt _) as [r' cs' ev']. cbn in *. lia.
Qed.

Lemma for_each_reply_advances (r : reply) (rs : list reply) (cs : comments_state) :
  is_ok (res (for_each (r :: rs) append_reply cs)) = true →
  cs.2 + 1 <= (st (for_each (r :: rs) append_reply cs)).2.
Proof.
  cbn [for_each]. unfold bind.
  pose proof (append_reply_advances r cs) as H1.
  destruct (append_reply r cs) as [[[]|e] cs1 ev1]; cbn in *; [|discriminate].
  pose proof (grows_for_each rs append_reply cs1 grows_append_reply) as (_ & _ & H2).
  destruct (for_each rs append_reply cs1) as [r2 cs2 ev2]. cbn in *. intros _.
  specialize (H1 eq_refl). lia.
Qed.

Lemma grows_done {A} (a : A) (cs : comments_state) :
  grows cs (Outcome (Ok a) cs []).
Proof. repeat split; cbn; [done|lia]. Qed.

(** The loop comes to its end when the fuel covers the comments that are
    still wanted, keeps what was accumulated, and emits nothing. *)
Lemma comments_loop_completes (w : world) (aid max_comments : Z) (fuel : nat) (page : Z)
    (cs : comments_state) :
  max_comments - cs.2 <= Z.of_nat fuel →
  loop_ok cs (comments_loop w aid max_comments fuel page cs).
Proof.
  revert page cs. induction fuel as [|fuel IH]; intros page cs Hfuel;
    cbn [comments_loop]; rewrite bind_get;
    destruct (cs.2 <? max_comments) eqn:Hlt;
    try (split; [done|apply grows_ret]).
  - apply Z.ltb_lt in Hlt. lia.
  - apply Z.ltb_lt in Hlt.
    destruct (w_get_comments w aid page) as [cres|e]; cbn [lift_result].
    2:{ split; [done|apply grows_raise]. }
    rewrite bind_ret_l.
    destruct (cr_replies cres) as [| |[|r rs]];
      try (split; [done|apply grows_ret]).
    pose proof (for_each_reply_advances r rs cs) as Hadv.
    pose proof (grows_for_each (r :: rs) append_reply cs grows_append_reply) as (He & Hp & Hc).
    unfold bind at 1.
    destruct (for_each (r :: rs) append_reply cs) as [[[]|e] cs1 ev1];
      cbn in He, Hp, Hc, Hadv; subst.
    2:{ split; [done|]. repeat split; cbn; [done|lia]. }
    specialize (Hadv eq_refl).
    destruct (cr_page cres) as [pg|]; cbn [subscript].
    2:{ cbn. split; [done|]. repeat split; cbn; [done|lia]. }
    rewrite bind_ret_l.
    destruct (pi_count pg <=? pi_num pg * pi_size pg).
    { cbn. split; [done|]. repeat split; cbn; [done|lia]. }
    destruct (IH (page + 1) cs1 ltac:(lia)) as (Hr & He2 & Hp2 & Hc2).
    destruct (comments_loop w aid max_comments fuel (page + 1) cs1) as [r2 cs2 ev2].
    cbn in *. subst. split; [done|]. repeat split; cbn; [by etrans|lia].
Qed.

Lemma comments_fetch_from_completes (w : world) (aid max_comments : Z) (fuel : nat) (page : Z)
    (cs : comments_state) :
  max_comments - cs.2 <= Z.of_nat fuel →
  ∃ cs' log, comments_fetch_from w aid max_comments fuel page cs = Outcome (Ok true) cs' log
             ∧ cs.1 `prefix_of` cs'.1.
Proof.
  intros Hfuel. unfold comments_fetch_from, try_except.
  destruct (comments_loop_completes w aid max_comments fuel page cs Hfuel)
    as (Hr & He & Hp & Hc).
  destruct (comments_loop w aid max_comments fuel page cs) as [[[]|e] cs1 ev1];
    cbn in *; [eauto|done|eauto].
Qed.


Lemma get_comments_list_async_returns {S} (w : world) (aid max_comments : Z) (fs : S) :
  ∃ comments log,
    get_comments_list_async w aid max_comments fs = Outcome (Ok comments) fs log.
Proof.
  unfold get_comments_list_async, comments_fetch, bind, with_local.
  destruct (comments_fetch_from_completes w aid max_comments (Z.to_nat max_comments) 1 ([], 0))
    as (cs' & log & -> & _); [cbn; lia|].
  destruct cs' as [l c]. cbn. rewrite app_nil_r. eauto.
Qed.

Lemma get_danmaku_list_async_returns {S} (w : world) (bvid : string) (fs : S) :
  ∃ ds log,
    get_danmaku_list_async w bvid fs = Outcome (Ok ds) fs log
    ∧ ((∃ cid rest, w_pagelist w bvid = Ok (Some (Some cid :: rest))
                    ∧ w_danmaku_xml w cid = Ok (Some ds) ∧ log = [])
       ∨ (ds = [] ∧ ∃ e, log = [EvLog ("获取弹幕失败: " +:+ exn_msg e)])).
Proof.
  unfold get_danmaku_list_async. py_unfold.
  destruct (w_pagelist w bvid) as [[[|[cid|] rest]|]|e]; cbn;
    try (do 2 eexists; split; [reflexivity|right; split; [reflexivity|]];
         first [by eexists | by eexists (Exn "" _)]).
  destruct (w_danmaku_xml w cid) as [[ds|]|e] eqn:Hxml; cbn;
    try (do 2 eexists; split; [reflexivity|right; split; [reflexivity|]];
         first [by eexists | by eexists (Exn "" _)]).
  do 2 eexists; split; [reflexivity|left; exists cid, rest; done].
Qed.

(** The fetchers do not look at the file system. *)
Lemma get_danmaku_list_async_any {S T} (w : world) (bvid : string) (s : S) (t : T) :
  res (get_danmaku_list_async w bvid s) = res (get_danmaku_list_async w bvid t)
  ∧ emitted (get_danmaku_list_async w bvid s) = emitted (get_danmaku_list_async w bvid t).
Proof.
  unfold get_danmaku_list_async, bind, with_local.
  by destruct (try_except _ _ _) as [[r|e] l ev].
Qed.

Lemma get_comments_list_async_any {S T} (w : world) (aid max_comments : Z) (s : S) (t : T) :
  res (get_comments_list_async w aid max_comments s)
  = res (get_comments_list_async w aid max_comments t)
  ∧ emitted (get_comments_list_async w aid max_comments s)
    = emitted (get_comments_list_async w aid max_comments t).
Proof.
  unfold get_comments_list_async, bind, with_local.
  by destruct (comments_fetch _ _ _ _) as [[r|e] [l c] ev].
Qed.

Lemma create_csv_returns (w : world) (bvid : string) (aid : Z) (fs : fsys) :
  res (create_danmaku_comment_csv_async w bvid aid fs)
  = Ok (os_path_join (w_cwd w) (bvid +:+ "_弹幕评论.csv")).
Proof.
  unfold create_danmaku_comment_csv_async. unfold bind at 1.
  destruct (get_danmaku_list_async_returns w bvid fs) as (ds & log & -> & _).
  unfold bind at 1.
  destruct (get_comments_list_async_returns w aid DEFAULT_MAX_COMMENTS fs) as (cs & log' & ->).
  reflexivity.
Qed.

(** C6.  For N danmaku and M comments the export writes its file with,
    after the header, exactly max(N, M) rows of two columns; row i holds
    danmaku i and comment i, with the empty string where the shorter list
    has ended.  On a file system that keeps the bytes, the file holds the
    UTF-8 byte order mark and then the header and these rows as the CSV
    writer prints them; a CSV reader finds them there again, whatever
    commas, quotes and line breaks the texts hold.  The two lists are what
    the two fetchers return. *)
Theorem csv_export_rows (w : world) (bvid : string) (aid : Z) (d : disk) :
  ∃ danmakus comments,
    res (get_danmaku_list_async w bvid d) = Ok danmakus
    ∧ res (get_comments_list_async w aid DEFAULT_MAX_COMMENTS d) = Ok comments
    ∧ let rows := csv_data_rows danmakus comments in
      let file_path := os_path_join (w_cwd w) (bvid +:+ "_弹幕评论.csv") in
      let o := create_danmaku_comment_csv_async w bvid aid d in
      res o = Ok file_path
      ∧ st o = <[file_path := utf8_bom +:+ csv_body (csv_header :: rows)]> d
      ∧ csv_reader (csv_body (csv_header :: rows))
        = ["弹幕"; "评论"] :: map (fun row => [row.1; row.2]) rows
      ∧ List.length rows = Nat.max (List.length danmakus) (List.length comments)
      ∧ (∀ i, (i < Nat.max (List.length danmakus) (List.length comments))%nat →
           rows !! i = Some (csv_cell (default (Some "") (danmakus !! i)),
                             default "" (comments !! i)))
      ∧ (∀ i, (List.length danmakus ≤ i)%nat → ∀ row, rows !! i = Some row → row.1 = "")
      ∧ (∀ i, (List.length comments ≤ i)%nat → ∀ row, rows !! i = Some row → row.2 = "")
      ∧ (∀ fs : fsys,
           create_danmaku_comment_csv_async w bvid aid fs
           = Outcome (Ok file_path)
               (<[file_path := N.of_nat (String.length
                                           (utf8_bom +:+ csv_body (csv_header :: rows)))]> fs)
               (emitted o)).
Proof.
  destruct (get_danmaku_list_async_returns w bvid d) as (danmakus & log & Hd & _).
  destruct (get_comments_list_async_returns w aid DEFAULT_MAX_COMMENTS d)
    as (comments & log' & Hc).
  exists danmakus, comments. rewrite Hd, Hc. split; [done|]. split; [done|].
  intros rows file_path o.
  assert (Ho : o = Outcome (Ok file_path)
                     (<[file_path := csv_file_bytes danmakus comments]> d)
                     (log ++ log' ++ [EvCreate file_path;
                                      EvLog ("数据已保存至: " +:+ file_path)])).
  { subst o. unfold create_danmaku_comment_csv_async.
    unfold bind at 1. rewrite Hd. unfold bind at 1. rewrite Hc. reflexivity. }
  destruct (csv_rows_of_lists danmakus comments)
    as (Hlen & Hrow & Hpad1 & Hpad2 & Hbytes & Hread).
  rewrite Ho. cbn [res st emitted]. rewrite Hbytes.
  do 7 (split; [done|]). intros fs.
  pose proof (get_danmaku_list_async_any w bvid d fs) as Hd'.
  pose proof (get_comments_list_async_any w aid DEFAULT_MAX_COMMENTS d fs) as Hc'.
  destruct (get_danmaku_list_async_returns w bvid fs) as (ds & l1 & Hdf & _).
  destruct (get_comments_list_async_returns w aid DEFAULT_MAX_COMMENTS fs) as (cs & l2 & Hcf).
  rewrite Hd, Hdf in Hd'. rewrite Hc, Hcf in Hc'. cbn [res emitted] in Hd', Hc'.
  destruct Hd' as [[= <-] <-], Hc' as [[= <-] <-].
  unfold create_danmaku_comment_csv_async.
  unfold bind at 1. rewrite Hdf. unfold bind at 1. rewrite Hcf.
  reflexivity.
Qed.


(** ** Routing of bare identifiers *)

Lemma all_chars_app (f : ascii → bool) (a b : string) :
  all_chars f (a +:+ b) = all_chars f a && all_chars f b.
Proof.
  induction a as [|c a IH]; [reflexivity|].
  rewrite append_cons. cbn. rewrite IH. by rewrite andb_assoc.
Qed.

Lemma all_chars_impl (f g : ascii → bool) (s : string) :
  (∀ c, f c = true → g c = true) → all_chars f s = true → all_chars g s = true.
Proof.
  intros Hfg. induction s as [|c s IH]; [done|]. cbn.
  rewrite !andb_true_iff. intros [? ?]. auto.
Qed.

Lemma prefix_all_chars (f : ascii → bool) (p s : string) :
  String.prefix p s = true → all_chars f s = true → all_chars f p = true.
Proof.
  revert s. induction p as [|a p IH]; intros s; [done|].
  destruct s as [|b s]; cbn; [done|].
  destruct (ascii_dec a b) as [->|]; [|done].
  rewrite !andb_true_iff. intros Hp [? ?]. eauto.
Qed.

Lemma contains_all_chars (f : ascii → bool) (sub s : string) :
  contains sub s = true → all_chars f s = true → all_chars f sub = true.
Proof.
  induction s as [|c s IH].
  - cbn. rewrite orb_false_r. intros Hp _. by apply (prefix_all_chars f sub "").
  - cbn [contains]. rewrite orb_true_iff. intros [Hp|Hc] Hs.
    + by apply (prefix_all_chars f sub (String c s)).
    + cbn in Hs. apply andb_true_iff in Hs as [_ Hs]. auto.
Qed.

(** A string that holds only characters of [f] does not contain [sub]
    when [sub] has a character outside [f]. *)
Lemma contains_outside (f : ascii → bool) (sub s : string) :
  all_chars f sub = false → all_chars f s = true → contains sub s = false.
Proof.
  intros Hsub Hs. apply not_true_is_false. intros Hc.
  rewrite (contains_all_chars f sub s Hc Hs) in Hsub. discriminate.
Qed.

Lemma strip_prefix_Some (p s r : string) :
  strip_prefix p s = Some r → s = p +:+ r.
Proof.
  revert s. induction p as [|a p IH]; intros s; cbn.
  - by intros [= ->].
  - destruct s as [|b s]; [done|].
    destruct (Ascii.eqb a b) eqn:E; [|done].
    apply Ascii.eqb_eq in E as ->. intros H. rewrite append_cons. f_equal. auto.
Qed.

Lemma strip_prefix_outside (f : ascii → bool) (p s : string) :
  all_chars f p = false → all_chars f s = true → strip_prefix p s = None.
Proof.
  intros Hp Hs. destruct (strip_prefix p s) as [r|] eqn:E; [|done].
  apply strip_prefix_Some in E. rewrite E, all_chars_app, Hp in Hs. discriminate.
Qed.

Lemma re_search_outside {A} (f : ascii → bool) (m : string → option A) (s : string) :
  (∀ t, all_chars f t = true → m t = None) →
  all_chars f s = true → re_search m s = None.
Proof.
  intros Hm. induction s as [|c s IH]; intros Hs; cbn [re_search].
  - by rewrite Hm.
  - rewrite Hm by done. cbn in Hs. apply andb_true_iff in Hs as [_ Hs]. auto.
Qed.

Lemma match_atoms_classes (f : ascii → bool) (n : nat) (t : string) :
  String.length t = n → all_chars f t = true →
  match_atoms (replicate n (Cls f)) t = Some "".
Proof.
  revert t. induction n as [|n IH]; intros [|c t]; cbn; try done.
  intros [= Hl] [Hc Ht]%andb_true_iff. rewrite Hc. auto.
Qed.

Lemma match_atoms_classes_inv (f : ascii → bool) (n : nat) (t rest : string) :
  match_atoms (replicate n (Cls f)) t = Some rest →
  ∃ pre, t = pre +:+ rest ∧ all_chars f pre = true ∧ String.length pre = n.
Proof.
  revert t. induction n as [|n IH]; intros t; cbn.
  - intros [= ->]. by exists "".
  - destruct t as [|c t]; [done|]. destruct (f c) eqn:Hc; [|done].
    intros (pre & -> & Hpre & Hl)%IH. exists (String c pre). cbn. rewrite Hc, Hpre, Hl. done.
Qed.

Lemma lstrip_id (s : string) :
  all_chars (λ c, negb (is_space c)) s = true → lstrip s = s.
Proof. destruct s as [|c s]; [done|]. cbn. by destruct (is_space c). Qed.

Lemma rstrip_id (s : string) :
  all_chars (λ c, negb (is_space c)) s = true → rstrip s = s.
Proof.
  induction s as [|c s IH]; [done|]. cbn. intros [Hc Hs]%andb_true_iff.
  rewrite IH by done. destruct s; [|done]. by destruct (is_space c).
Qed.

Lemma strip_id (s : string) :
  all_chars (λ c, negb (is_space c)) s = true → strip s = s.
Proof. intros H. unfold strip. by rewrite lstrip_id, rstrip_id. Qed.

Lemma span_all (f : ascii → bool) (s : string) :
  all_chars f s = true → span f s = (s, "").
Proof.
  induction s as [|c s IH]; [done|]. cbn. intros [Hc Hs]%andb_true_iff.
  by rewrite Hc, IH.
Qed.

Ltac ascii_cases c :=
  destruct c as [[] [] [] [] [] [] [] []]; vm_compute; try reflexivity; try discriminate.

Lemma alnum_not_space (c : ascii) : is_alnum c = true → negb (is_space c) = true.
Proof. ascii_cases c. Qed.

Lemma alnum_no0_alnum (c : ascii) : is_alnum_no0 c = true → is_alnum c = true.
Proof. ascii_cases c. Qed.

Lemma alnum_id_char (c : ascii) : is_alnum c = true → is_id_char c = true.
Proof. ascii_cases c. Qed.

Lemma url_reg_alnum (s : string) : all_chars is_alnum s = true → re_search url_reg s = None.
Proof.
  apply re_search_outside. intros t Ht. unfold url_reg.
  by rewrite !(strip_prefix_outside is_alnum _ t) by done.
Qed.

Lemma video_rex_alnum (s : string) : all_chars is_alnum s = true → re_search video_rex s = None.
Proof.
  apply re_search_outside. intros t Ht. unfold video_rex.
  by rewrite !(strip_prefix_outside is_alnum _ t) by done.
Qed.

(** A message made of letters and digits only, not expanded and without
    the words the handler routes on, is dropped without any effect. *)
Lemma handle_alnum_silent (cfg : config) (w : world) (ev : chat_event) (s : string) (fs : fsys) :
  all_chars is_alnum s = true →
  bv_expand s = false →
  contains "live" s = false →
  contains "read" s = false →
  contains "favlist" s && truthy (BILI_SESSDATA cfg) = false →
  handle_bilibili cfg w ev s fs = Outcome (Ok tt) fs [].
Proof.
  intros Hs Hexp Hlive Hread Hfav. unfold handle_bilibili. cbv zeta.
  rewrite (strip_id s) by (eapply all_chars_impl; [apply alnum_not_space|done]).
  rewrite Hexp.
  rewrite !(contains_outside is_alnum _ s) by done. cbn [orb andb].
  rewrite url_reg_alnum, bind_ret_l by done.
  rewrite !(contains_outside is_alnum _ s) by done. cbn [orb andb].
  rewrite Hlive, Hread, Hfav, video_rex_alnum by done.
  reflexivity.
Qed.

Lemma alnum_no0_not_zero (c : ascii) : is_alnum_no0 c = true → not_zero c = true.
Proof. ascii_cases c. Qed.

Lemma bv_expand_no_zero (url : string) : bv_expand url = true → contains "0" url = false.
Proof.
  unfold bv_expand.
  destruct url as [|c1 [|c2 t]]; cbn [lit app match_atoms atom_ok]; try done.
  { by destruct (Ascii.eqb "B" c1). }
  destruct (Ascii.eqb "B" c1) eqn:E1; [|done]. destruct (Ascii.eqb "V" c2) eqn:E2; [|done].
  apply Ascii.eqb_eq in E1 as <-. apply Ascii.eqb_eq in E2 as <-.
  destruct (match_atoms _ t) as [rest|] eqn:E; [|done].
  apply match_atoms_classes_inv in E as (pre & -> & Hpre & _).
  intros Hend. apply (contains_outside not_zero); [reflexivity|].
  cbn. rewrite all_chars_app.
  rewrite (all_chars_impl _ _ _ alnum_no0_not_zero Hpre).
  unfold at_end in Hend. apply orb_true_iff in Hend as [->%String.eqb_eq| ->%String.eqb_eq]; reflexivity.
Qed.

Lemma bv_trigger_alnum (t : string) :
  String.length t = 10%nat → all_chars is_alnum t = true →
  bili_matcher ("BV" +:+ t) = true.
Proof.
  intros Hl Ht. unfold bili_matcher.
  assert (bv_trigger ("BV" +:+ t) = true) as ->; [|by rewrite !orb_true_r].
  unfold bv_trigger. str_simpl. cbn [lit app match_atoms atom_ok].
  rewrite !Ascii.eqb_refl.
  change (replicate 10 (Cls is_alnum)) with (replicate 10%nat (Cls is_alnum)).
  by rewrite (match_atoms_classes is_alnum 10 t).
Qed.

Lemma bv_expand_alnum_no0 (t : string) :
  String.length t = 10%nat →
  bv_expand ("BV" +:+ t) = all_chars is_alnum_no0 t.
Proof.
  intros Hl. unfold bv_expand. str_simpl. cbn [lit app match_atoms atom_ok].
  rewrite !Ascii.eqb_refl.
  destruct (all_chars is_alnum_no0 t) eqn:Ht.
  - by rewrite (match_atoms_classes is_alnum_no0 10 t).
  - destruct (match_atoms _ t) as [rest|] eqn:E; [|done].
    apply match_atoms_classes_inv in E as (pre & -> & Hpre & Hlen).
    assert (rest = "") as ->.
    { assert (String.length (pre +:+ rest) = String.length pre + String.length rest)%nat as Hx.
      { clear. induction pre; cbn; [done|]. rewrite append_cons. cbn. lia. }
      destruct rest; [done|]. cbn in Hx. lia. }
    rewrite append_nil_r in Ht. congruence.
Qed.


Lemma alnum_not_backslash (c : ascii) : is_alnum c = true → not_backslash c = true.
Proof. ascii_cases c. Qed.

(** [url_reg] finds nothing in a text without a backslash. *)
Lemma url_reg_needs_backslash (s : string) :
  all_chars not_backslash s = true → re_search url_reg s = None.
Proof.
  apply re_search_outside. intros t Ht. unfold url_reg.
  assert (Hbody : ∀ r, all_chars not_backslash r = true →
            strip_prefix (String backslash "//") r = None).
  { intros r Hr. by apply (strip_prefix_outside not_backslash). }
  destruct (strip_prefix "http:" t) as [r|] eqn:E1; cbn [mbind option_bind orelse].
  - apply strip_prefix_Some in E1. subst t. rewrite all_chars_app in Ht.
    apply andb_true_iff in Ht as [_ Hr]. by rewrite (Hbody r Hr).
  - destruct (strip_prefix "https:" t) as [r|] eqn:E2; cbn [mbind option_bind orelse]; [|done].
    apply strip_prefix_Some in E2. subst t. rewrite all_chars_app in Ht.
    apply andb_true_iff in Ht as [_ Hr]. by rewrite (Hbody r Hr).
Qed.

(** A bare identifier without the digit 0 is handled as the video of
    that identifier. *)
Lemma handle_bare_bv_video (cfg : config) (w : world) (ev : chat_event) (t : string) (fs : fsys) :
  String.length t = 10%nat →
  all_chars is_alnum_no0 t = true →
  contains "live" t = false →
  contains "read" t = false →
  contains "favlist" t && truthy (BILI_SESSDATA cfg) = false →
  handle_bilibili cfg w ev ("BV" +:+ t) fs
  = video_branch cfg w ev ("https://www.bilibili.com/video/" +:+ "BV" +:+ t) ("BV" +:+ t) fs.
Proof.
  intros Hl Ht Hlive Hread Hfav.
  assert (Ha : all_chars is_alnum t = true)
    by (eapply all_chars_impl; [apply alnum_no0_alnum|done]).
  unfold handle_bilibili. cbv zeta.
  rewrite (strip_id ("BV" +:+ t)).
  2:{ rewrite all_chars_app. apply andb_true_iff. split; [reflexivity|].
      eapply all_chars_impl; [apply alnum_not_space|done]. }
  rewrite (bv_expand_alnum_no0 t Hl), Ht.
  set (url := "https://www.bilibili.com/video/" +:+ "BV" +:+ t).
  assert (C1 : contains "b23.tv" url = false)
    by (subst url; str_simpl; cbn; by apply (contains_outside is_alnum)).
  assert (C2 : contains "bili2233.cn" url = false)
    by (subst url; str_simpl; cbn; by apply (contains_outside is_alnum)).
  assert (C3 : contains "QQ小程序" url = false)
    by (subst url; str_simpl; cbn; by apply (contains_outside is_alnum)).
  assert (C4 : contains "t.bilibili.com" url = false)
    by (subst url; str_simpl; cbn; by apply (contains_outside is_alnum)).
  assert (C5 : contains "/opus" url = false)
    by (subst url; str_simpl; cbn; by apply (contains_outside is_alnum)).
  assert (C6 : contains "live" url = false) by (subst url; str_simpl; cbn; done).
  assert (C7 : contains "read" url = false) by (subst url; str_simpl; cbn; done).
  assert (C8 : contains "favlist" url = contains "favlist" t)
    by (subst url; str_simpl; cbn; done).
  assert (R1 : re_search url_reg url = None).
  { apply url_reg_needs_backslash. subst url. rewrite !all_chars_app.
    rewrite (all_chars_impl _ _ _ alnum_not_backslash Ha). reflexivity. }
  assert (R2 : re_search video_rex url = Some ("BV" +:+ t)).
  { subst url. str_simpl. cbn -[many1]. unfold many1, many. cbn [span].
    change (is_id_char "B") with true. change (is_id_char "V") with true. cbn iota.
    rewrite (span_all is_id_char t) by (eapply all_chars_impl; [apply alnum_id_char|done]).
    reflexivity. }
  rewrite C1, C2, C3. cbn [orb]. rewrite R1, bind_ret_l.
  rewrite C4, C5, C6, C7, C8, Hfav, R2. reflexivity.
Qed.

(** ** The media pipeline *)

Lemma remove_if_exists_run (f : string) (s : fsys) :
  remove_if_exists f s
  = Outcome (Ok tt) (delete f s) (if bool_decide (is_Some (s !! f)) then [EvRemove f] else []).
Proof.
  unfold remove_if_exists, os_path_exists, os_remove. py_unfold.
  destruct (s !! f) as [n|] eqn:E; cbn.
  - rewrite E. reflexivity.
  - by rewrite delete_id.
Qed.

Lemma bind_run {S A B} (m : prog S A) (f : A → prog S B) (s : S) r s1 ev1 :
  m s = Outcome r s1 ev1 →
  bind m f s = match r with
               | Ok a => match f a s1 with
                         | Outcome r2 s2 ev2 => Outcome r2 s2 (ev1 ++ ev2)
                         end
               | Raise e => Outcome (Raise e) s1 ev1
               end.
Proof. intros H. unfold bind. rewrite H. by destruct r. Qed.

Lemma try_finally_run {S A} (body : prog S A) (fin : prog S unit) (s : S) r s1 ev1 s2 ev2 :
  body s = Outcome r s1 ev1 → fin s1 = Outcome (Ok tt) s2 ev2 →
  try_finally body fin s = Outcome r s2 (ev1 ++ ev2).
Proof. intros H1 H2. unfold try_finally. by rewrite H1, H2. Qed.

Lemma truthy_append (p q : string) : truthy q = true → truthy (p +:+ q) = true.
Proof. destruct p; [done|reflexivity]. Qed.

(** The [finally] block of [auto_video_send] never raises and only removes. *)
Lemma unlink_artifacts_run (data_path : option string) (s : fsys) :
  ∃ s' rm, unlink_artifacts data_path s = Outcome (Ok tt) s' rm
           ∧ forallb cleanup_event rm = true.
Proof.
  unfold unlink_artifacts. cbn [for_each].
  assert (H : ∀ (o : option string) (s : fsys), ∃ s' rm,
            match o with
            | Some p => if truthy p then remove_if_exists p else ret tt
            | None => ret tt
            end s = Outcome (Ok tt) s' rm ∧ forallb cleanup_event rm = true).
  { intros [p|] s0; [destruct (truthy p)|]; try (by eexists _, []).
    rewrite remove_if_exists_run. do 2 eexists. split; [reflexivity|].
    by case_bool_decide. }
  destruct (H data_path s) as (s1 & rm1 & E1 & H1).
  destruct (H (Some (str_of_path data_path +:+ ".jpg")) s1) as (s2 & rm2 & E2 & H2).
  rewrite (bind_run _ _ _ _ _ _ E1). rewrite (bind_run _ _ _ _ _ _ E2). cbn.
  do 2 eexists. split; [reflexivity|].
  rewrite app_nil_r, forallb_app, H1, H2. done.
Qed.

(** The [finally] block of the handler. *)
Lemma remove_streams_run (video_path audio_path : string) (s : fsys) :
  for_each [video_path; audio_path] remove_if_exists s
  = Outcome (Ok tt) (delete audio_path (delete video_path s))
      ((if bool_decide (is_Some (s !! video_path)) then [EvRemove video_path] else [])
       ++ (if bool_decide (is_Some (delete video_path s !! audio_path))
           then [EvRemove audio_path] else [])).
Proof.
  cbn [for_each].
  rewrite (bind_run _ _ _ _ _ _ (remove_if_exists_run video_path s)).
  rewrite (bind_run _ _ _ _ _ _ (remove_if_exists_run audio_path _)). cbn.
  by rewrite app_nil_r.
Qed.

Lemma delivery_then_cleanup_cons (e : event) (tr : list event) :
  delivery_event e = true → delivery_then_cleanup tr → delivery_then_cleanup (e :: tr).
Proof.
  intros He (dlv & rm & -> & Hd & Hr). exists (e :: dlv), rm. cbn. by rewrite He, Hd.
Qed.

Lemma delivery_then_cleanup_end (rm : list event) :
  forallb cleanup_event rm = true → delivery_then_cleanup rm.
Proof. intros H. by exists [], rm. Qed.

(** [auto_video_send] never raises; it delivers, then cleans up. *)
Lemma auto_video_send_run (w : world) (ev : chat_event) (data_path : option string) (s : fsys) :
  ∃ s', res (auto_video_send w ev data_path s) = Ok tt
        ∧ st (auto_video_send w ev data_path s) = s'
        ∧ delivery_then_cleanup (emitted (auto_video_send w ev data_path s)).
Proof.
  cut (∃ s' tr, auto_video_send w ev data_path s = Outcome (Ok tt) s' tr
                ∧ delivery_then_cleanup tr).
  { intros (s' & tr & -> & H). eauto. }
  unfold auto_video_send, download_video, get_file_size_mb, os_path_getsize,
    adapter_send, thumbnails, upload_both, adapter_upload, send_both, write_file.
  repeat (first
    [ progress py_unfold
    | progress cbn -[os_path_join os_path_basename oversize_notice startswith exceeds_max_mb
                     py_round2 bytes_to_mb strip_prefix unlink_artifacts str_of_path]
    | match goal with
      | |- context [unlink_artifacts ?d ?s0] =>
          destruct (unlink_artifacts_run d s0) as (? & ? & -> & ?)
      end
    | py_case ]).
  all: cbn; do 2 eexists; (split; [reflexivity|]).
  all: repeat (apply delivery_then_cleanup_cons; [reflexivity|]).
  all: by apply delivery_then_cleanup_end.
Qed.

(** The two downloads: launched together, then their ends; the caller is
    resumed normally exactly when both files were written. *)
Lemma gather_downloads_run (w : world) (video_url video_path audio_url audio_path : string)
    (s : fsys) :
  ∃ r s' dls,
    gather2 (w_first_done w)
      (download_b_file w Video video_url video_path)
      (download_b_file w Audio audio_url audio_path) s
    = Outcome r s' (EvDownloadStart Video :: EvDownloadStart Audio :: dls)
    ∧ forallb download_event dls = true
    ∧ is_ok r = is_written (w_download_b_file w video_url video_path)
                && is_written (w_download_b_file w audio_url audio_path)
    ∧ (is_ok r = true →
       In (EvDownloadEnd Video true) dls ∧ In (EvDownloadEnd Audio true) dls).
Proof.
  unfold gather2, download_b_file, write_with, write_file. cbn [t_start t_finish t_inflight].
  destruct (w_first_done w);
    destruct (w_download_b_file w video_url video_path) as [?|[?|] ?];
    destruct (w_download_b_file w audio_url audio_path) as [?|[?|] ?];
    destruct (w_inflight w);
    py_unfold; cbn; do 3 eexists; (split; [reflexivity|]); cbn; intuition (auto; discriminate).
Qed.

(** The muxer: it starts, may write, and ends; it returns normally
    exactly when the output was written. *)
Lemma merge_file_to_mp4_run (w : world) (video_path audio_path output_path : string) (s : fsys) :
  ∃ r s' mx,
    merge_file_to_mp4 w video_path audio_path output_path s
    = Outcome r s' (EvMuxStart :: mx)
    ∧ forallb mux_event mx = true
    ∧ is_ok r = is_written (w_merge w video_path audio_path output_path)
    ∧ (is_ok r = true → In (EvMuxEnd true) mx).
Proof.
  unfold merge_file_to_mp4, write_with, write_file.
  destruct (w_merge w video_path audio_path output_path) as [?|[?|] ?];
    py_unfold; cbn; do 3 eexists; (split; [reflexivity|]); cbn; intuition (auto; discriminate).
Qed.

(** The events of the media pipeline, in their order, and its result. *)
Lemma media_pipeline_run
    (w : world) (ev : chat_event) (video_id video_url audio_url : string) (fs : fsys) :
  let path := os_path_join (w_cwd w) video_id in
  let o := media_pipeline w ev video_id video_url audio_url fs in
  ∃ dls mx dlv rm,
    emitted o = EvDownloadStart Video :: EvDownloadStart Audio :: dls ++ mx ++ dlv ++ rm
    ∧ forallb download_event dls = true
    ∧ forallb mux_event mx = true
    ∧ forallb delivery_event dlv = true
    ∧ forallb cleanup_event rm = true
    ∧ (mx ≠ [] → In (EvDownloadEnd Video true) dls ∧ In (EvDownloadEnd Audio true) dls)
    ∧ (dlv ≠ [] → In (EvMuxEnd true) mx)
    ∧ (is_written (w_download_b_file w video_url (path +:+ "-video.m4s"))
       && is_written (w_download_b_file w audio_url (path +:+ "-audio.m4s")) = false →
       is_ok (res o) = false ∧ mx = [] ∧ dlv = [])
    ∧ is_ok (res o)
      = is_written (w_download_b_file w video_url (path +:+ "-video.m4s"))
        && is_written (w_download_b_file w audio_url (path +:+ "-audio.m4s"))
        && is_written (w_merge w (path +:+ "-video.m4s") (path +:+ "-audio.m4s")
                         (path +:+ "-res.mp4")).
Proof.
  intros path o. subst o. unfold media_pipeline. fold path.
  set (video_path := path +:+ "-video.m4s").
  set (audio_path := path +:+ "-audio.m4s").
  set (output_path := path +:+ "-res.mp4").
  destruct (gather_downloads_run w video_url video_path audio_url audio_path fs)
    as (r1 & s1 & dls & Eg & Hdls & Hok1 & Hends).
  destruct (merge_file_to_mp4_run w video_path audio_path output_path s1)
    as (r2 & s2 & mx & Em & Hmx & Hok2 & Hmuxed).
  destruct (auto_video_send_run w ev (Some output_path) s2) as (s3 & Er & Es & dlv & rm & Ed & Hdlv & Hrm).
  destruct (auto_video_send w ev (Some output_path) s2) as [r3 s3' tr3] eqn:Ea.
  cbn in Er, Es, Ed. subst r3 s3' tr3.
  pose proof (remove_streams_run video_path audio_path) as Hfin.
  assert (Hfin_ok : ∀ s : fsys, forallb cleanup_event
            ((if bool_decide (is_Some (s !! video_path)) then [EvRemove video_path] else [])
             ++ (if bool_decide (is_Some (delete video_path s !! audio_path))
                 then [EvRemove audio_path] else [])) = true).
  { intros s. by repeat case_bool_decide. }
  destruct r1 as [[]|e1].
  - (* both downloads returned *)
    destruct (Hends eq_refl) as [Hv Ha].
    destruct r2 as [[]|e2].
    + (* muxed: delivery runs *)
      erewrite try_finally_run; [| |apply Hfin].
      2:{ rewrite (bind_run _ _ _ _ _ _ Eg). cbn beta iota.
          rewrite (bind_run _ _ _ _ _ _ Em). cbn beta iota. rewrite Ea. reflexivity. }
      cbn [emitted res].
      eexists dls, (EvMuxStart :: mx), dlv, (rm ++ _).
      split; [by rewrite <- !app_assoc|].
      split_and!; try done.
      * by rewrite forallb_app, Hrm, Hfin_ok.
      * intros _. right. auto.
      * intros Hnot. rewrite <- Hok1 in Hnot. discriminate.
      * by rewrite <- Hok1, <- Hok2.
    + (* muxing raised: no delivery *)
      erewrite try_finally_run; [| |apply Hfin].
      2:{ rewrite (bind_run _ _ _ _ _ _ Eg). cbn beta iota.
          rewrite (bind_run _ _ _ _ _ _ Em). reflexivity. }
      cbn [emitted res].
      eexists dls, (EvMuxStart :: mx), [], _.
      split; [by rewrite <- !app_assoc|].
      split_and!; try done.
      * intros Hnot. rewrite <- Hok1 in Hnot. discriminate.
      * by rewrite <- Hok1, <- Hok2.
  - (* a download raised: no muxing, no delivery *)
    erewrite try_finally_run; [| |apply Hfin].
    2:{ rewrite (bind_run _ _ _ _ _ _ Eg). reflexivity. }
    cbn [emitted res].
    eexists dls, [], [], _.
    split; [reflexivity|].
    split_and!; try done.
    by rewrite <- Hok1.
Qed.

(** C4.  The media pipeline emits, in this order: the launch of the video
    download and of the audio download, the ends of the downloads, the
    muxing, the delivery, the removals.  Muxing starts only after both
    downloads have ended well, delivery only after the muxing has ended
    well, and when a download fails the pipeline raises without muxing or
    delivering. *)
Theorem media_pipeline_order
    (w : world) (ev : chat_event) (video_id video_url audio_url : string) (fs : fsys) :
  let path := os_path_join (w_cwd w) video_id in
  let o := media_pipeline w ev video_id video_url audio_url fs in
  ∃ dls mx dlv rm,
    emitted o = EvDownloadStart Video :: EvDownloadStart Audio :: dls ++ mx ++ dlv ++ rm
    ∧ forallb download_event dls = true
    ∧ forallb mux_event mx = true
    ∧ forallb delivery_event dlv = true
    ∧ forallb cleanup_event rm = true
    ∧ (mx ≠ [] → In (EvDownloadEnd Video true) dls ∧ In (EvDownloadEnd Audio true) dls)
    ∧ (dlv ≠ [] → In (EvMuxEnd true) mx)
    ∧ (is_written (w_download_b_file w video_url (path +:+ "-video.m4s"))
       && is_written (w_download_b_file w audio_url (path +:+ "-audio.m4s")) = false →
       is_ok (res o) = false ∧ mx = [] ∧ dlv = []).
Proof.
  intros path o.
  destruct (media_pipeline_run w ev video_id video_url audio_url fs)
    as (dls & mx & dlv & rm & H1 & H2 & H3 & H4 & H5 & H6 & H7 & H8 & _).
  exists dls, mx, dlv, rm. split_and!; assumption.
Qed.

(** ** The export *)

Lemma get_danmaku_list_async_run (w : world) (bvid : string) (fs : fsys) :
  ∃ ds log, get_danmaku_list_async w bvid fs = Outcome (Ok ds) fs log
            ∧ forallb is_log log = true.
Proof.
  destruct (get_danmaku_list_async_returns w bvid fs) as (ds & log & E & H).
  exists ds, log. split; [done|].
  destruct H as [(? & ? & ? & ? & ->)|(? & ? & ->)]; reflexivity.
Qed.

Lemma get_comments_list_async_run (w : world) (aid max_comments : Z) (fs : fsys) :
  ∃ cs log, get_comments_list_async w aid max_comments fs = Outcome (Ok cs) fs log
            ∧ forallb is_log log = true.
Proof.
  unfold get_comments_list_async, comments_fetch, comments_fetch_from, bind, with_local,
    try_except.
  destruct (comments_loop_completes w aid max_comments (Z.to_nat max_comments) 1 ([], 0))
    as (Hr & He & _); [cbn; lia|].
  destruct (comments_loop _ _ _ _ _ _) as [[[]|e] [l c] ev1]; cbn in *; subst; try done;
    by do 2 eexists.
Qed.

Lemma create_csv_run (w : world) (bvid : string) (aid : Z) (fs : fsys) :
  ∃ n log,
    create_danmaku_comment_csv_async w bvid aid fs
    = Outcome (Ok (csv_path w bvid)) (<[csv_path w bvid := n]> fs)
        (log ++ [EvCreate (csv_path w bvid); EvLog ("数据已保存至: " +:+ csv_path w bvid)])
    ∧ forallb is_log log = true.
Proof.
  unfold create_danmaku_comment_csv_async. fold (csv_path w bvid).
  destruct (get_danmaku_list_async_run w bvid fs) as (ds & log1 & E1 & H1).
  destruct (get_comments_list_async_run w aid DEFAULT_MAX_COMMENTS fs) as (cs & log2 & E2 & H2).
  rewrite (bind_run _ _ _ _ _ _ E1). cbn beta iota.
  rewrite (bind_run _ _ _ _ _ _ E2). cbn beta iota.
  unfold write_file. py_unfold. cbn.
  eexists _, (log1 ++ log2). rewrite <- app_assoc. split; [reflexivity|].
  by rewrite forallb_app, H1, H2.
Qed.

Lemma Forall_export_logs (csv : string) (log : list event) :
  forallb is_log log = true → Forall (export_event csv) log.
Proof.
  induction log as [|e log IH]; [constructor|]. cbn. intros [He Hl]%andb_true_iff.
  constructor; [by destruct e|auto].
Qed.

Ltac export_events :=
  rewrite ?Forall_app, ?Forall_cons, ?Forall_nil;
  repeat split; try assumption; cbn; first [done | by left | by right].

(** The export starts with its notice and emits only events of its own. *)
Lemma export_block_run (w : world) (ev : chat_event) (video_id : string) (aid : Z) (fs : fsys) :
  ∃ tail, emitted (export_block w ev video_id aid fs) = export_start :: tail
          ∧ Forall (export_event (csv_path w video_id)) tail.
Proof.
  unfold export_block, try_except.
  unfold adapter_send at 1. cbn [thumbnails for_each].
  destruct (w_send w Origin [SegText exporting_notice]) eqn:Hs.
  2:{ py_unfold. cbn. unfold adapter_send. py_unfold. cbn.
      destruct (w_send w Origin [SegText export_apology]); cbn;
        (eexists; split; [reflexivity|]); export_events. }
  destruct (create_csv_run w video_id aid fs) as (n & log & Ec & Hlog).
  set (csv := csv_path w video_id) in *.
  assert (Hsend : (emit (EvSend [SegText exporting_notice]);;; ret tt;;; lift_io IoOk) fs
                  = Outcome (Ok tt) fs [EvSend [SegText exporting_notice]]) by reflexivity.
  rewrite (bind_run _ _ _ _ _ _ Hsend). cbn beta iota.
  rewrite (bind_run _ _ _ _ _ _ Ec). cbn beta iota.
  pose proof (Forall_export_logs csv log Hlog) as Hl.
  unfold upload_both, adapter_upload, os_remove, adapter_send, thumbnails.
  destruct ev; py_unfold; cbn -[os_path_basename];
    rewrite ?lookup_insert_eq; cbn -[os_path_basename];
    repeat (py_case; cbn -[os_path_basename]);
    (eexists; split; [reflexivity|]); export_events.
Qed.


Lemma ai_block_run (cfg : config) (w : world) (ev : chat_event) (video_id csv : string)
    (fs : fsys) :
  Forall (export_event csv) (emitted (ai_block cfg w ev video_id fs)).
Proof.
  unfold ai_block, send_forward_both. py_unfold.
  repeat (py_case; cbn); export_events.
Qed.

(** ** The video branch *)

Lemma export_event_not_media (csv : string) (e : event) :
  export_event csv e → media_step e = false.
Proof. destruct e; cbn; try done. by intros [-> | ->]. Qed.















(** When its notice goes out, the export writes its file. *)
Lemma export_block_creates (w : world) (ev : chat_event) (video_id : string) (aid : Z)
    (fs : fsys) :
  w_send w Origin [SegText exporting_notice] = IoOk →
  In (EvCreate (csv_path w video_id)) (emitted (export_block w ev video_id aid fs)).
Proof.
  intros Hs. unfold export_block, try_except.
  unfold adapter_send at 1. cbn [thumbnails for_each]. rewrite Hs.
  destruct (create_csv_run w video_id aid fs) as (n & log & Ec & Hlog).
  set (csv := csv_path w video_id) in *.
  assert (Hsend : (emit (EvSend [SegText exporting_notice]);;; ret tt;;; lift_io IoOk) fs
                  = Outcome (Ok tt) fs [EvSend [SegText exporting_notice]]) by reflexivity.
  rewrite (bind_run _ _ _ _ _ _ Hsend). cbn beta iota.
  rewrite (bind_run _ _ _ _ _ _ Ec). cbn beta iota.
  match goal with
  | |- context [match ?b (<[csv:=n]> fs) with _ => _ end] =>
      destruct (b (<[csv:=n]> fs)) as [[[]|e] s1 ev1]
  end; cbn.
  - right. rewrite <- !app_assoc. apply in_or_app. right. by left.
  - match goal with |- context [match ?h with _ => _ end] => destruct h end. cbn.
    right. rewrite <- !app_assoc. apply in_or_app. right. by left.
Qed.

Lemma too_long_run (cfg : config) (w : world) (ev : chat_event)
    (url video_id : string) (vi : video_info) (pn d : Z) (on : online) (fs : fsys) :
  w_get_info w video_id = Ok (Some vi) →
  page_num_of w url = Ok pn →
  select_duration vi pn = Ok d →
  w_get_online w video_id = Ok on →
  VIDEO_DURATION_MAXIMUM cfg < d →
  let csv := csv_path w video_id in
  let msg := [SegImage (vi_pic vi);
              SegText (info_msg_of cfg w vi on +:+ too_long_notice cfg d)] in
  ∃ tail,
    emitted (video_branch cfg w ev url video_id fs) = EvSend msg :: tail
    ∧ Forall (export_event csv) tail
    ∧ (w_send w Origin msg = IoOk →
       ∃ tail', tail = export_start :: tail'
                ∧ (w_send w Origin [SegText exporting_notice] = IoOk →
                   In (EvCreate csv) tail')).
Proof.
  intros Hinfo Hpn Hd Hon Hlong csv msg.
  unfold video_branch.
  rewrite Hinfo. cbn [lift_result]. rewrite bind_ret_l.
  rewrite Hpn. cbn [lift_result]. rewrite bind_ret_l.
  rewrite Hd. cbn [lift_result]. rewrite bind_ret_l.
  rewrite Hon. cbn [lift_result]. rewrite bind_ret_l.
  rewrite (proj2 (Z.ltb_lt _ _) Hlong). fold msg.
  unfold adapter_send, thumbnails. cbn [for_each].
  destruct (w_send w Origin msg) eqn:Hs.
  2:{ py_unfold. cbn. exists []. split; [done|]. split; [constructor|]. intros [=]. }
  assert (Hsend : (emit (EvSend msg);;; ret tt;;; lift_io IoOk) fs
                  = Outcome (Ok tt) fs [EvSend msg]) by reflexivity.
  rewrite (bind_run _ _ _ _ _ _ Hsend). cbn beta iota.
  destruct (export_block_run w ev video_id (vi_aid vi) fs) as (tail & Ee & He).
  pose proof (export_block_creates w ev video_id (vi_aid vi) fs) as Hc.
  destruct (export_block w ev video_id (vi_aid vi) fs) as [[[]|e] s1 ev1] eqn:Eexp;
    cbn [emitted] in Ee, Hc; subst ev1; rewrite (bind_run _ _ _ _ _ _ Eexp); cbn beta iota.
  - pose proof (ai_block_run cfg w ev video_id csv s1) as Hai.
    destruct (ai_block cfg w ev video_id s1) as [r2 s2 ev2]. cbn [emitted] in *.
    exists (export_start :: tail ++ ev2). split_and!; [done| |].
    + constructor; [by left|]. by apply Forall_app.
    + intros _. eexists. split; [reflexivity|]. intros Hn.
      destruct (Hc Hn) as [?|Hin]; [done|]. apply in_or_app. by left.
  - exists (export_start :: tail). split_and!; [done| |].
    + constructor; [by left|done].
    + intros _. eexists. split; [reflexivity|]. intros Hn.
      by destruct (Hc Hn) as [?|Hin].
Qed.

(* ===================================================================== *)
(** * The claims *)

(** C1 fails on the code.  When the muxer raises after it has started to
    write its output, the handler removes the two stream files and leaves
    the output behind; when the upload of the export raises, the CSV file
    stays.  In both runs the file system was empty before. *)
Theorem cleanup_misses_muxed_output_and_export :
  let muxing_fails :=
    sample_world (sample_info 300) None IoOk (Written 10) (Written 1000) (Written 1000)
                 (Broken (Some 64%N) MuxError) in
  let upload_fails :=
    sample_world (sample_info 300) None (IoRaise ActionFailed) (Written 10) (Written 1000)
                 (Written 1000) (Written 2000) in
  let o1 := handle_bilibili default_config muxing_fails sample_event sample_url ∅ in
  let o2 := handle_bilibili default_config upload_fails sample_event sample_url ∅ in
  (res o1 = Raise MuxError ∧ files_of o1 = [("/bot/BV1xx411c7mD-res.mp4", 64%N)])
  ∧ (res o2 = Ok tt ∧ files_of o2 = [("/bot/BV1xx411c7mD_弹幕评论.csv", 53%N)]).
Proof. vm_compute. repeat split. Qed.

(** C2 as stated fails: a file one byte over the threshold is sent
    inline, and nothing is uploaded. *)
Lemma one_byte_over_is_sent_inline :
  (104857601 = 100 * (1024 * 1024) + 1)%N
  ∧ emitted (auto_video_send calm_world sample_event (Some "/bot/a.mp4")
               {["/bot/a.mp4" := 104857601%N]})
    = [EvSend [SegVideo "file:///bot/a.mp4"]; EvCreate "/bot/a.mp4.jpg";
       EvRemove "/bot/a.mp4"; EvRemove "/bot/a.mp4.jpg"].
Proof. vm_compute. split; reflexivity. Qed.

(** C2 at the threshold: 100 * 2^20 bytes are sent inline. *)
Lemma delivery_mode_at_threshold :
  ∃ tail,
    emitted (auto_video_send calm_world sample_event (Some "/bot/a.mp4")
               {["/bot/a.mp4" := 104857600%N]})
    = EvSend [SegVideo "file:///bot/a.mp4"] :: tail.
Proof.
  exact (proj2 (proj2 (delivery_mode_follows_rounded_size calm_world sample_event
           "/bot/a.mp4" 104857600 {["/bot/a.mp4" := 104857600%N]}
           eq_refl eq_refl ltac:(discriminate)))).
Defined.




(** C5, as the code has it.  For a video whose selected duration exceeds
    the limit the handler sends the information message with the cover and
    the notice that the video is too long; nothing is downloaded, muxed or
    delivered and no media file is created.  The export still runs: every
    later event is one of the export or the summary, and when its notice
    goes out the export creates its CSV file. *)
Theorem too_long_video_only_exports (cfg : config) (w : world) (ev : chat_event)
    (url video_id : string) (vi : video_info) (pn d : Z) (on : online) (fs : fsys) :
  w_get_info w video_id = Ok (Some vi) →
  page_num_of w url = Ok pn →
  select_duration vi pn = Ok d →
  w_get_online w video_id = Ok on →
  VIDEO_DURATION_MAXIMUM cfg < d →
  let csv := csv_path w video_id in
  let msg := [SegImage (vi_pic vi);
              SegText (info_msg_of cfg w vi on +:+ too_long_notice cfg d)] in
  ∃ tail,
    emitted (video_branch cfg w ev url video_id fs) = EvSend msg :: tail
    ∧ Forall (λ e, media_step e = false) tail
    ∧ Forall (export_event csv) tail
    ∧ (w_send w Origin msg = IoOk →
       ∃ tail', tail = export_start :: tail'
                ∧ (w_send w Origin [SegText exporting_notice] = IoOk →
                   In (EvCreate csv) tail')).
Proof.
  intros Hinfo Hpn Hd Hon Hlong csv msg.
  destruct (too_long_run cfg w ev url video_id vi pn d on fs Hinfo Hpn Hd Hon Hlong)
    as (tail & E & He & Hrun).
  exists tail. split_and!; try done.
  eapply Forall_impl; [exact He|]. apply export_event_not_media.
Qed.

(** C5 on a video of 700 s with the limit of 480 s. *)
Lemma too_long_video_sample :
  let w := sample_world (sample_info 700) None IoOk (Written 10) (Written 1000)
                        (Written 1000) (Written 2000) in
  ∃ tail,
    emitted (video_branch default_config w sample_event sample_url "BV1xx411c7mD" ∅)
    = EvSend [SegImage "cover.png";
              SegText (info_msg_of default_config w (sample_info 700) (Online "3" "1")
                       +:+ too_long_notice default_config 700)] :: tail
    ∧ Forall (λ e, media_step e = false) tail
    ∧ Forall (export_event "/bot/BV1xx411c7mD_弹幕评论.csv") tail.
Proof.
  destruct (too_long_video_only_exports default_config
              (sample_world (sample_info 700) None IoOk (Written 10) (Written 1000)
                            (Written 1000) (Written 2000))
              sample_event sample_url "BV1xx411c7mD" (sample_info 700) 0 700 (Online "3" "1") ∅
              eq_refl eq_refl eq_refl eq_refl eq_refl)
    as (tail & E & Hm & He & _).
  exists tail. split_and!; assumption.
Defined.

(** C5 as stated fails: for a video of 700 s and a limit of 480 s the
    handler goes on to the export, which creates its CSV file. *)
Lemma too_long_video_still_writes_csv :
  let w := sample_world (sample_info 700) None IoOk (Written 10) (Written 1000)
                        (Written 1000) (Written 2000) in
  let o := handle_bilibili default_config w sample_event sample_url ∅ in
  drop 1 (emitted o)
  = [EvSend [SegText exporting_notice];
     EvCreate "/bot/BV1xx411c7mD_弹幕评论.csv";
     EvLog "数据已保存至: /bot/BV1xx411c7mD_弹幕评论.csv";
     EvUpload "/bot/BV1xx411c7mD_弹幕评论.csv" "BV1xx411c7mD_弹幕评论.csv";
     EvRemove "/bot/BV1xx411c7mD_弹幕评论.csv"].
Proof. vm_compute. reflexivity. Qed.

(** C7 fails on the code.  When the remote fetch of [download_video]
    breaks after the local file was opened, the exception is caught and
    logged, but the cleanup works on the URL, which [data_path] still is,
    and the partial file stays. *)
Theorem failed_remote_fetch_leaves_partial_file :
  let w := sample_world (sample_info 300) None IoOk (Broken (Some 512%N) ConnectError)
                        (Written 1000) (Written 1000) (Written 2000) in
  let o := auto_video_send w sample_event (Some "http://cdn.example/v.mp4") ∅ in
  res o = Ok tt
  ∧ emitted o = [EvFetchStart "http://cdn.example/v.mp4";
                 EvCreate "/bot/1700000000.5.mp4";
                 EvFetchEnd false;
                 EvLog ("解析发送出现错误，具体为" +:+ nl +:+ exn_msg ConnectError)]
  ∧ files_of o = [("/bot/1700000000.5.mp4", 512%N)].
Proof. vm_compute. repeat split. Qed.

(** C9 on a three-page video with p=3: the third page lasts 700 s, more
    than the limit of 480 s, while the whole video lasts 300 s. *)
Lemma third_page_is_compared :
  let w := sample_world paged_info (Some "3") IoOk (Written 10) (Written 1000)
                        (Written 1000) (Written 2000) in
  select_duration paged_info (3 - 1) = Ok 700
  ∧ ∃ tail,
      emitted (video_branch default_config w sample_event sample_url "BV1xx411c7mD" ∅)
      = EvSend [SegImage "cover.png";
                SegText (info_msg_of default_config w paged_info (Online "3" "1")
                         +:+ too_long_notice default_config 700)] :: tail.
Proof.
  pose proof (page_duration_is_compared default_config
                (sample_world paged_info (Some "3") IoOk (Written 10) (Written 1000)
                              (Written 1000) (Written 2000))
                sample_event sample_url "BV1xx411c7mD" "3" [] 3 paged_info
                [Page (Some 100); Page None; Page (Some 700)] (Online "3" "1") ∅
                eq_refl eq_refl eq_refl eq_refl eq_refl ltac:(discriminate))
    as (_ & _ & Hd & Htail).
  exact (conj Hd Htail).
Defined.

(** C10, as the code has it.  A message that is a bare identifier of 12
    characters, BV and 10 letters or digits, without the words live and
    read (and favlist, when session data is set) triggers the matcher.  If
    it holds the digit 0 it is not expanded and the handler returns with no
    message sent and no file touched.  Only an identifier without 0 is
    expanded, and it is handled as the video
    https://www.bilibili.com/video/<id>. *)
Theorem bare_bv_identifier_routing (cfg : config) (w : world) (ev : chat_event)
    (t : string) (fs : fsys) :
  String.length t = 10%nat →
  all_chars is_alnum t = true →
  contains "live" t = false →
  contains "read" t = false →
  contains "favlist" t && truthy (BILI_SESSDATA cfg) = false →
  let id := "BV" +:+ t in
  String.length id = 12%nat
  ∧ bili_matcher id = true
  ∧ (contains "0" t = true →
       bv_expand id = false ∧ handle_bilibili cfg w ev id fs = Outcome (Ok tt) fs [])
  ∧ (bv_expand id = true →
       contains "0" id = false
       ∧ handle_bilibili cfg w ev id fs
         = video_branch cfg w ev ("https://www.bilibili.com/video/" +:+ id) id fs).
Proof.
  intros Hl Ha Hlive Hread Hfav id. subst id.
  split; [by rewrite append_cons, append_cons, append_nil_l; cbn; rewrite Hl|].
  split; [by apply bv_trigger_alnum|].
  pose proof (bv_expand_alnum_no0 t Hl) as Hexp.
  split.
  - intros H0.
    assert (Hno : all_chars is_alnum_no0 t = false).
    { apply not_true_is_false. intros Hno.
      rewrite (contains_outside is_alnum_no0 "0" t) in H0 by done. discriminate. }
    rewrite Hno in Hexp. split; [done|].
    assert (Hid : ∀ sub, String.prefix sub ("BV" +:+ t) = false →
                         String.prefix sub ("V" +:+ t) = false →
                         contains sub ("BV" +:+ t) = contains sub t).
    { intros sub H1 H2. rewrite !append_cons, append_nil_l in *.
      cbn [contains]. by rewrite H1, H2. }
    apply handle_alnum_silent.
    + by rewrite all_chars_app, Ha.
    + done.
    + by rewrite Hid.
    + by rewrite Hid.
    + by rewrite Hid.
  - intros He. split; [by apply bv_expand_no_zero|].
    rewrite Hexp in He. by apply handle_bare_bv_video.
Qed.

(** C10 on the identifier BV1xx011c7mD. *)
Lemma bare_bv_identifier_sample :
  bili_matcher "BV1xx011c7mD" = true
  ∧ bv_expand "BV1xx011c7mD" = false
  ∧ handle_bilibili default_config calm_world sample_event "BV1xx011c7mD" ∅
    = Outcome (Ok tt) ∅ [].
Proof.
  pose proof (bare_bv_identifier_routing default_config calm_world sample_event
                "1xx011c7mD" ∅ eq_refl eq_refl eq_refl eq_refl eq_refl) as (_ & Ht & H0 & _).
  destruct (H0 eq_refl) as [He Hh].
  exact (conj Ht (conj He Hh)).
Defined.

(** C10 as stated fails: a text of 11 characters does not match the
    trigger pattern, which asks for 12; and an identifier of 12 characters
    that holds the digit 0 and the word read triggers the matcher, is not
    expanded, and makes the handler raise in its article branch. *)
Lemma short_or_routed_identifiers :
  (String.length "BV012345678" = 11%nat ∧ bili_matcher "BV012345678" = false)
  ∧ (bili_matcher "BVread012345" = true
     ∧ bv_expand "BVread012345" = false
     ∧ handle_bilibili default_config calm_world sample_event "BVread012345" ∅
       = Outcome (Raise NoneType_group) ∅ []).
Proof. vm_compute. repeat split. Qed.

(* ===================================================================== *)
(** * Further properties of the code *)

(** ** Text and patterns *)

Lemma boring_classes (c : ascii) :
  in_range 10 10 c || in_range 9 9 c || in_range 13 13 c = is_boring c.
Proof. ascii_cases c. Qed.

Lemma keep_chars_all (f : ascii → bool) (s : string) :
  all_chars f (keep_chars f s) = true.
Proof.
  induction s as [|c s IH]; [done|]. cbn. destruct (f c) eqn:E; [|done]. cbn. by rewrite E.
Qed.

Lemma keep_chars_id (f : ascii → bool) (s : string) :
  all_chars f s = true → keep_chars f s = s.
Proof.
  induction s as [|c s IH]; [done|]. cbn. intros [Hc Hs]%andb_true_iff.
  rewrite Hc. f_equal. auto.
Qed.

Lemma keep_chars_app (f : ascii → bool) (a b : string) :
  keep_chars f (a +:+ b) = keep_chars f a +:+ keep_chars f b.
Proof.
  induction a as [|c a IH]; [done|]. rewrite append_cons. cbn.
  destruct (f c); [rewrite append_cons|]; by rewrite IH.
Qed.

Lemma keep_chars_length (f : ascii → bool) (s : string) :
  (String.length (keep_chars f s) ≤ String.length s)%nat.
Proof. induction s as [|c s IH]; [done|]. cbn. destruct (f c); cbn; lia. Qed.

Lemma delete_boring_characters_keep (text : string) :
  delete_boring_characters text = keep_chars not_boring text.
Proof.
  induction text as [|c s IH]; [done|]. cbn [delete_boring_characters keep_chars].
  rewrite boring_classes. unfold not_boring at 1. destruct (is_boring c); cbn; by rewrite IH.
Qed.

(** X1.  [delete_boring_characters] keeps, in their order, exactly the
    characters that are not a line feed, a tab or a carriage return: its
    result holds none of the three, a text without them is returned as it
    is, cleaning twice is cleaning once, and the function goes through
    concatenation. *)
Theorem delete_boring_characters_filters (text a b : string) :
  delete_boring_characters text = keep_chars not_boring text
  ∧ all_chars not_boring (delete_boring_characters text) = true
  ∧ contains nl (delete_boring_characters text) = false
  ∧ (all_chars not_boring text = true → delete_boring_characters text = text)
  ∧ delete_boring_characters (delete_boring_characters text) = delete_boring_characters text
  ∧ delete_boring_characters (a +:+ b)
    = delete_boring_characters a +:+ delete_boring_characters b
  ∧ (String.length (delete_boring_characters text) ≤ String.length text)%nat.
Proof.
  rewrite !delete_boring_characters_keep.
  split; [done|]. split; [apply keep_chars_all|].
  split; [apply (contains_outside not_boring); [reflexivity|apply keep_chars_all]|].
  split; [apply keep_chars_id|].
  split; [apply keep_chars_id, keep_chars_all|].
  split; [apply keep_chars_app|apply keep_chars_length].
Qed.

Lemma re_search_app {A} (m : string → option A) (a s : string) :
  is_match (m s) = true → is_match (re_search m (a +:+ s)) = true.
Proof.
  intros Hm. induction a as [|c a IH].
  - rewrite append_nil_l. destruct s; cbn; destruct (m _); done.
  - rewrite append_cons. cbn [re_search]. destruct (m (String c _)); [done|exact IH].
Qed.

Lemma match_atoms_lit_app (p s : string) (q : list atom) :
  match_atoms (lit p ++ q) (p +:+ s) = match_atoms q s.
Proof.
  induction p as [|c p IH]; [done|]. rewrite append_cons. cbn. by rewrite Ascii.eqb_refl.
Qed.

Lemma match_atoms_lit_prefix (p s : string) (q : list atom) :
  is_match (match_atoms (lit p ++ q) s) = true → String.prefix p s = true.
Proof.
  revert s. induction p as [|c p IH]; intros s; [by destruct s|].
  destruct s as [|d s]; [done|]. cbn.
  destruct (Ascii.eqb_spec c d) as [->|Hne].
  - destruct (ascii_dec d d); [|done]. apply IH.
  - done.
Qed.

Lemma re_search_lit_contains (p s : string) (q : list atom) :
  is_match (re_search (match_atoms (lit p ++ q)) s) = true → contains p s = true.
Proof.
  induction s as [|c s IH]; cbn [re_search contains].
  - destruct (match_atoms _ "") eqn:E; [|done]. intros _.
    rewrite (match_atoms_lit_prefix p "" q); [done|by rewrite E].
  - destruct (match_atoms _ (String c s)) eqn:E.
    + intros _. rewrite (match_atoms_lit_prefix p (String c s) q); [done|by rewrite E].
    + intros H. rewrite (IH H). apply orb_true_r.
Qed.

Lemma dotted_matches (p q a b : string) (c : ascii) :
  c ≠ lf →
  is_match (re_search (match_atoms (lit p ++ [Dot] ++ lit q)) (a +:+ p +:+ String c q +:+ b)) = true.
Proof.
  intros Hc. apply re_search_app.
  rewrite match_atoms_lit_app. rewrite append_cons. cbn [app match_atoms atom_ok].
  destruct (Ascii.eqb_spec c lf) as [->|_]; [done|]. cbn [negb].
  pose proof (match_atoms_lit_app q b []) as H. rewrite app_nil_r in H. rewrite H. done.
Qed.

(** X2.  The dots of the trigger pattern are not escaped: a text triggers
    the matcher as soon as it holds bilibili, b23 or bili2233, any one
    character but a line feed, and com, tv or cn.  The other way round, a
    text that triggers the matcher holds one of the three names or is a
    bare BV identifier. *)
Theorem matcher_dot_is_any_character (a b : string) (c : ascii) :
  c ≠ lf →
  bili_matcher (a +:+ "bilibili" +:+ String c "com" +:+ b) = true
  ∧ bili_matcher (a +:+ "b23" +:+ String c "tv" +:+ b) = true
  ∧ bili_matcher (a +:+ "bili2233" +:+ String c "cn" +:+ b) = true
  ∧ (∀ text, bili_matcher text = true →
       contains "bilibili" text = true ∨ contains "b23" text = true
       ∨ contains "bili2233" text = true ∨ bv_trigger text = true).
Proof.
  intros Hc. unfold bili_matcher. split_and!.
  - by rewrite (dotted_matches "bilibili" "com" a b c Hc).
  - rewrite (dotted_matches "b23" "tv" a b c Hc). by rewrite orb_true_r.
  - rewrite (dotted_matches "bili2233" "cn" a b c Hc). by rewrite !orb_true_r.
  - intros text. rewrite !orb_true_iff. intros [[[H|H]|H]|H]; eauto using re_search_lit_contains.
Qed.

Lemma matcher_dot_sample :
  bili_matcher "see bilibili-com" = true ∧ contains "bilibili.com" "see bilibili-com" = false.
Proof.
  split; [|reflexivity].
  exact (proj1 (matcher_dot_is_any_character "see " "" "-" ltac:(discriminate))).
Defined.


Lemma span_stop (f : ascii → bool) (a rest : string) :
  all_chars f a = true →
  (rest = "" ∨ ∃ c r, rest = String c r ∧ f c = false) →
  span f (a +:+ rest) = (a, rest).
Proof.
  intros Ha Hrest. induction a as [|c a IH].
  - rewrite append_nil_l. destruct Hrest as [->|(c & r & -> & Hc)]; [done|]. cbn. by rewrite Hc.
  - cbn in Ha. apply andb_true_iff in Ha as [Hc Ha]. rewrite append_cons. cbn.
    by rewrite Hc, (IH Ha).
Qed.

Lemma many1_stop (f : ascii → bool) (a rest : string) :
  a ≠ "" → all_chars f a = true →
  (rest = "" ∨ ∃ c r, rest = String c r ∧ f c = false) →
  many1 f (a +:+ rest) = Some a.
Proof.
  intros Hne Ha Hrest. unfold many1, many. rewrite (span_stop f a rest Ha Hrest).
  by destruct a.
Qed.

Lemma stops_at_ascii (f : ascii → bool) (rest : string) :
  (rest = "" ∨ ∃ c r, rest = String c r ∧ f c = false ∧ is_ascii c = true) →
  rest = "" ∨ ∃ c r, rest = String c r ∧ f c = false.
Proof. intros [->|(c & r & -> & Hc & _)]; [by left|right; eauto]. Qed.

(** X3.  In a message of ASCII characters, of which [str.strip] removes
    what [strip] removes, the identifier of a video is what follows
    [video/] up to the next slash, backslash or space, or up to the end of
    the message: a query that comes right after the identifier belongs to
    it. *)
Theorem video_id_runs_to_separator (cfg : config) (w : world) (ev : chat_event)
    (id rest : string) (fs : fsys) :
  let url := "https://www.bilibili.com/video/" +:+ id +:+ rest in
  id ≠ "" →
  all_chars is_id_char id = true →
  (rest = "" ∨ ∃ c r, rest = String c r ∧ is_id_char c = false) →
  all_chars is_ascii (id +:+ rest) = true →
  strip url = url →
  all_chars not_backslash url = true →
  contains "b23.tv" url || contains "bili2233.cn" url || contains "QQ小程序" url = false →
  (contains "t.bilibili.com" url || contains "/opus" url) && truthy (BILI_SESSDATA cfg) = false →
  contains "live" url = false →
  contains "read" url = false →
  contains "favlist" url && truthy (BILI_SESSDATA cfg) = false →
  re_search video_rex url = Some id
  ∧ handle_bilibili cfg w ev url fs = video_branch cfg w ev url id fs.
Proof.
  intros url Hne Hid Hrest _ Hstrip Hbs Hshort Hdyn Hlive Hread Hfav.
  assert (R : re_search video_rex url = Some id).
  { subst url. str_simpl. cbn -[many1]. by rewrite many1_stop. }
  split; [exact R|].
  unfold handle_bilibili. cbv zeta. rewrite Hstrip.
  assert (bv_expand url = false) as -> by (subst url; str_simpl; reflexivity).
  rewrite Hshort, (url_reg_needs_backslash url Hbs), bind_ret_l.
  by rewrite Hdyn, Hlive, Hread, Hfav, R.
Qed.

Lemma video_id_with_query :
  handle_bilibili default_config calm_world sample_event
    "https://www.bilibili.com/video/BV1xx411c7mD?p=2" ∅
  = video_branch default_config calm_world sample_event
      "https://www.bilibili.com/video/BV1xx411c7mD?p=2" "BV1xx411c7mD?p=2" ∅.
Proof.
  exact (proj2 (video_id_runs_to_separator default_config calm_world sample_event
           "BV1xx411c7mD?p=2" "" ∅ ltac:(discriminate) eq_refl (or_introl eq_refl)
           eq_refl eq_refl eq_refl eq_refl eq_refl eq_refl eq_refl eq_refl)).
Defined.

(** ** What the handler does not depend on *)

Lemma bind_ext {S A B} (m m' : prog S A) (f g : A → prog S B) (s : S) :
  m s = m' s → (∀ a s', f a s' = g a s') → bind m f s = bind m' g s.
Proof.
  intros Hm Hf. unfold bind. rewrite Hm.
  destruct (m' s) as [[a|e] s1 ev1]; [|done]. by rewrite Hf.
Qed.

Lemma try_except_ext {S A} (b b' : prog S A) (h h' : exn → prog S A) (s : S) :
  b s = b' s → (∀ e s', h e s' = h' e s') → try_except b h s = try_except b' h' s.
Proof.
  intros Hb Hh. unfold try_except. rewrite Hb.
  destruct (b' s) as [[a|e] s1 ev1]; [done|]. by rewrite Hh.
Qed.

Lemma try_finally_ext {S A} (b b' : prog S A) (f f' : prog S unit) (s : S) :
  b s = b' s → (∀ s', f s' = f' s') → try_finally b f s = try_finally b' f' s.
Proof.
  intros Hb Hf. unfold try_finally. rewrite Hb.
  destruct (b' s) as [r s1 ev1]. by rewrite Hf.
Qed.

Lemma comments_loop_same (w : world) (dynamic favlist : string → prog fsys unit)
    (ai_summary : string → result (option string))
    (aid max_comments : Z) (fuel : nat) (page : Z) (cs : comments_state) :
  comments_loop (with_session_apis w dynamic favlist ai_summary) aid max_comments fuel page cs
  = comments_loop w aid max_comments fuel page cs.
Proof.
  revert page cs. induction fuel as [|fuel IH]; intros page cs; [reflexivity|].
  cbn [comments_loop]. apply bind_ext; [done|]. intros cs0 s0.
  destruct (cs0.2 <? max_comments); [|done].
  apply bind_ext; [done|]. intros res s1.
  destruct (cr_replies res) as [| |[|r rs]]; try done.
  apply bind_ext; [done|]. intros _ s2.
  apply bind_ext; [done|]. intros pg s3.
  destruct (pi_count pg <=? pi_num pg * pi_size pg); [done|]. apply IH.
Qed.

Lemma get_comments_list_async_same (w : world) (dynamic favlist : string → prog fsys unit)
    (ai_summary : string → result (option string)) (aid max_comments : Z) (fs : fsys) :
  get_comments_list_async (with_session_apis w dynamic favlist ai_summary) aid max_comments fs
  = get_comments_list_async w aid max_comments fs.
Proof.
  unfold get_comments_list_async. apply bind_ext; [|done].
  unfold with_local, comments_fetch, comments_fetch_from.
  erewrite try_except_ext; [reflexivity|apply comments_loop_same|done].
Qed.

Lemma export_block_same (w : world) (dynamic favlist : string → prog fsys unit)
    (ai_summary : string → result (option string))
    (ev : chat_event) (video_id : string) (aid : Z) (fs : fsys) :
  export_block (with_session_apis w dynamic favlist ai_summary) ev video_id aid fs
  = export_block w ev video_id aid fs.
Proof.
  unfold export_block. apply try_except_ext; [|done].
  apply bind_ext; [done|]. intros _ s1.
  apply bind_ext; [|done].
  unfold create_danmaku_comment_csv_async.
  apply bind_ext; [done|]. intros ds s2.
  apply bind_ext; [apply get_comments_list_async_same|done].
Qed.

Lemma video_branch_same (w : world) (dynamic favlist : string → prog fsys unit)
    (ai_summary : string → result (option string))
    (cfg : config) (ev : chat_event) (url video_id : string) (fs : fsys) :
  BILI_SESSDATA cfg = "" →
  video_branch cfg (with_session_apis w dynamic favlist ai_summary) ev url video_id fs
  = video_branch cfg w ev url video_id fs.
Proof.
  intros Hs. unfold video_branch.
  apply bind_ext; [done|]. intros [vi|] s1; [|done].
  apply bind_ext; [done|]. intros pn s2.
  apply bind_ext; [done|]. intros d s3.
  apply bind_ext; [done|]. intros on s4.
  apply bind_ext; [done|]. intros _ s5.
  apply bind_ext; [apply export_block_same|]. intros _ s6.
  unfold ai_block. by rewrite Hs.
Qed.

(** X4.  Without session data the handler never enters the dynamic branch
    or the favourites branch and never asks for a summary: what it does is
    the same whatever stands behind these three. *)
Theorem no_session_no_session_apis (cfg : config) (w : world) (ev : chat_event)
    (message : string) (fs : fsys) (dynamic favlist : string → prog fsys unit)
    (ai_summary : string → result (option string)) :
  BILI_SESSDATA cfg = "" →
  handle_bilibili cfg (with_session_apis w dynamic favlist ai_summary) ev message fs
  = handle_bilibili cfg w ev message fs.
Proof.
  intros Hs. unfold handle_bilibili. cbv zeta. rewrite Hs.
  change (truthy "") with false.
  apply bind_ext; [done|]. intros url s1. rewrite !andb_false_r.
  repeat match goal with |- context [if ?b then _ else _] => destruct b; [done|] end.
  destruct (re_search video_rex url); [|done].
  by apply video_branch_same.
Qed.

Lemma no_session_sample :
  handle_bilibili default_config
    (with_session_apis calm_world (λ _, raise ConnectError) (λ _, raise ConnectError)
       (λ _, Raise ConnectError))
    sample_event "https://t.bilibili.com/123456" ∅
  = handle_bilibili default_config calm_world sample_event "https://t.bilibili.com/123456" ∅.
Proof. exact (no_session_no_session_apis default_config calm_world sample_event _ ∅ _ _ _ eq_refl). Defined.

(** ** Short links and the address pattern *)

Lemma all_chars_remove_char (f : ascii → bool) (c : ascii) (s : string) :
  all_chars f s = true → all_chars f (remove_char c s) = true.
Proof.
  induction s as [|a s IH]; [done|]. cbn. intros [Ha Hs]%andb_true_iff.
  destruct (Ascii.eqb a c); [auto|]. cbn. by rewrite Ha, IH.
Qed.

Lemma b_short_rex_needs_colon (s : string) :
  all_chars not_colon s = true → re_search b_short_rex s = None.
Proof.
  apply re_search_outside. intros t Ht. unfold b_short_rex.
  by rewrite !(strip_prefix_outside not_colon _ t) by done.
Qed.

Lemma alnum_or_lf_chars (c : ascii) :
  is_alnum_no0 c = true → (λ c, is_alnum c || Ascii.eqb c lf) c = true.
Proof. ascii_cases c. Qed.

(** A text that is expanded holds only letters, digits and a final line
    feed. *)
Lemma bv_expand_chars (url : string) :
  bv_expand url = true → all_chars (λ c, is_alnum c || Ascii.eqb c lf) url = true.
Proof.
  unfold bv_expand.
  destruct url as [|c1 [|c2 t]]; cbn [lit app match_atoms atom_ok]; try done.
  { by destruct (Ascii.eqb "B" c1). }
  destruct (Ascii.eqb "B" c1) eqn:E1; [|done]. destruct (Ascii.eqb "V" c2) eqn:E2; [|done].
  apply Ascii.eqb_eq in E1 as <-. apply Ascii.eqb_eq in E2 as <-.
  destruct (match_atoms _ t) as [rest|] eqn:E; [|done].
  apply match_atoms_classes_inv in E as (pre & -> & Hpre & _).
  intros Hend. cbn. rewrite all_chars_app.
  rewrite (all_chars_impl _ _ _ alnum_or_lf_chars Hpre).
  unfold at_end in Hend. apply orb_true_iff in Hend as [->%String.eqb_eq| ->%String.eqb_eq]; reflexivity.
Qed.


Lemma prefix_split (p s : string) : String.prefix p s = true → ∃ r, s = p +:+ r.
Proof.
  revert s. induction p as [|a p IH]; intros s; [by exists s|].
  destruct s as [|b s]; cbn; [done|].
  destruct (ascii_dec a b) as [->|]; [|done].
  intros (r & ->)%IH. by exists r.
Qed.

Lemma re_search_contains {A} (m : string → option A) (p s : string) :
  (∀ r, is_match (m (p +:+ r)) = true) →
  contains p s = true → is_match (re_search m s) = true.
Proof.
  intros Hm. induction s as [|c s IH]; cbn [contains re_search].
  - rewrite orb_false_r. intros (r & E)%prefix_split. specialize (Hm r). rewrite <- E in Hm.
    by destruct (m "").
  - rewrite orb_true_iff. intros [(r & E)%prefix_split|Hc].
    + specialize (Hm r). rewrite <- E in Hm. by destruct (m (String c s)).
    + destruct (m (String c s)); [done|auto].
Qed.

(** X5.  A message that names a short-link host but holds no colon, and so
    no http:// or https:// in front of the host, makes the handler raise:
    the pattern of short links finds nothing and the missing match is
    subscripted.  Nothing is sent and no file is touched. *)
Theorem short_link_without_scheme_raises (cfg : config) (w : world) (ev : chat_event)
    (message : string) (fs : fsys) :
  let url := strip message in
  contains "b23.tv" url || contains "bili2233.cn" url = true →
  all_chars not_colon url = true →
  bili_matcher url = true
  ∧ handle_bilibili cfg w ev message fs = Outcome (Raise NoneType_subscript) fs [].
Proof.
  intros url Hhost Hcolon. split.
  - unfold bili_matcher. apply orb_true_iff in Hhost as [H|H].
    + rewrite (re_search_contains (match_atoms (lit "b23" ++ [Dot] ++ lit "tv")) "b23.tv" url);
        [by rewrite ?orb_true_r|intros r; by str_simpl|exact H].
    + rewrite (re_search_contains (match_atoms (lit "bili2233" ++ [Dot] ++ lit "cn"))
                 "bili2233.cn" url);
        [by rewrite ?orb_true_r|intros r; by str_simpl|exact H].
  - unfold handle_bilibili. cbv zeta. fold url.
    destruct (bv_expand url) eqn:Hexp.
    { apply bv_expand_chars in Hexp.
      rewrite (contains_outside (λ c, is_alnum c || Ascii.eqb c lf) "b23.tv" url eq_refl Hexp),
        (contains_outside (λ c, is_alnum c || Ascii.eqb c lf) "bili2233.cn" url eq_refl Hexp)
        in Hhost.
      discriminate. }
    assert (contains "b23.tv" url || contains "bili2233.cn" url || contains "QQ小程序" url = true)
      as -> by (by rewrite Hhost).
    rewrite b_short_rex_needs_colon by (by apply all_chars_remove_char).
    reflexivity.
Qed.

Lemma short_link_without_scheme_sample :
  handle_bilibili default_config calm_world sample_event "看这个 b23.tv/abc123" ∅
  = Outcome (Raise NoneType_subscript) ∅ [].
Proof.
  exact (proj2 (short_link_without_scheme_raises default_config calm_world sample_event
                  "看这个 b23.tv/abc123" ∅ eq_refl eq_refl)).
Defined.


Lemma length_string_app (a b : string) :
  String.length (a +:+ b) = (String.length a + String.length b)%nat.
Proof. induction a as [|c a IH]; [done|]. rewrite append_cons. cbn. by rewrite IH. Qed.

Lemma substring_0_app (a b : string) :
  String.substring 0 (String.length a) (a +:+ b) = a.
Proof.
  induction a as [|c a IH]; [by destruct b|]. rewrite append_cons. cbn. by rewrite IH.
Qed.

(** X6.  The pattern that cuts a Bilibili URL out of the message asks for a
    backslash between the colon and the two slashes.  In a message that
    holds no backslash it finds nothing, so the handler goes on with the
    whole message; it does find a URL written with [:\//], and cuts it at
    the end of the message or at the first character that cannot stand in
    a URL, when that is an ASCII character. *)
Theorem url_reg_asks_for_backslash (s path rest : string) :
  (all_chars not_backslash s = true → re_search url_reg s = None)
  ∧ (all_chars is_url_char path = true →
     (rest = "" ∨ ∃ c r, rest = String c r ∧ is_url_char c = false ∧ is_ascii c = true) →
     re_search url_reg ("https:\//www.bilibili.com/" +:+ path +:+ rest)
     = Some ("https:\//www.bilibili.com/" +:+ path)).
Proof.
  split; [apply url_reg_needs_backslash|].
  intros Hpath Hrest%stops_at_ascii.
  set (P := "https:\//www.bilibili.com/").
  assert (E : url_reg (P +:+ path +:+ rest)
              = Some (String.substring 0
                        (String.length (P +:+ path +:+ rest) - String.length (path +:+ rest)
                         + String.length (many is_url_char (path +:+ rest)))
                        (P +:+ path +:+ rest))).
  { subst P. unfold url_reg. str_simpl. reflexivity. }
  unfold many in E. rewrite (span_stop is_url_char path rest Hpath Hrest) in E. cbn [fst] in E.
  replace (String.length (P +:+ path +:+ rest) - String.length (path +:+ rest)
           + String.length path)%nat
    with (String.length (P +:+ path)) in E
    by (rewrite !length_string_app; lia).
  rewrite <- append_assoc, substring_0_app in E.
  subst P. rewrite append_assoc in E.
  revert E. str_simpl. intros E. cbn [re_search]. rewrite E. reflexivity.
Qed.

(** ** The files a program touches *)

Lemma ot_ret {A} ps (a : A) : only_touches ps (ret a).
Proof. by intros s k _. Qed.
Lemma ot_raise {A} ps e : only_touches (A := A) ps (raise e).
Proof. by intros s k _. Qed.
Lemma ot_emit ps e : only_touches ps (emit e).
Proof. by intros s k _. Qed.
Lemma ot_get ps : only_touches ps get.
Proof. by intros s k _. Qed.
Lemma ot_lift_io ps o : only_touches ps (lift_io o).
Proof. by destruct o; intros s k _. Qed.
Lemma ot_lift_result {A} ps (r : result A) : only_touches ps (lift_result r).
Proof. by destruct r; intros s k _. Qed.

Lemma ot_bind {A B} ps (m : prog fsys A) (f : A → prog fsys B) :
  only_touches ps m → (∀ a, only_touches ps (f a)) → only_touches ps (bind m f).
Proof.
  intros Hm Hf s k Hk. specialize (Hm s k Hk). unfold bind.
  destruct (m s) as [[a|e] s1 ev1]; cbn in *; [|done].
  specialize (Hf a s1 k Hk). destruct (f a s1) as [r s2 ev2]. cbn in *. congruence.
Qed.

Lemma ot_try_except {A} ps (b : prog fsys A) (h : exn → prog fsys A) :
  only_touches ps b → (∀ e, only_touches ps (h e)) → only_touches ps (try_except b h).
Proof.
  intros Hb Hh s k Hk. specialize (Hb s k Hk). unfold try_except.
  destruct (b s) as [[a|e] s1 ev1]; cbn in *; [done|].
  specialize (Hh e s1 k Hk). destruct (h e s1) as [r s2 ev2]. cbn in *. congruence.
Qed.

Lemma ot_try_finally {A} ps (b : prog fsys A) (f : prog fsys unit) :
  only_touches ps b → only_touches ps f → only_touches ps (try_finally b f).
Proof.
  intros Hb Hf s k Hk. specialize (Hb s k Hk). unfold try_finally.
  destruct (b s) as [r s1 ev1]; cbn in *.
  specialize (Hf s1 k Hk). destruct (f s1) as [[[]|e] s2 ev2]; cbn in *; congruence.
Qed.

Lemma ot_attempt {A} ps (m : prog fsys A) : only_touches ps m → only_touches ps (attempt m).
Proof.
  intros Hm s k Hk. specialize (Hm s k Hk). unfold attempt. by destruct (m s).
Qed.

Lemma ot_for_each {A} ps (l : list A) (body : A → prog fsys unit) :
  (∀ x, only_touches ps (body x)) → only_touches ps (for_each l body).
Proof.
  intros Hb. induction l as [|x l IH]; [apply ot_ret|]. cbn. apply ot_bind; [apply Hb|done].
Qed.

Lemma ot_with_local {L A} ps (init : L) (m : prog L A) :
  only_touches ps (with_local (S := fsys) init m).
Proof. intros s k _. unfold with_local. by destruct (m init). Qed.

Lemma ot_write_file ps (p : string) (n : N) : p ∈ ps → only_touches ps (write_file p n).
Proof.
  intros Hp s k Hk. unfold write_file. py_unfold. cbn.
  apply lookup_insert_ne. intros ->. done.
Qed.

Lemma ot_remove_if_exists ps (p : string) : p ∈ ps → only_touches ps (remove_if_exists p).
Proof.
  intros Hp s k Hk. rewrite remove_if_exists_run. cbn.
  apply lookup_delete_ne. intros ->. done.
Qed.

Lemma ot_os_remove ps (p : string) : p ∈ ps → only_touches ps (os_remove p).
Proof.
  intros Hp s k Hk. unfold os_remove. py_unfold. destruct (s !! p); cbn; [|done].
  apply lookup_delete_ne. intros ->. done.
Qed.

Lemma ot_write_with ps (o : write_outcome) (p : string) :
  p ∈ ps → only_touches ps (write_with o p).
Proof.
  intros Hp. destruct o as [n|[n|] e]; cbn.
  - by apply ot_write_file.
  - apply ot_bind; [by apply ot_write_file|]. intros _. apply ot_raise.
  - apply ot_raise.
Qed.

Ltac in_paths :=
  solve [repeat first [apply list_elem_of_here | apply list_elem_of_further]; assumption].

Ltac ot_step :=
  first
    [ apply ot_ret | apply ot_raise | apply ot_emit | apply ot_get
    | apply ot_lift_io | apply ot_lift_result | apply ot_with_local
    | apply ot_write_file; in_paths
    | apply ot_write_with; in_paths
    | apply ot_remove_if_exists; in_paths
    | apply ot_os_remove; in_paths
    | apply ot_bind; [|intros ?]
    | apply ot_try_except; [|intros ?]
    | apply ot_try_finally
    | apply ot_attempt
    | apply ot_for_each; intros ?
    | match goal with
      | |- only_touches _ (match ?x with _ => _ end) => destruct x
      | |- only_touches _ (if ?b then _ else _) => destruct b
      end ].

Lemma ot_adapter_send_text ps (w : world) (to : target) (s : string) :
  only_touches ps (adapter_send w to [SegText s]).
Proof. unfold adapter_send, thumbnails. cbn [for_each]. repeat ot_step. Qed.

Lemma ot_adapter_upload ps (w : world) (to : target) (f n : string) :
  only_touches ps (adapter_upload w to f n).
Proof. unfold adapter_upload. repeat ot_step. Qed.

Lemma ot_upload_both ps (w : world) (ev : chat_event) (f n : string) :
  only_touches ps (upload_both w ev f n).
Proof. unfold upload_both. destruct ev; first [apply ot_adapter_upload|apply ot_ret]. Qed.

Lemma strip_prefix_app (p s : string) : strip_prefix p (p +:+ s) = Some s.
Proof. induction p as [|c p IH]; [done|]. rewrite append_cons. cbn. by rewrite Ascii.eqb_refl. Qed.

Lemma ot_send_both_video ps (w : world) (ev : chat_event) (p : string) :
  p +:+ ".jpg" ∈ ps → only_touches ps (send_both w ev (SegVideo ("file://" +:+ p))).
Proof.
  intros Hp. unfold send_both, adapter_send, thumbnails. cbn [for_each].
  rewrite strip_prefix_app. destruct ev; repeat ot_step.
Qed.

Lemma ot_get_file_size_mb ps (o : option string) : only_touches ps (get_file_size_mb o).
Proof. unfold get_file_size_mb, os_path_getsize. repeat ot_step. Qed.

Lemma ot_unlink_artifacts ps (p : string) :
  p ∈ ps → p +:+ ".jpg" ∈ ps → only_touches ps (unlink_artifacts (Some p)).
Proof. intros H1 H2. unfold unlink_artifacts. cbn [str_of_path]. repeat ot_step. Qed.

(** The [finally] block of [auto_video_send] on a path that is not empty. *)
Lemma unlink_artifacts_state (p : string) (s : fsys) :
  p ≠ "" →
  unlink_artifacts (Some p) s
  = Outcome (Ok tt) (delete (p +:+ ".jpg") (delete p s))
      ((if bool_decide (is_Some (s !! p)) then [EvRemove p] else [])
       ++ (if bool_decide (is_Some (delete p s !! (p +:+ ".jpg")))
           then [EvRemove (p +:+ ".jpg")] else [])).
Proof.
  intros Hp. unfold unlink_artifacts. cbn [for_each str_of_path].
  assert (truthy p = true) as -> by (by destruct p).
  assert (truthy (p +:+ ".jpg") = true) as -> by (by apply truthy_append).
  rewrite (bind_run _ _ _ _ _ _ (remove_if_exists_run p s)).
  rewrite (bind_run _ _ _ _ _ _ (remove_if_exists_run (p +:+ ".jpg") _)). cbn.
  by rewrite app_nil_r.
Qed.

Lemma delete_two_agree (a b : string) (s s' : fsys) :
  (∀ k, k ∉ [a; b] → s' !! k = s !! k) →
  delete b (delete a s') = delete b (delete a s).
Proof.
  intros H. apply map_eq. intros k.
  destruct (decide (k = b)) as [->|Hb]; [by rewrite !lookup_delete_eq|].
  rewrite !(lookup_delete_ne _ b k) by done.
  destruct (decide (k = a)) as [->|Ha]; [by rewrite !lookup_delete_eq|].
  rewrite !(lookup_delete_ne _ a k) by done.
  apply H. rewrite !not_elem_of_cons. split_and!; [done|done|apply not_elem_of_nil].
Qed.

Lemma truthy_os_path_join (a b : string) : b ≠ "" → os_path_join a b ≠ "".
Proof.
  intros Hb. unfold os_path_join. destruct (startswith "/" b); [done|].
  destruct a as [|c a]; [done|].
  destruct (String.eqb _ _); by rewrite append_cons.
Qed.

(** The state [auto_video_send] ends in when it has a local file to work
    on: the one it was given, or the one it has fetched. *)
Lemma auto_video_send_state (w : world) (ev : chat_event) (p : string) (fs : fsys) :
  p ≠ "" →
  startswith "http" p = false ∨ is_written (w_fetch w p) = true →
  let q := if startswith "http" p then os_path_join (w_cwd w) (w_clock w +:+ ".mp4") else p in
  st (auto_video_send w ev (Some p) fs) = delete (q +:+ ".jpg") (delete q fs).
Proof.
  intros Hp Hcase q.
  assert (Hq : q ≠ "").
  { subst q. destruct (startswith "http" p); [|done]. apply truthy_os_path_join.
    destruct (w_clock w); [done|by rewrite append_cons]. }
  assert (Hbody : ∀ r : result (option string), only_touches [q; q +:+ ".jpg"]
            (try_except
               (lift_result r ;;;
                file_size_in_mb <- get_file_size_mb (Some q) ;;
                if exceeds_max_mb file_size_in_mb then
                  adapter_send w Origin [SegText (oversize_notice file_size_in_mb)] ;;;
                  upload_both w ev q (os_path_basename q)
                else
                  send_both w ev (SegVideo ("file://" +:+ q)))
               (fun e => emit (EvLog ("解析发送出现错误，具体为" +:+ nl +:+ exn_msg e))))).
  { intros r. apply ot_try_except; [|intros e; apply ot_emit].
    apply ot_bind; [apply ot_lift_result|]. intros _.
    apply ot_bind; [apply ot_get_file_size_mb|]. intros size.
    destruct (exceeds_max_mb size).
    - apply ot_bind; [apply ot_adapter_send_text|]. intros _. apply ot_upload_both.
    - apply ot_send_both_video. in_paths. }
  unfold auto_video_send. subst q.
  destruct (startswith "http" p) eqn:Hhttp.
  - destruct Hcase as [?|Hw]; [done|].
    destruct (w_fetch w p) as [n|] eqn:Hf; [|done].
    set (q := os_path_join (w_cwd w) (w_clock w +:+ ".mp4")) in *.
    assert (Hfetch : attempt (p' <- download_video w p;; ret (Some p')) fs
                     = Outcome (Ok (Ok (Some q))) (<[q := n]> fs)
                         [EvFetchStart p; EvCreate q; EvFetchEnd true]).
    { unfold download_video. rewrite Hf. reflexivity. }
    rewrite (bind_run _ _ _ _ _ _ Hfetch). cbn beta iota. cbn [str_of_path].
    specialize (Hbody (Ok (Some q)) (<[q := n]> fs)).
    unfold try_finally at 1.
    destruct (try_except _ _ (<[q := n]> fs)) as [r s1 ev1]. cbn [st] in Hbody.
    rewrite (unlink_artifacts_state q s1 Hq). cbn [st].
    apply delete_two_agree. intros k Hk. rewrite Hbody by done.
    apply lookup_insert_ne. intros <-. apply Hk. in_paths.
  - assert (Hfetch : attempt (ret (S := fsys) (Some p)) fs = Outcome (Ok (Ok (Some p))) fs [])
      by reflexivity.
    rewrite (bind_run _ _ _ _ _ _ Hfetch). cbn beta iota. cbn [str_of_path].
    specialize (Hbody (Ok (Some p)) fs).
    unfold try_finally at 1.
    destruct (try_except _ _ fs) as [r s1 ev1]. cbn [st] in Hbody.
    rewrite (unlink_artifacts_state p s1 Hp). cbn [st].
    apply delete_two_agree. intros k Hk. by apply Hbody.
Qed.

(** X7.  When [auto_video_send] has a local file to work on, the one it was
    given or the one it has fetched, it returns normally and that file and
    the file of the same name with [.jpg] added are gone, whatever the
    adapter did; every other file is as it was. *)
Theorem auto_video_send_leaves_no_file (w : world) (ev : chat_event) (p : string) (fs : fsys) :
  p ≠ "" →
  startswith "http" p = false ∨ is_written (w_fetch w p) = true →
  let q := if startswith "http" p then os_path_join (w_cwd w) (w_clock w +:+ ".mp4") else p in
  let o := auto_video_send w ev (Some p) fs in
  res o = Ok tt ∧ st o = delete (q +:+ ".jpg") (delete q fs).
Proof.
  intros Hp Hcase q o. split.
  - destruct (auto_video_send_run w ev (Some p) fs) as (s' & Hr & _). exact Hr.
  - by apply auto_video_send_state.
Qed.

Lemma auto_video_send_remote_sample :
  let o := auto_video_send calm_world sample_event (Some "http://cdn.example/v.mp4")
             {["/bot/keep.txt" := 3%N]} in
  res o = Ok tt
  ∧ st o = delete "/bot/1700000000.5.mp4.jpg" (delete "/bot/1700000000.5.mp4"
             {["/bot/keep.txt" := 3%N]}).
Proof.
  exact (auto_video_send_leaves_no_file calm_world sample_event "http://cdn.example/v.mp4"
           {["/bot/keep.txt" := 3%N]} ltac:(discriminate) (or_intror eq_refl)).
Defined.

(** ** Delivery at its edges *)

Lemma unlink_artifacts_missing (p : string) (s : fsys) :
  s !! p = None →
  unlink_artifacts (Some p) s
  = Outcome (Ok tt) (delete (p +:+ ".jpg") s)
      (if bool_decide (is_Some (s !! (p +:+ ".jpg"))) then [EvRemove (p +:+ ".jpg")] else []).
Proof.
  intros Hp. unfold unlink_artifacts. cbn [for_each str_of_path].
  assert (truthy (p +:+ ".jpg") = true) as -> by (by apply truthy_append).
  assert (E : (if truthy p then remove_if_exists p else ret tt) s = Outcome (Ok tt) s []).
  { destruct (truthy p); [|done]. rewrite remove_if_exists_run, delete_id by done.
    rewrite bool_decide_eq_false_2; [done|]. rewrite Hp. by intros [? ?]. }
  rewrite (bind_run _ _ _ _ _ _ E). cbn beta iota.
  rewrite (bind_run _ _ _ _ _ _ (remove_if_exists_run (p +:+ ".jpg") _)). cbn.
  by rewrite app_nil_r.
Qed.

(** X8.  [auto_video_send] on a local path at which there is no file: the
    error of the size query is caught and logged, nothing is handed to the
    adapter, and the function returns normally.  The cleanup still removes
    a file of the same name with [.jpg] added if there is one. *)
Theorem auto_video_send_missing_file (w : world) (ev : chat_event) (p : string) (fs : fsys) :
  fs !! p = None →
  startswith "http" p = false →
  auto_video_send w ev (Some p) fs
  = Outcome (Ok tt) (delete (p +:+ ".jpg") fs)
      (EvLog ("解析发送出现错误，具体为" +:+ nl
              +:+ "[Errno 2] No such file or directory: '" +:+ p +:+ "'")
       :: if bool_decide (is_Some (fs !! (p +:+ ".jpg")))
          then [EvRemove (p +:+ ".jpg")] else []).
Proof.
  intros Hp Hhttp. unfold auto_video_send. rewrite Hhttp.
  assert (Hfetch : attempt (ret (S := fsys) (Some p)) fs = Outcome (Ok (Ok (Some p))) fs [])
    by reflexivity.
  rewrite (bind_run _ _ _ _ _ _ Hfetch). cbn beta iota.
  erewrite try_finally_run; [| |apply (unlink_artifacts_missing p fs Hp)].
  2:{ assert (Hsize : get_file_size_mb (Some p) fs
                      = Outcome (Raise (FileNotFoundError p)) fs []).
      { unfold get_file_size_mb, os_path_getsize. py_unfold. by rewrite Hp. }
      unfold try_except. cbn [lift_result str_of_path]. rewrite bind_ret_l.
      rewrite (bind_run _ _ _ _ _ _ Hsize). reflexivity. }
  reflexivity.
Qed.

Lemma auto_video_send_missing_sample :
  auto_video_send calm_world sample_event (Some "/bot/gone.mp4") {["/bot/gone.mp4.jpg" := 7%N]}
  = Outcome (Ok tt) (delete "/bot/gone.mp4.jpg" {["/bot/gone.mp4.jpg" := 7%N]})
      [EvLog ("解析发送出现错误，具体为" +:+ nl
              +:+ "[Errno 2] No such file or directory: '/bot/gone.mp4'");
       EvRemove "/bot/gone.mp4.jpg"].
Proof.
  exact (auto_video_send_missing_file calm_world sample_event "/bot/gone.mp4"
           {["/bot/gone.mp4.jpg" := 7%N]} eq_refl eq_refl).
Defined.

(** X9.  For an event that is neither a group message nor a private message
    [send_both] and [upload_both] do nothing, so [auto_video_send] never
    hands the video to the adapter: a file under the size limit is removed
    without anything having been sent. *)
Theorem other_event_is_never_served (w : world) (p : string) (n : N) (fs : fsys) :
  fs !! p = Some n →
  startswith "http" p = false →
  p ≠ "" →
  let o := auto_video_send w OtherEvent (Some p) fs in
  (∀ t f name s, send_both w OtherEvent t s = Outcome (Ok tt) s []
                 ∧ upload_both w OtherEvent f name s = Outcome (Ok tt) s [])
  ∧ existsb hands_over_video (emitted o) = false
  ∧ In (EvRemove p) (emitted o)
  ∧ ((n < 104862843)%N →
     emitted o = EvRemove p :: if bool_decide (is_Some (fs !! (p +:+ ".jpg")))
                               then [EvRemove (p +:+ ".jpg")] else []).
Proof.
  intros Hp Hhttp Hne o. split; [done|]. subst o.
  rewrite (auto_video_send_local _ _ _ _ _ Hp Hhttp). unfold deliver_local.
  assert (Hjpg : delete p fs !! (p +:+ ".jpg") = fs !! (p +:+ ".jpg")).
  { apply lookup_delete_ne. intros E. apply (f_equal String.length) in E.
    revert E. clear. induction p as [|c p IH]; cbn; [done|]. rewrite append_cons. cbn. lia. }
  destruct (exceeds_max_mb (py_round2 (bytes_to_mb n))) eqn:Hex.
  - assert (Hn : ¬ (n < 104862843)%N) by (apply upload_threshold in Hex; lia).
    set (notice := oversize_notice _).
    assert (Hbody : ∃ log,
              try_except
                (adapter_send w Origin [SegText notice];;;
                 upload_both w OtherEvent p (os_path_basename p))
                (λ e, emit (EvLog ("解析发送出现错误，具体为" +:+ nl +:+ exn_msg e))) fs
              = Outcome (Ok tt) fs (EvSend [SegText notice] :: log)
              ∧ forallb is_log log = true).
    { unfold try_except, adapter_send, thumbnails, upload_both. cbn [for_each]. py_unfold.
      destruct (w_send w Origin [SegText notice]); cbn; by eexists. }
    destruct Hbody as (log & Hbody & Hlog).
    rewrite (try_finally_run _ _ _ _ _ _ _ _ Hbody (unlink_artifacts_state p fs Hne)).
    rewrite Hp, Hjpg. cbn [emitted]. rewrite bool_decide_eq_true_2 by done.
    split_and!; [| |done].
    + cbn. rewrite existsb_app.
      assert (existsb hands_over_video log = false) as ->.
      { clear -Hlog. induction log as [|[] log IH]; cbn in *; try done. auto. }
      by case_bool_decide.
    + right. apply in_or_app. right. by left.
  - assert (Hbody :
              try_except
                (send_both w OtherEvent (SegVideo ("file://" +:+ p)))
                (λ e, emit (EvLog ("解析发送出现错误，具体为" +:+ nl +:+ exn_msg e))) fs
              = Outcome (Ok tt) fs []) by reflexivity.
    rewrite (try_finally_run _ _ _ _ _ _ _ _ Hbody (unlink_artifacts_state p fs Hne)).
    rewrite Hp, Hjpg. cbn [emitted]. rewrite bool_decide_eq_true_2 by done.
    split_and!; [by case_bool_decide|by left|done].
Qed.

Lemma other_event_sample :
  emitted (auto_video_send calm_world OtherEvent (Some "/bot/a.mp4") {["/bot/a.mp4" := 5%N]})
  = [EvRemove "/bot/a.mp4"].
Proof.
  exact (proj2 (proj2 (proj2 (other_event_is_never_served calm_world "/bot/a.mp4" 5
           {["/bot/a.mp4" := 5%N]} eq_refl eq_refl ltac:(discriminate)))) eq_refl).
Defined.


(** ** The reported size *)

Lemma round_half_even_mono (a a' : Z) (b : positive) :
  a <= a' → round_half_even (a # b) <= round_half_even (a' # b).
Proof.
  intros Hle. destruct (Z.eq_dec a a') as [->|Hne]; [lia|].
  pose proof (round_half_even_near a b). pose proof (round_half_even_near a' b). nia.
Qed.

Lemma centi_mono (n m : N) : (n ≤ m)%N → centi n <= centi m.
Proof.
  intros Hle. unfold centi, bytes_to_mb.
  change (inject_Z (Z.of_N n) / inject_Z (1024 * 1024) * 100)%Q
    with (Z.of_N n * 1 * 100 # 1048576).
  change (inject_Z (Z.of_N m) / inject_Z (1024 * 1024) * 100)%Q
    with (Z.of_N m * 1 * 100 # 1048576).
  apply round_half_even_mono. lia.
Qed.

(** X10.  The size [get_file_size_mb] reports never goes down when the
    file grows, and a file of fewer than 5243 bytes is reported as 0 MB; a
    path at which there is no file makes it raise, with the file system
    left as it was. *)
Theorem get_file_size_mb_grows_with_file (p p' : string) (n m : N) (fs fs' : fsys) :
  fs !! p = Some n → fs' !! p' = Some m → (n ≤ m)%N →
  (∃ a b, get_file_size_mb (Some p) fs = Outcome (Ok a) fs []
          ∧ get_file_size_mb (Some p') fs' = Outcome (Ok b) fs' []
          ∧ (a <= b)%Q
          ∧ ((n < 5243)%N ↔ a == 0)%Q)
  ∧ (∀ q, fs !! q = None →
          get_file_size_mb (Some q) fs = Outcome (Raise (FileNotFoundError q)) fs []).
Proof.
  intros Hp Hp' Hle. split.
  - exists (py_round2 (bytes_to_mb n)), (py_round2 (bytes_to_mb m)).
    rewrite (get_file_size_mb_present _ _ _ Hp), (get_file_size_mb_present _ _ _ Hp').
    split_and!; try done.
    + destruct (py_round2_two_places n) as [-> _]. destruct (py_round2_two_places m) as [-> _].
      pose proof (centi_mono n m Hle). unfold Qle. cbn. lia.
    + destruct (py_round2_two_places n) as [-> _]. pose proof (centi_near n).
      unfold Qeq. cbn. split; [intros|intros]; lia.
  - intros q Hq. unfold get_file_size_mb, os_path_getsize. py_unfold. by rewrite Hq.
Qed.

Lemma get_file_size_mb_sample :
  ∃ a b, get_file_size_mb (Some "a") {["a" := 5242%N]} = Outcome (Ok a) {["a" := 5242%N]} []
         ∧ get_file_size_mb (Some "b") {["b" := 5243%N]} = Outcome (Ok b) {["b" := 5243%N]} []
         ∧ (a <= b)%Q ∧ ((5242 < 5243)%N ↔ a == 0)%Q.
Proof.
  exact (proj1 (get_file_size_mb_grows_with_file "a" "b" 5242 5243 {["a" := 5242%N]}
                  {["b" := 5243%N]} eq_refl eq_refl ltac:(lia))).
Defined.

(** ** The comment fetcher *)

Lemma append_reply_well_formed (r : reply) (cs : comments_state) :
  well_formed r = true →
  append_reply r cs
  = Outcome (Ok tt) (cs.1 ++ reply_lines r, cs.2 + Z.of_nat (List.length (reply_lines r))) [].
Proof.
  unfold well_formed, append_reply, reply_lines, comment_line, sub_reply_line, sub_replies.
  rewrite !andb_true_iff, !bool_decide_eq_true.
  intros [[[[[u Hu] [m Hm]] [k Hk]] Hnull] Hsubs]. rewrite Hu, Hm, Hk. cbn [subscript default].
  rewrite !bind_ret_l.
  set (line := u +:+ ":" +:+ m +:+ ",点赞：" +:+ pretty k).
  assert (Hfor : ∀ l acc n,
            forallb (λ reply, bool_decide (is_Some (sr_message reply))) l = true →
            for_each l (λ reply,
               uname <- subscript "'uname'" (Some u);;
               message <- subscript "'message'" (sr_message reply);;
               append_comment ("回复@" +:+ uname +:+ ": " +:+ message)) (acc, n)
            = Outcome (Ok tt)
                (acc ++ map (λ reply, "回复@" +:+ u +:+ ": " +:+ default "" (sr_message reply)) l,
                 n + Z.of_nat (List.length l)) []).
  { induction l as [|x l IH]; intros acc n Hl.
    - cbn. by rewrite app_nil_r, Z.add_0_r.
    - cbn in Hl. apply andb_true_iff in Hl as [[mx Hx]%bool_decide_eq_true Hl].
      cbn [for_each].
      assert (Hbody : (uname <- subscript "'uname'" (Some u);;
                       message <- subscript "'message'" (sr_message x);;
                       append_comment ("回复@" +:+ uname +:+ ": " +:+ message)) (acc, n)
                      = Outcome (Ok tt) (acc ++ ["回复@" +:+ u +:+ ": " +:+ mx], n + 1) []).
      { rewrite Hx. reflexivity. }
      rewrite (bind_run _ _ _ _ _ _ Hbody). cbn beta iota.
      rewrite IH by done. cbn [map]. rewrite Hx. cbn [default app]. f_equal.
      rewrite <- app_assoc. cbn [app]. f_equal. cbn [List.length]. lia. }
  unfold bind at 1. unfold append_comment at 1. unfold modify at 1.
  destruct cs as [acc n]. cbn [fst snd].
  destruct (r_replies r) as [| |l]; [|done|].
  - rewrite bind_ret_l. reflexivity.
  - rewrite bind_ret_l, Hfor by done. cbn [app List.length map]. f_equal.
    rewrite <- app_assoc. cbn [app]. f_equal. rewrite length_map. lia.
Qed.

Lemma for_each_append_reply (rs : list reply) (cs : comments_state) :
  forallb well_formed rs = true →
  for_each rs append_reply cs
  = Outcome (Ok tt)
      (cs.1 ++ flat_map reply_lines rs,
       cs.2 + Z.of_nat (List.length (flat_map reply_lines rs))) [].
Proof.
  revert cs. induction rs as [|r rs IH]; intros cs.
  - intros _. destruct cs. cbn. by rewrite app_nil_r, Z.add_0_r.
  - cbn [forallb]. intros [Hr Hrs]%andb_true_iff. cbn [for_each].
    rewrite (bind_run _ _ _ _ _ _ (append_reply_well_formed r cs Hr)). cbn beta iota.
    rewrite IH by done. cbn [fst snd flat_map app]. f_equal.
    rewrite <- app_assoc. f_equal. rewrite !length_app. lia.
Qed.

Lemma loop_done (w : world) (aid max_comments : Z) (fuel : nat) (page : Z) (cs : comments_state) :
  max_comments <= cs.2 →
  comments_loop w aid max_comments fuel page cs = Outcome (Ok true) cs [].
Proof.
  intros H. destruct fuel; cbn [comments_loop]; rewrite bind_get;
    by rewrite (proj2 (Z.ltb_ge _ _) H).
Qed.

(** X11.  The limit on the number of comments is looked at only before a
    page is asked for.  When the first page holds well-formed comments,
    at least [max_comments] of them, every line of that page is returned,
    the lines of each comment followed by those of its sub-replies, and no
    other page is asked for.  With a limit of zero or less nothing is asked
    for at all. *)
Theorem comment_limit_between_pages
    (w : world) (aid max_comments : Z) (rs : list reply) (pg : option page_info) (fs : fsys) :
  w_get_comments w aid 1 = Ok (CommentsRes (Items rs) pg) →
  forallb well_formed rs = true →
  is_Some pg →
  0 < max_comments <= Z.of_nat (List.length rs) →
  get_comments_list_async w aid max_comments fs
  = Outcome (Ok (flat_map reply_lines rs)) fs []
  ∧ max_comments <= Z.of_nat (List.length (flat_map reply_lines rs))
  ∧ (∀ w' limit, limit <= 0 → get_comments_list_async w' aid limit fs = Outcome (Ok []) fs []).
Proof.
  intros Hpage Hwf [pi ->] [Hpos Hmax].
  assert (Hlen : Z.of_nat (List.length rs) <= Z.of_nat (List.length (flat_map reply_lines rs))).
  { clear. induction rs as [|r rs IH]; [done|]. cbn [flat_map List.length app].
    rewrite length_app. unfold reply_lines at 1. cbn [List.length]. lia. }
  split_and!; [|lia|].
  - unfold get_comments_list_async, comments_fetch, comments_fetch_from.
    destruct (Z.to_nat max_comments) as [|fuel] eqn:Hfuel; [lia|].
    assert (Hloop : comments_loop w aid max_comments (S fuel) 1 ([], 0)
                    = Outcome (Ok true)
                        (flat_map reply_lines rs,
                         Z.of_nat (List.length (flat_map reply_lines rs))) []).
    { cbn [comments_loop]. rewrite bind_get. cbn [snd].
      rewrite (proj2 (Z.ltb_lt _ _) Hpos), Hpage. cbn [lift_result]. rewrite bind_ret_l.
      cbn [cr_replies cr_page].
      destruct rs as [|r rs']; [cbn in Hmax; lia|].
      rewrite (bind_run _ _ _ _ _ _ (for_each_append_reply (r :: rs') ([], 0) Hwf)).
      cbn beta iota. cbn [subscript fst snd app]. rewrite bind_ret_l.
      destruct (pi_count pi <=? pi_num pi * pi_size pi); [reflexivity|].
      rewrite loop_done by (cbn [snd]; lia). reflexivity. }
    unfold with_local, try_except. unfold bind at 1. rewrite Hloop. reflexivity.
  - intros w' limit Hlimit.
    unfold get_comments_list_async, comments_fetch, comments_fetch_from, with_local, try_except.
    unfold bind at 1. rewrite loop_done by (cbn [snd]; lia). reflexivity.
Qed.

Lemma comment_limit_sample :
  let r := Reply (Some "u") (Some "m") (Some 5) (Items [SubReply (Some "r")]) in
  get_comments_list_async calm_world 42 1 (∅ : fsys)
  = Outcome (Ok (flat_map reply_lines [r])) ∅ [].
Proof.
  refine (proj1 (comment_limit_between_pages calm_world 42 1
            [Reply (Some "u") (Some "m") (Some 5) (Items [SubReply (Some "r")])]
            (Some (PageInfo 1 20 1)) (∅ : fsys) _ _ _ _)).
  - reflexivity.
  - reflexivity.
  - by eexists.
  - cbn. lia.
Defined.

(** X12.  A comment whose list of sub-replies is null, a key that is there
    with no value, ends the fetch: the line of that comment is kept, the
    iteration over the null value raises, and the fetcher logs the error
    and returns what it has.  The comments after it are lost. *)
Theorem null_sub_replies_end_the_fetch
    (w : world) (aid max_comments : Z) (r : reply) (rs : list reply) (pg : option page_info)
    (fs : fsys) :
  w_get_comments w aid 1 = Ok (CommentsRes (Items (r :: rs)) pg) →
  is_Some (r_uname r) → is_Some (r_message r) → is_Some (r_like r) →
  r_replies r = Null →
  0 < max_comments →
  get_comments_list_async w aid max_comments fs
  = Outcome (Ok [comment_line r]) fs
      [EvLog "获取评论失败: 'NoneType' object is not iterable"].
Proof.
  intros Hpage [u Hu] [m Hm] [k Hk] Hnull Hpos.
  unfold get_comments_list_async, comments_fetch, comments_fetch_from.
  destruct (Z.to_nat max_comments) as [|fuel] eqn:Hfuel; [lia|].
  assert (Hreply : append_reply r ([], 0)
                   = Outcome (Raise (TypeError "'NoneType' object is not iterable"))
                       ([comment_line r], 1) []).
  { unfold append_reply, comment_line. rewrite Hu, Hm, Hk, Hnull. reflexivity. }
  assert (Hloop : comments_loop w aid max_comments (S fuel) 1 ([], 0)
                  = Outcome (Raise (TypeError "'NoneType' object is not iterable"))
                      ([comment_line r], 1) []).
  { cbn [comments_loop]. rewrite bind_get. cbn [snd].
    rewrite (proj2 (Z.ltb_lt _ _) Hpos), Hpage. cbn [lift_result]. rewrite bind_ret_l.
    cbn [cr_replies for_each].
    rewrite (bind_run _ _ _ _ _ _ (bind_run _ _ _ _ _ _ Hreply)). reflexivity. }
  unfold with_local, try_except. unfold bind at 1. rewrite Hloop. reflexivity.
Qed.

Lemma null_sub_replies_sample :
  let page := CommentsRes (Items [sample_null_reply; sample_null_reply])
                (Some (PageInfo 1 20 2)) in
  get_comments_list_async (calm_world_with (w_live calm_world) (λ _ _, Ok page)) 42 2000
    (∅ : fsys)
  = Outcome (Ok ["u:m,点赞：5"]) ∅ [EvLog "获取评论失败: 'NoneType' object is not iterable"].
Proof.
  intros page.
  refine (null_sub_replies_end_the_fetch
            (calm_world_with (w_live calm_world) (λ _ _, Ok page)) 42 2000
            sample_null_reply [sample_null_reply] (Some (PageInfo 1 20 2)) (∅ : fsys)
            _ _ _ _ _ _).
  - reflexivity.
  - by eexists.
  - by eexists.
  - by eexists.
  - reflexivity.
  - lia.
Defined.

(** ** The page parameter *)

(** X13.  The page parameter outside the page list.  A value that [int]
    does not read makes the handler raise before anything is sent.  A value
    k of zero or less gives a negative index, which counts from the end of
    the page list: the duration compared is that of the page k-1 places
    from the end, and when the list is too short for that the handler
    raises before anything is sent. *)
Theorem page_parameter_out_of_range
    (cfg : config) (w : world) (ev : chat_event) (url video_id s : string)
    (rest : list string) (vi : video_info) (fs : fsys) :
  w_get_info w video_id = Ok (Some vi) →
  w_query_params w url !! "p" = Some (s :: rest) →
  (w_int w s = None →
     video_branch cfg w ev url video_id fs
     = Outcome (Raise (invalid_literal s)) fs [])
  ∧ (∀ k pages, w_int w s = Some k → vi_pages vi = Some pages → k <= 0 →
       let n := Z.of_nat (List.length pages) in
       (- n < k →
          ∃ pg, pages !! Z.to_nat (n + k - 1) = Some pg
                ∧ select_duration vi (k - 1) = Ok (default (vi_duration vi) (page_duration pg)))
       ∧ (k <= - n →
          video_branch cfg w ev url video_id fs
          = Outcome (Raise (IndexError "list index out of range")) fs [])).
Proof.
  intros Hinfo Hq.
  assert (Hne : bool_decide (w_query_params w url = ∅) = false).
  { apply bool_decide_eq_false_2. intros He. rewrite He, lookup_empty in Hq. discriminate. }
  split.
  - intros Hint. unfold video_branch. rewrite Hinfo. cbn [lift_result]. rewrite bind_ret_l.
    unfold page_num_of. by rewrite Hne, Hq, Hint.
  - intros k pages Hint Hpages Hk n. split.
    + intros Hin. destruct (lookup_lt_is_Some_2 pages (Z.to_nat (n + k - 1)) ltac:(lia)) as [pg Hpg].
      exists pg. split; [done|]. unfold select_duration, py_index. rewrite Hpages. fold n.
      rewrite (proj2 (Z.ltb_lt (k - 1) n)) by lia.
      rewrite (proj2 (Z.leb_gt 0 (k - 1))) by lia.
      rewrite (proj2 (Z.leb_le (- n) (k - 1))) by lia.
      replace (n + (k - 1)) with (n + k - 1) by lia. by rewrite Hpg.
    + intros Hout. unfold video_branch. rewrite Hinfo. cbn [lift_result]. rewrite bind_ret_l.
      rewrite (page_num_of_p _ _ _ _ _ Hq Hint). cbn [lift_result]. rewrite bind_ret_l.
      unfold select_duration, py_index. rewrite Hpages. fold n.
      rewrite (proj2 (Z.ltb_lt (k - 1) n)) by lia.
      rewrite (proj2 (Z.leb_gt 0 (k - 1))) by lia.
      rewrite (proj2 (Z.leb_gt (- n) (k - 1))) by lia.
      reflexivity.
Qed.

Lemma page_zero_is_last_page :
  let w := sample_world paged_info (Some "0") IoOk (Written 10) (Written 1000)
                        (Written 1000) (Written 2000) in
  select_duration paged_info (0 - 1) = Ok 700.
Proof.
  intros w.
  destruct (proj1 (proj2 (page_parameter_out_of_range default_config w sample_event sample_url
              "BV1xx411c7mD" "0" [] paged_info ∅ eq_refl eq_refl)
            0 [Page (Some 100); Page None; Page (Some 700)] eq_refl eq_refl ltac:(discriminate))
            eq_refl) as (pg & Hpg & Hd).
  injection Hpg as <-. exact Hd.
Defined.

(** ** The files of the video branch *)

Lemma absolute_head (p : string) :
  startswith "/" p = true → ∃ r, p = String "/" r.
Proof.
  destruct p as [|c p]; [discriminate|]. unfold startswith. cbn [String.prefix].
  destruct (ascii_dec "/" c) as [<-|]; [|discriminate]. by exists p.
Qed.

Lemma startswith_head (c : ascii) (r : string) : startswith (String c "") (String c r) = true.
Proof.
  unfold startswith. cbn [String.prefix]. destruct (ascii_dec c c); [|done]. by destruct r.
Qed.

Lemma join_absolute (a b : string) :
  startswith "/" a = true → startswith "/" (os_path_join a b) = true.
Proof.
  intros (r & ->)%absolute_head. unfold os_path_join.
  destruct (startswith "/" b) eqn:Hb; [done|].
  destruct (String.eqb _ _); rewrite append_cons; apply startswith_head.
Qed.

Lemma absolute_not_url (p x : string) :
  startswith "/" p = true → p +:+ x ≠ "" ∧ startswith "http" (p +:+ x) = false.
Proof. intros (r & ->)%absolute_head. rewrite append_cons. done. Qed.


Lemma ot_weaken {A} (ps ps' : list string) (m : prog fsys A) :
  only_touches ps m → (∀ k, k ∈ ps → k ∈ ps') → only_touches ps' m.
Proof. intros Hm Hsub s k Hk. apply Hm. intros Hin. apply Hk, Hsub, Hin. Qed.

Lemma ot_auto_video_send ps (w : world) (ev : chat_event) (p : string) :
  p ≠ "" → startswith "http" p = false →
  p ∈ ps → p +:+ ".jpg" ∈ ps →
  only_touches ps (auto_video_send w ev (Some p)).
Proof.
  intros Hp Hhttp H1 H2 s k Hk.
  pose proof (auto_video_send_state w ev p s Hp (or_introl Hhttp)) as E.
  cbv zeta in E. rewrite Hhttp in E. rewrite E.
  rewrite !lookup_delete_ne; [done| |]; intros <-; by apply Hk.
Qed.

Lemma ot_gather_downloads ps (w : world) (video_url video_path audio_url audio_path : string) :
  video_path ∈ ps → audio_path ∈ ps →
  only_touches ps
    (gather2 (w_first_done w)
       (download_b_file w Video video_url video_path)
       (download_b_file w Audio audio_url audio_path)).
Proof.
  intros Hv Ha. unfold gather2, download_b_file.
  destruct (w_first_done w); cbn [t_start t_finish t_inflight]; repeat ot_step.
Qed.

Lemma ot_merge ps (w : world) (video_path audio_path output_path : string) :
  output_path ∈ ps → only_touches ps (merge_file_to_mp4 w video_path audio_path output_path).
Proof. intros Ho. unfold merge_file_to_mp4. repeat ot_step. Qed.

Lemma ot_media_pipeline (w : world) (ev : chat_event) (video_id video_url audio_url : string) :
  startswith "/" (w_cwd w) = true →
  only_touches (video_files w video_id) (media_pipeline w ev video_id video_url audio_url).
Proof.
  intros Hcwd. unfold media_pipeline, video_files. cbv zeta.
  set (path := os_path_join (w_cwd w) video_id).
  destruct (absolute_not_url path "-res.mp4" (join_absolute _ _ Hcwd)) as [Hne Hhttp].
  apply ot_try_finally.
  - apply ot_bind; [apply ot_gather_downloads; in_paths|]. intros _.
    apply ot_bind; [apply ot_merge; in_paths|]. intros _.
    apply ot_auto_video_send; [done|done|in_paths|].
    rewrite append_assoc. in_paths.
  - repeat ot_step.
Qed.

Lemma ot_get_danmaku ps (w : world) (bvid : string) : only_touches ps (get_danmaku_list_async w bvid).
Proof.
  unfold get_danmaku_list_async. apply ot_bind; [apply ot_with_local|].
  intros [[] ?]; repeat ot_step.
Qed.

Lemma ot_get_comments ps (w : world) (aid max_comments : Z) :
  only_touches ps (get_comments_list_async w aid max_comments).
Proof.
  unfold get_comments_list_async. apply ot_bind; [apply ot_with_local|].
  intros [[] [? ?]]; repeat ot_step.
Qed.

Lemma ot_bind_res {A B} ps (m : prog fsys A) (f : A → prog fsys B) :
  only_touches ps m → (∀ s a, res (m s) = Ok a → only_touches ps (f a)) →
  only_touches ps (bind m f).
Proof.
  intros Hm Hf s k Hk. specialize (Hm s k Hk). specialize (Hf s). unfold bind.
  destruct (m s) as [[a|e] s1 ev1]; cbn in *; [|done].
  specialize (Hf a eq_refl s1 k Hk). destruct (f a s1) as [r s2 ev2]. cbn in *. congruence.
Qed.

Lemma ot_create_csv ps (w : world) (bvid : string) (aid : Z) :
  csv_path w bvid ∈ ps → only_touches ps (create_danmaku_comment_csv_async w bvid aid).
Proof.
  intros Hcsv. unfold create_danmaku_comment_csv_async. fold (csv_path w bvid).
  apply ot_bind; [apply ot_get_danmaku|]. intros ds.
  apply ot_bind; [apply ot_get_comments|]. intros cs. repeat ot_step.
Qed.

Lemma ot_export_block ps (w : world) (ev : chat_event) (video_id : string) (aid : Z) :
  csv_path w video_id ∈ ps → only_touches ps (export_block w ev video_id aid).
Proof.
  intros Hcsv. unfold export_block.
  apply ot_try_except.
  - apply ot_bind; [apply ot_adapter_send_text|]. intros _.
    apply ot_bind_res; [by apply ot_create_csv|]. intros s p Hp.
    rewrite create_csv_returns in Hp. injection Hp as <-. fold (csv_path w video_id).
    apply ot_bind; [apply ot_upload_both|]. intros _. by apply ot_os_remove.
  - intros e. apply ot_bind; [apply ot_emit|]. intros _. apply ot_adapter_send_text.
Qed.

Lemma ot_ai_block ps (cfg : config) (w : world) (ev : chat_event) (video_id : string) :
  only_touches ps (ai_block cfg w ev video_id).
Proof. unfold ai_block, send_forward_both. repeat ot_step. Qed.

Lemma ot_adapter_send_info ps (w : world) (to : target) (pic text : string) :
  only_touches ps (adapter_send w to [SegImage pic; SegText text]).
Proof. unfold adapter_send, thumbnails. cbn [for_each]. repeat ot_step. Qed.

(** X14.  Whatever happens, the video branch of the handler creates,
    changes and removes no file but its own five: the two streams, the
    muxed output, the thumbnail next to it, and the CSV of the export. *)
Theorem video_branch_touches_only_its_files
    (cfg : config) (w : world) (ev : chat_event) (url video_id : string) (fs : fsys) (k : string) :
  startswith "/" (w_cwd w) = true →
  k ∉ video_files w video_id →
  st (video_branch cfg w ev url video_id fs) !! k = fs !! k.
Proof.
  intros Hcwd Hk. revert fs k Hk. change (only_touches (video_files w video_id)
                                           (video_branch cfg w ev url video_id)).
  unfold video_branch.
  apply ot_bind; [apply ot_lift_result|]. intros [vi|]; [|apply ot_adapter_send_text].
  apply ot_bind; [apply ot_lift_result|]. intros pn.
  apply ot_bind; [apply ot_lift_result|]. intros d.
  apply ot_bind; [apply ot_lift_result|]. intros on.
  apply ot_bind.
  { destruct (_ <? _); [apply ot_adapter_send_info|].
    apply ot_bind; [apply ot_adapter_send_info|]. intros _.
    apply ot_bind; [apply ot_lift_result|]. intros urls.
    by apply ot_media_pipeline. }
  intros _. apply ot_bind; [|intros _; apply ot_ai_block].
  apply ot_export_block. unfold video_files. in_paths.
Qed.

Lemma video_branch_frame_sample :
  st (video_branch default_config calm_world sample_event sample_url "BV1xx411c7mD"
        {["/bot/keep.txt" := 3%N]}) !! "/bot/keep.txt" = Some 3%N.
Proof.
  refine (video_branch_touches_only_its_files default_config calm_world sample_event sample_url
            "BV1xx411c7mD" {["/bot/keep.txt" := 3%N]} "/bot/keep.txt" eq_refl _).
  apply (bool_decide_unpack _). vm_compute. exact I.
Defined.








(** ** The export on its good path *)

Lemma prefix_nil (s : string) : String.prefix "" s = true.
Proof. by destruct s. Qed.

Lemma contains_slash_app (a b : string) : contains "/" (a +:+ "/" +:+ b) = true.
Proof.
  induction a as [|c a IH].
  - rewrite append_nil_l, append_cons. cbn [contains String.prefix].
    destruct (ascii_dec "/" "/"); [|done]. by rewrite prefix_nil.
  - rewrite append_cons. cbn [contains]. rewrite IH. apply orb_true_r.
Qed.

Lemma basename_app_slash (a b : string) :
  os_path_basename (a +:+ "/" +:+ b) = os_path_basename b.
Proof.
  induction a as [|c a IH].
  - rewrite append_nil_l, append_cons, append_nil_l. cbn [os_path_basename].
    pose proof (contains_slash_app "" b) as H.
    rewrite append_nil_l, append_cons, append_nil_l in H. by rewrite H.
  - rewrite append_cons. cbn [os_path_basename].
    pose proof (contains_slash_app (String c a) b) as H. rewrite append_cons in H.
    by rewrite H, IH.
Qed.

Lemma basename_no_slash (b : string) : contains "/" b = false → os_path_basename b = b.
Proof. intros H. destruct b as [|c b]; [done|]. cbn [os_path_basename]. by rewrite H. Qed.

Lemma ends_with_slash (a : string) :
  a ≠ "" → String.substring (String.length a - 1) 1 a = "/" → ∃ a0, a = a0 +:+ "/".
Proof.
  induction a as [|c a IH]; [done|]. intros _.
  destruct a as [|c' a'].
  - cbn. intros [= ->]. by exists "".
  - assert (Hl : (String.length (String c (String c' a')) - 1
                  = S (String.length (String c' a') - 1))%nat) by (cbn; lia).
    rewrite Hl.
    change (String.substring (S (String.length (String c' a') - 1)) 1 (String c (String c' a')))
      with (String.substring (String.length (String c' a') - 1) 1 (String c' a')).
    intros H. destruct (IH ltac:(done) H) as (a0 & E).
    exists (String c a0). rewrite append_cons. by rewrite <- E.
Qed.

(** The name of a file joined to a directory is the name again. *)
Lemma basename_join (a b : string) :
  all_chars not_slash b = true → os_path_basename (os_path_join a b) = b.
Proof.
  intros Hb.
  assert (Hc : contains "/" b = false) by (by apply (contains_outside not_slash)).
  assert (Hs : startswith "/" b = false).
  { unfold startswith. destruct b; cbn [contains] in Hc; by apply orb_false_iff in Hc as [? _]. }
  unfold os_path_join. rewrite Hs. destruct a as [|c a]; [by apply basename_no_slash|].
  destruct (String.eqb _ _) eqn:E.
  - apply String.eqb_eq in E. destruct (ends_with_slash (String c a)) as (a0 & ->); [done|done|].
    rewrite append_assoc, basename_app_slash. by apply basename_no_slash.
  - rewrite basename_app_slash. by apply basename_no_slash.
Qed.

(** X16.  The export when the adapter takes its notice and its file: the
    notice, the log lines of the fetchers, the creation of the CSV file in
    the working directory, the log line with its path, its upload under
    the name of the video followed by _弹幕评论.csv, and its removal, in
    this order; the file is gone at the end. *)
Theorem export_success_trace
    (w : world) (ev : chat_event) (video_id : string) (aid : Z) (fs : fsys) :
  all_chars not_slash video_id = true →
  w_send w Origin [SegText exporting_notice] = IoOk →
  (∀ to name, w_upload w to (csv_path w video_id) name = IoOk) →
  ev ≠ OtherEvent →
  let csv := csv_path w video_id in
  ∃ log,
    export_block w ev video_id aid fs
    = Outcome (Ok tt) (delete csv fs)
        (EvSend [SegText exporting_notice] :: log
         ++ [EvCreate csv; EvLog ("数据已保存至: " +:+ csv);
             EvUpload csv (video_id +:+ "_弹幕评论.csv"); EvRemove csv])
    ∧ forallb is_log log = true.
Proof.
  intros Hid Hsend Hup Hev csv.
  assert (Hname : os_path_basename csv = video_id +:+ "_弹幕评论.csv").
  { apply basename_join. by rewrite all_chars_app, Hid. }
  destruct (create_csv_run w video_id aid fs) as (n & log & Ec & Hlog). fold csv in Ec.
  exists log. split; [|exact Hlog].
  unfold export_block, try_except.
  unfold adapter_send at 1. cbn [thumbnails for_each]. rewrite Hsend.
  assert (E1 : (emit (EvSend [SegText exporting_notice]);;; ret tt;;; lift_io IoOk) fs
               = Outcome (Ok tt) fs [EvSend [SegText exporting_notice]]) by reflexivity.
  rewrite (bind_run _ _ _ _ _ _ E1). cbn beta iota.
  rewrite (bind_run _ _ _ _ _ _ Ec). cbn beta iota. rewrite Hname.
  unfold upload_both, adapter_upload, os_remove.
  destruct ev as [g|u|]; [| |done]; py_unfold; rewrite Hup; cbn -[String.append];
    rewrite lookup_insert_eq; cbn -[String.append];
    rewrite delete_insert_eq, <- !app_assoc; reflexivity.
Qed.

Lemma export_success_sample :
  ∃ log,
    export_block calm_world sample_event "BV1xx411c7mD" 42 ∅
    = Outcome (Ok tt) (delete "/bot/BV1xx411c7mD_弹幕评论.csv" ∅)
        (EvSend [SegText exporting_notice] :: log
         ++ [EvCreate "/bot/BV1xx411c7mD_弹幕评论.csv";
             EvLog "数据已保存至: /bot/BV1xx411c7mD_弹幕评论.csv";
             EvUpload "/bot/BV1xx411c7mD_弹幕评论.csv" "BV1xx411c7mD_弹幕评论.csv";
             EvRemove "/bot/BV1xx411c7mD_弹幕评论.csv"])
    ∧ forallb is_log log = true.
Proof.
  exact (export_success_trace calm_world sample_event "BV1xx411c7mD" 42 ∅
           eq_refl eq_refl (λ _ _, eq_refl) ltac:(discriminate)).
Defined.


(** ** White space around the message *)

Lemma lstrip_spaces (a s : string) : all_chars is_space a = true → lstrip (a +:+ s) = lstrip s.
Proof.
  induction a as [|c a IH]; [done|]. cbn [all_chars]. intros [Hc Ha]%andb_true_iff.
  rewrite append_cons. cbn [lstrip]. rewrite Hc. auto.
Qed.

Lemma rstrip_all_space (b : string) : all_chars is_space b = true → rstrip b = "".
Proof.
  induction b as [|c b IH]; [done|]. cbn [all_chars]. intros [Hc Hb]%andb_true_iff.
  cbn [rstrip]. by rewrite IH, Hc.
Qed.

Lemma rstrip_spaces (s b : string) : all_chars is_space b = true → rstrip (s +:+ b) = rstrip s.
Proof.
  intros Hb. induction s as [|c s IH].
  - rewrite append_nil_l. by apply rstrip_all_space.
  - rewrite append_cons. cbn [rstrip]. by rewrite IH.
Qed.

Lemma lstrip_cases (s : string) :
  lstrip s = "" ∧ all_chars is_space s = true
  ∨ ∃ c r p, lstrip s = String c r ∧ is_space c = false ∧ s = p +:+ String c r
             ∧ all_chars is_space p = true.
Proof.
  induction s as [|c s IH]; [by left|]. cbn [lstrip all_chars].
  destruct (is_space c) eqn:Hc.
  - destruct IH as [[-> ->]|(c' & r & p & -> & Hc' & -> & Hp)]; [by left|].
    right. exists c', r, (String c p). rewrite append_cons. cbn. by rewrite Hc, Hp.
  - right. by exists c, s, "".
Qed.

Lemma strip_spaces (a s b : string) :
  all_chars is_space a = true → all_chars is_space b = true →
  strip (a +:+ s +:+ b) = strip s.
Proof.
  intros Ha Hb. unfold strip. rewrite lstrip_spaces by done.
  destruct (lstrip_cases s) as [[E Hs]|(c & r & p & E & Hc & -> & Hp)].
  - rewrite E. rewrite (lstrip_spaces s b Hs). rewrite <- (append_nil_r b) at 1.
    rewrite (lstrip_spaces b "" Hb). reflexivity.
  - rewrite E. rewrite append_assoc, (lstrip_spaces p _ Hp). rewrite append_cons.
    cbn [lstrip]. rewrite Hc. rewrite <- append_cons. by apply rstrip_spaces.
Qed.

(** X17.  Blanks, tabs and line breaks around the message do not matter to
    the handler: the message is stripped before anything else is done with
    it, and the stripped text has no such character at either end. *)
Theorem handler_ignores_surrounding_space
    (cfg : config) (w : world) (ev : chat_event) (a message b : string) (fs : fsys) :
  all_chars is_space a = true →
  all_chars is_space b = true →
  strip (a +:+ message +:+ b) = strip message
  ∧ handle_bilibili cfg w ev (a +:+ message +:+ b) fs = handle_bilibili cfg w ev message fs.
Proof.
  intros Ha Hb. pose proof (strip_spaces a message b Ha Hb) as E. split; [exact E|].
  unfold handle_bilibili. cbv zeta. by rewrite E.
Qed.

Lemma surrounding_space_sample :
  handle_bilibili default_config calm_world sample_event
    ("  " +:+ sample_url +:+ String lf "") ∅
  = handle_bilibili default_config calm_world sample_event sample_url ∅.
Proof.
  exact (proj2 (handler_ignores_surrounding_space default_config calm_world sample_event
                  "  " sample_url (String lf "") ∅ eq_refl eq_refl)).
Defined.

(** ** Following a short link *)

Lemma remove_char_id (c : ascii) (s : string) :
  all_chars (λ x, negb (Ascii.eqb x c)) s = true → remove_char c s = s.
Proof.
  induction s as [|a s IH]; [done|]. cbn. intros [Ha Hs]%andb_true_iff.
  apply negb_true_iff in Ha. by rewrite Ha, IH.
Qed.

(** X18.  A short link at the head of the message, which ends with the
    message or in front of an ASCII character that cannot stand in a URL.
    The handler takes that link, lets the HTTP client follow it, and goes
    on with the address it arrives at as it would with a message of that
    text: a video address is handled as that video.  When the request
    fails the handler raises that error, with nothing sent and no file
    touched. *)
Theorem short_link_follows_redirect
    (cfg : config) (w : world) (ev : chat_event) (code rest target id : string) (fs : fsys) :
  let short := "https://b23.tv/" +:+ code in
  let message := short +:+ rest in
  code ≠ "" →
  all_chars is_url_char code = true →
  (rest = "" ∨ ∃ c r, rest = String c r ∧ is_url_char c = false ∧ is_ascii c = true) →
  strip message = message →
  all_chars not_backslash message = true →
  re_search b_short_rex message = Some short
  ∧ (∀ e, w_resolve_short w short = Raise e →
       handle_bilibili cfg w ev message fs = Outcome (Raise e) fs [])
  ∧ (w_resolve_short w short = Ok target →
     (contains "t.bilibili.com" target || contains "/opus" target)
       && truthy (BILI_SESSDATA cfg) = false →
     contains "live" target = false →
     contains "read" target = false →
     contains "favlist" target && truthy (BILI_SESSDATA cfg) = false →
     re_search video_rex target = Some id →
     handle_bilibili cfg w ev message fs = video_branch cfg w ev target id fs).
Proof.
  intros short message Hne Hcode Hrest%stops_at_ascii Hstrip Hbs.
  assert (R : re_search b_short_rex message = Some short).
  { subst message short. str_simpl. cbn [re_search]. unfold b_short_rex at 1.
    cbn [strip_prefix Ascii.eqb Bool.eqb mbind option_bind orelse].
    rewrite many1_stop by done. cbn [option_bind orelse]. by str_simpl. }
  assert (Hhandle : handle_bilibili cfg w ev message fs
            = bind (lift_result (w_resolve_short w short))
                (λ url,
                   if (contains "t.bilibili.com" url || contains "/opus" url)
                      && truthy (BILI_SESSDATA cfg)
                   then w_dynamic w url
                   else if contains "live" url then
                     match re_search live_rex (before_char "?" url) with
                     | Some room_id => w_live w room_id
                     | None => raise NoneType_group
                     end
                   else if contains "read" url then
                     match re_search read_rex url with
                     | Some read_id => w_read w read_id
                     | None => raise NoneType_group
                     end
                   else if contains "favlist" url && truthy (BILI_SESSDATA cfg) then
                     match re_search favlist_rex url with
                     | Some fav_id => w_favlist w fav_id
                     | None => raise NoneType_group
                     end
                   else
                     match re_search video_rex url with
                     | Some video_id => video_branch cfg w ev url video_id
                     | None => ret tt
                     end) fs).
  { unfold handle_bilibili. cbv zeta. rewrite Hstrip.
    assert (bv_expand message = false) as -> by (subst message short; str_simpl; reflexivity).
    assert (contains "b23.tv" message = true) as ->
      by (subst message short; str_simpl; reflexivity).
    cbn [orb].
    rewrite (remove_char_id backslash message Hbs), R. reflexivity. }
  split; [exact R|]. split.
  - intros e He. rewrite Hhandle, He. reflexivity.
  - intros Hok Hdyn Hlive Hread Hfav Hvid. rewrite Hhandle, Hok. cbn [lift_result].
    rewrite bind_ret_l. by rewrite Hdyn, Hlive, Hread, Hfav, Hvid.
Qed.

Lemma short_link_sample :
  let w := sample_world (sample_info 300) None IoOk (Written 10) (Written 1000) (Written 1000)
             (Written 2000) in
  re_search b_short_rex "https://b23.tv/abc123 看看" = Some "https://b23.tv/abc123".
Proof.
  intros w.
  refine (proj1 (short_link_follows_redirect default_config w sample_event "abc123" " 看看"
                   "" "" ∅ _ eq_refl _ eq_refl eq_refl)).
  - discriminate.
  - right. by exists " "%char, "看看".
Defined.

(** ** Articles, favourites and live rooms *)

Lemma re_search_skip {A} (m : string → option A) (c : ascii) (s : string) :
  m (String c s) = None → re_search m (String c s) = re_search m s.
Proof. intros H. cbn [re_search]. by rewrite H. Qed.


Lemma re_search_skip_class {A} (f : ascii → bool) (m : string → option A) (a s : string) :
  (∀ c t, f c = true → m (String c t) = None) →
  all_chars f a = true → re_search m (a +:+ s) = re_search m s.
Proof.
  intros Hm. induction a as [|c a IH]; [done|]. cbn [all_chars].
  intros [Hc Ha]%andb_true_iff. rewrite append_cons, re_search_skip by auto. auto.
Qed.

Lemma favlist_rex_digit (c : ascii) (t : string) :
  is_digit c = true → favlist_rex (String c t) = None.
Proof.
  intros Hc. unfold favlist_rex. cbn [strip_prefix].
  destruct (Ascii.eqb_spec "f" c) as [<-|]; [discriminate|done].
Qed.


Lemma contains_app_r (p a s : string) : contains p s = true → contains p (a +:+ s) = true.
Proof.
  intros H. induction a as [|c a IH]; [done|]. rewrite append_cons. cbn [contains].
  rewrite IH. apply orb_true_r.
Qed.

Lemma strip_prefix_is_prefix (p s r : string) :
  strip_prefix p s = Some r → String.prefix p s = true.
Proof.
  revert s. induction p as [|a p IH]; intros s; [by destruct s|].
  destruct s as [|b s]; [done|]. cbn.
  destruct (Ascii.eqb_spec a b) as [->|]; [|done].
  destruct (ascii_dec b b); [|done]. apply IH.
Qed.

Lemma video_rex_contains (s : string) :
  contains "video/" s = false → re_search video_rex s = None.
Proof.
  induction s as [|c s IH]; cbn [contains re_search].
  - intros _. reflexivity.
  - intros [Hp Hc]%orb_false_iff. unfold video_rex at 1.
    destruct (strip_prefix "video/" (String c s)) as [r|] eqn:E.
    + apply strip_prefix_is_prefix in E. congruence.
    + cbn [mbind option_bind]. auto.
Qed.

(** X19.  Links to an article and to a list of favourites, the number
    written in ASCII digits that end with the message or in front of
    another ASCII character.  The article asked for is the run of digits
    after [read/cv].  The list of favourites is the run of digits after
    [favlist?fid=], and it is looked at only when session data is set:
    without it the link is dropped with nothing sent. *)
Theorem article_and_favourites_links
    (cfg : config) (w : world) (ev : chat_event) (uid d rest : string) (fs : fsys) :
  let article := "https://www.bilibili.com/read/cv" +:+ d +:+ rest in
  let favourites := "https://space.bilibili.com/" +:+ uid +:+ "/favlist?fid=" +:+ d +:+ rest in
  d ≠ "" →
  all_chars is_digit d = true →
  all_chars is_digit uid = true →
  (rest = "" ∨ ∃ c r, rest = String c r ∧ is_digit c = false ∧ is_ascii c = true) →
  plain_address article = true →
  plain_address favourites = true →
  contains "live" article || contains "live" favourites = false →
  contains "read" favourites || contains "video/" favourites = false →
  handle_bilibili cfg w ev article fs = w_read w d fs
  ∧ handle_bilibili cfg w ev favourites fs
    = if truthy (BILI_SESSDATA cfg) then w_favlist w d fs else Outcome (Ok tt) fs [].
Proof.
  intros article favourites Hne Hd Huid Hrest%stops_at_ascii Ha Hf Hlive Hother.
  apply orb_false_iff in Hlive as [Hlive_a Hlive_f].
  apply orb_false_iff in Hother as [Hread Hvideo].
  unfold plain_address in Ha, Hf.
  rewrite !andb_true_iff, !negb_true_iff, String.eqb_eq in Ha, Hf.
  destruct Ha as (((Hstrip_a & Hbs_a) & Hshort_a) & Hdyn_a).
  destruct Hf as (((Hstrip_f & Hbs_f) & Hshort_f) & Hdyn_f).
  split.
  - assert (R : re_search read_rex article = Some d).
    { subst article. str_simpl.
      repeat (rewrite re_search_skip by reflexivity).
      cbn [re_search]. unfold read_rex at 1.
      cbn [strip_prefix Ascii.eqb Bool.eqb mbind option_bind]. by rewrite many1_stop. }
    unfold handle_bilibili. cbv zeta. rewrite Hstrip_a.
    assert (bv_expand article = false) as -> by (subst article; str_simpl; reflexivity).
    rewrite Hshort_a, (url_reg_needs_backslash article Hbs_a), bind_ret_l, Hdyn_a, Hlive_a.
    assert (contains "read" article = true) as -> by (subst article; str_simpl; reflexivity).
    cbn [andb]. by rewrite R.
  - assert (R : re_search favlist_rex favourites = Some d).
    { subst favourites. str_simpl.
      repeat (rewrite re_search_skip by reflexivity).
      rewrite (re_search_skip_class is_digit) by (done || apply favlist_rex_digit).
      str_simpl. rewrite re_search_skip by reflexivity.
      cbn [re_search]. unfold favlist_rex at 1.
      cbn [strip_prefix Ascii.eqb Bool.eqb mbind option_bind]. by rewrite many1_stop. }
    assert (Hfav : contains "favlist" favourites = true).
    { assert (E : favourites = ("https://space.bilibili.com/" +:+ uid +:+ "/")
                               +:+ ("favlist?fid=" +:+ d +:+ rest)).
      { subst favourites. rewrite !append_assoc. reflexivity. }
      rewrite E. apply contains_app_r. by str_simpl. }
    unfold handle_bilibili. cbv zeta. rewrite Hstrip_f.
    assert (bv_expand favourites = false) as -> by (subst favourites; str_simpl; reflexivity).
    rewrite Hshort_f, (url_reg_needs_backslash favourites Hbs_f), bind_ret_l, Hdyn_f, Hlive_f,
      Hread, Hfav.
    cbn [andb]. destruct (truthy (BILI_SESSDATA cfg)); [by rewrite R|].
    by rewrite video_rex_contains.
Qed.

Lemma favourites_without_session_sample :
  handle_bilibili default_config calm_world sample_event
    "https://space.bilibili.com/12/favlist?fid=345" ∅
  = Outcome (Ok tt) ∅ [].
Proof.
  exact (proj2 (article_and_favourites_links default_config calm_world sample_event
                  "12" "345" "" ∅ ltac:(discriminate) eq_refl eq_refl (or_introl eq_refl)
                  eq_refl eq_refl eq_refl eq_refl)).
Defined.

(** X20.  The article branch writes [article.md] in the working directory
    and removes it only at its very end.  It returns normally exactly when
    the article could be fetched and rendered and the adapter took the
    notice and the file; the file is gone then.  When the article could be
    fetched and any later step raises, the handler raises and the file
    stays. *)
Theorem article_file_is_removed_only_on_success
    (cfg : config) (w : world) (get_article : string → article) (ev : chat_event)
    (read_id : string) (fs : fsys) :
  let ar := get_article read_id in
  let path := os_path_join (w_cwd w) "article.md" in
  let o := read_branch cfg w get_article ev read_id fs in
  let delivered :=
    is_ok (ar_markdown ar)
    && io_ok (w_send w Origin [SegText (GLOBAL_NICKNAME cfg +:+ "识别：哔哩哔哩专栏")])
    && match ev with
       | GroupMessageEvent g => io_ok (w_upload w (ToGroup g) path "article.md")
       | PrivateMessageEvent u => io_ok (w_upload w (ToUser u) path "article.md")
       | OtherEvent => true
       end in
  (∀ e, ar_fetch_content ar = IoRaise e → o = Outcome (Raise e) fs [])
  ∧ (ar_fetch_content ar = IoOk →
       is_ok (res o) = delivered
       ∧ (delivered = true → st o = delete path fs)
       ∧ (delivered = false → is_Some (st o !! path))).
Proof.
  intros ar path o delivered. subst o delivered. unfold read_branch. fold ar. fold path.
  clearbody ar path. split.
  - intros e He. rewrite He. reflexivity.
  - intros Hf. rewrite Hf.
    unfold adapter_send, thumbnails, upload_both, adapter_upload, os_remove, write_file.
    cbn [for_each]. py_unfold.
    destruct (ar_markdown ar) as [text|e1]; cbn.
    2:{ split_and!; [done|done|]. intros _. rewrite lookup_insert_eq. by eexists. }
    destruct (w_send w Origin _) as [|e2]; cbn.
    2:{ split_and!; [done|done|]. intros _. rewrite lookup_insert_eq. by eexists. }
    destruct ev as [g|u|]; cbn.
    + destruct (w_upload w (ToGroup g) path "article.md") as [|e3]; cbn;
        rewrite ?lookup_insert_eq; cbn.
      * split_and!; [done| |done]. intros _. by rewrite insert_insert_eq, delete_insert_eq.
      * split_and!; [done|done|]. intros _. rewrite ?lookup_insert_eq. by eexists.
    + destruct (w_upload w (ToUser u) path "article.md") as [|e3]; cbn;
        rewrite ?lookup_insert_eq; cbn.
      * split_and!; [done| |done]. intros _. by rewrite insert_insert_eq, delete_insert_eq.
      * split_and!; [done|done|]. intros _. rewrite ?lookup_insert_eq. by eexists.
    + rewrite ?lookup_insert_eq; cbn.
      split_and!; [done| |done]. intros _. by rewrite insert_insert_eq, delete_insert_eq.
Qed.


Lemma fav_segments_complete {S} (fav : fav_media) (s : S) :
  fav_complete fav = true → fav_segments fav s = Outcome (Ok (fav_node fav)) s [].
Proof.
  unfold fav_complete, fav_segments, fav_node.
  rewrite !andb_true_iff, !bool_decide_eq_true.
  intros [[[[c ->] [t ->]] [i ->]] [l ->]]. reflexivity.
Qed.

Lemma fav_segments_incomplete {S} (fav : fav_media) (s : S) :
  fav_complete fav = false → ∃ key, fav_segments fav s = Outcome (Raise (KeyError key)) s [].
Proof.
  unfold fav_complete, fav_segments.
  destruct (fm_cover fav); [|by eexists]. destruct (fm_title fav); [|by eexists].
  destruct (fm_intro fav); [|by eexists]. destruct (fm_link fav); [|by eexists].
  rewrite !bool_decide_eq_true_2 by (by eexists). discriminate.
Qed.

Lemma comprehension_complete {S} (l : list fav_media) (s : S) :
  forallb fav_complete l = true →
  comprehension fav_segments l s = Outcome (Ok (map fav_node l)) s [].
Proof.
  induction l as [|x l IH]; [done|]. cbn [forallb comprehension map].
  intros [Hx Hl]%andb_true_iff.
  rewrite (bind_run _ _ _ _ _ _ (fav_segments_complete x s Hx)). cbn beta iota.
  rewrite (bind_run _ _ _ _ _ _ (IH Hl)). reflexivity.
Qed.

Lemma comprehension_incomplete {S} (l : list fav_media) (s : S) :
  forallb fav_complete l = false →
  ∃ key, comprehension fav_segments l s = Outcome (Raise (KeyError key)) s [].
Proof.
  induction l as [|x l IH]; [done|]. cbn [forallb comprehension].
  destruct (fav_complete x) eqn:Hx; cbn [andb].
  - intros (key & E)%IH. exists key.
    rewrite (bind_run _ _ _ _ _ _ (fav_segments_complete x s Hx)). cbn beta iota.
    by rewrite (bind_run _ _ _ _ _ _ E).
  - intros _. destruct (fav_segments_incomplete x s Hx) as (key & E). exists key.
    by rewrite (bind_run _ _ _ _ _ _ E).
Qed.

Lemma adapter_send_text_run (w : world) (to : target) (text : string) (s : fsys) :
  adapter_send w to [SegText text] s
  = Outcome (match w_send w to [SegText text] with IoOk => Ok tt | IoRaise e => Raise e end)
      s [EvSend [SegText text]].
Proof.
  unfold adapter_send, thumbnails. cbn [for_each]. py_unfold.
  by destruct (w_send w to [SegText text]).
Qed.

(** X21.  The favourites branch looks at the first ten entries of the list
    and at no other.  When each of them has its cover, title, introduction
    and link, the notice is sent and then one forward message with one
    node for each of them, in their order; when one of them lacks a key
    the handler raises before anything is sent.  No file is touched. *)
Theorem favourites_forward_first_ten
    (cfg : config) (w : world) (get_favorites : string → result (json_list fav_media))
    (ev : chat_event) (fav_id : string) (medias : list fav_media) (fs : fsys) :
  get_favorites fav_id = Ok (Items medias) →
  let shown := take 10 medias in
  let notice := [SegText (GLOBAL_NICKNAME cfg +:+ "识别：哔哩哔哩收藏夹...")] in
  let o := favlist_branch cfg w get_favorites ev fav_id fs in
  (List.length shown ≤ 10)%nat
  ∧ st o = fs
  ∧ (forallb fav_complete shown = false → ∃ key, o = Outcome (Raise (KeyError key)) fs [])
  ∧ (forallb fav_complete shown = true →
       ∃ tail, emitted o = EvSend notice :: tail
               ∧ (w_send w Origin notice = IoOk → ev ≠ OtherEvent →
                  tail = [EvForward (map fav_node shown)])).
Proof.
  intros Hget shown notice o.
  split; [subst shown; rewrite length_take; lia|].
  subst o. unfold favlist_branch. rewrite Hget. cbn [lift_result]. rewrite !bind_ret_l.
  fold shown. clearbody shown.
  destruct (forallb fav_complete shown) eqn:Hall.
  - rewrite (bind_run _ _ _ _ _ _ (comprehension_complete shown fs Hall)). cbn beta iota.
    unfold make_node_segment_messages. rewrite map_id.
    rewrite (bind_run _ _ _ _ _ _ (adapter_send_text_run w Origin _ fs)). fold notice.
    destruct (w_send w Origin notice) as [|e]; cbn beta iota.
    + unfold send_forward_both. destruct ev as [g|u|]; py_unfold; cbn.
      * destruct (w_forward w (ToGroup g) _); cbn; (split_and!; [done|done|eauto]).
      * destruct (w_forward w (ToUser u) _); cbn; (split_and!; [done|done|eauto]).
      * split_and!; [done|done|]. intros _. eexists. split; [done|]. by intros _ [].
    + split_and!; [done|done|]. intros _. eexists. split; [done|]. by intros [=].
  - destruct (comprehension_incomplete shown fs Hall) as (key & E).
    rewrite (bind_run _ _ _ _ _ _ E). split_and!; [done|eauto|done].
Qed.

Lemma favourites_sample :
  let favs := replicate 12 (FavMedia (Some "c.png") (Some "t") (Some "i") (Some "l")) in
  ∃ tail,
    emitted (favlist_branch default_config calm_world (λ _, Ok (Items favs)) sample_event "7" ∅)
    = EvSend [SegText "Bot识别：哔哩哔哩收藏夹..."] :: tail
    ∧ tail = [EvForward (map fav_node (take 10 favs))].
Proof.
  intros favs.
  destruct (proj2 (proj2 (proj2 (favourites_forward_first_ten default_config calm_world
              (λ _, Ok (Items favs)) sample_event "7" favs ∅ eq_refl))) eq_refl)
    as (tail & E & Ht).
  exists tail. split; [exact E|]. apply Ht; [reflexivity|discriminate].
Defined.


Lemma before_char_app (c : ascii) (a r : string) :
  all_chars (λ x, negb (Ascii.eqb x c)) a = true →
  before_char c (a +:+ r) = a +:+ before_char c r.
Proof.
  induction a as [|x a IH]; [done|]. cbn [all_chars]. intros [Hx Ha]%andb_true_iff.
  rewrite !append_cons. cbn [before_char]. apply negb_true_iff in Hx. by rewrite Hx, IH.
Qed.

Lemma digit_not_question (c : ascii) : is_digit c = true → negb (Ascii.eqb c "?") = true.
Proof. ascii_cases c. Qed.

Lemma live_branch_run (cfg : config) (w : world) (rooms : Z → result (option room_info))
    (d : string) (k : Z) (title cover keyframe : string) (s : fsys) :
  w_int w d = Some k →
  rooms k = Ok (Some (RoomInfo (Some title) (Some cover) (Some keyframe))) →
  let message := [SegImage cover; SegImage keyframe;
                  SegText (GLOBAL_NICKNAME cfg +:+ "识别：哔哩哔哩直播，" +:+ title)] in
  live_branch cfg w rooms d s
  = Outcome (match w_send w Origin message with IoOk => Ok tt | IoRaise e => Raise e end)
      s [EvSend message].
Proof.
  intros Hint Hroom message. unfold live_branch. rewrite Hint, bind_ret_l, Hroom.
  unfold adapter_send, thumbnails, subscript. cbn [for_each]. py_unfold.
  cbn -[String.append]. fold message. by destruct (w_send w Origin message).
Qed.

(** X22.  A link to a live room, the number written in ASCII digits that
    end with the message or in front of another ASCII character.  The
    room asked for is the first run of digits that follows a slash in the
    part of the message before the first question mark; the handler
    answers with one message that holds the cover, the key frame and the
    title of the room, and touches no file. *)
Theorem live_link_shows_room
    (cfg : config) (w : world) (rooms : Z → result (option room_info)) (ev : chat_event)
    (d rest : string) (k : Z) (title cover keyframe : string) (fs : fsys) :
  let url := "https://live.bilibili.com/" +:+ d +:+ rest in
  let message := [SegImage cover; SegImage keyframe;
                  SegText (GLOBAL_NICKNAME cfg +:+ "识别：哔哩哔哩直播，" +:+ title)] in
  d ≠ "" →
  all_chars is_digit d = true →
  (rest = "" ∨ ∃ c r, rest = String c r ∧ is_digit c = false ∧ is_ascii c = true) →
  strip url = url →
  all_chars not_backslash url = true →
  contains "b23.tv" url || contains "bili2233.cn" url || contains "QQ小程序" url = false →
  (contains "t.bilibili.com" url || contains "/opus" url) && truthy (BILI_SESSDATA cfg) = false →
  (∀ id s, w_live w id s = live_branch cfg w rooms id s) →
  w_int w d = Some k →
  rooms k = Ok (Some (RoomInfo (Some title) (Some cover) (Some keyframe))) →
  re_search live_rex (before_char "?" url) = Some d
  ∧ handle_bilibili cfg w ev url fs
    = Outcome (match w_send w Origin message with IoOk => Ok tt | IoRaise e => Raise e end)
        fs [EvSend message].
Proof.
  intros url message Hne Hd Hrest%stops_at_ascii Hstrip Hbs Hshort Hdyn Hlive Hint Hroom.
  assert (R : re_search live_rex (before_char "?" url) = Some d).
  { subst url. str_simpl. cbn [before_char Ascii.eqb Bool.eqb].
    rewrite before_char_app by (eapply all_chars_impl; [apply digit_not_question|done]).
    assert (Hr : before_char "?" rest = ""
                 ∨ ∃ c r, before_char "?" rest = String c r ∧ is_digit c = false).
    { destruct Hrest as [->|(c & r & -> & Hc)]; [by left|]. cbn [before_char].
      destruct (Ascii.eqb c "?"); [by left|right; eauto]. }
    repeat (rewrite re_search_skip by reflexivity).
    cbn [re_search]. unfold live_rex at 1. cbn [strip_prefix Ascii.eqb Bool.eqb mbind option_bind].
    by rewrite many1_stop. }
  split; [exact R|].
  unfold handle_bilibili. cbv zeta. rewrite Hstrip.
  assert (bv_expand url = false) as -> by (subst url; str_simpl; reflexivity).
  rewrite Hshort, (url_reg_needs_backslash url Hbs), bind_ret_l, Hdyn.
  assert (contains "live" url = true) as -> by (subst url; str_simpl; reflexivity).
  rewrite R, Hlive. exact (live_branch_run cfg w rooms d k title cover keyframe fs Hint Hroom).
Qed.

Lemma live_link_sample :
  let rooms : Z → result (option room_info) := λ _, Ok (Some sample_room) in
  let w := calm_world_with (live_branch default_config calm_world rooms)
             (w_get_comments calm_world) in
  handle_bilibili default_config w sample_event "https://live.bilibili.com/12345?from=x" ∅
  = Outcome (Ok tt) ∅
      [EvSend [SegImage "c.png"; SegImage "k.png"; SegText "Bot识别：哔哩哔哩直播，t"]].
Proof.
  intros rooms w.
  refine (proj2 (live_link_shows_room default_config w rooms sample_event "12345" "?from=x"
                   12345 "t" "c.png" "k.png" ∅ _ eq_refl _ eq_refl eq_refl eq_refl eq_refl
                   (λ _ _, eq_refl) eq_refl eq_refl)).
  - discriminate.
  - right. by exists "?"%char, "from=x".
Defined.

(** ** Dynamics *)

Lemma digit_not_slash (c : ascii) : is_digit c = true → not_slash c = true.
Proof. ascii_cases c. Qed.

Lemma digit_plain_char (c : ascii) : is_digit c = true → plain_char c = true.
Proof. ascii_cases c. Qed.

Lemma plain_char_not_question (c : ascii) :
  plain_char c = true → negb (Ascii.eqb c "?") = true.
Proof. unfold plain_char. by intros [_ ?]%andb_true_iff. Qed.

Lemma before_last_lf_none (run : string) :
  all_chars plain_char run = true → before_last_lf run = None.
Proof.
  induction run as [|c run IH]; [done|]. cbn [all_chars before_last_lf].
  intros [Hc Hrun]%andb_true_iff. rewrite (IH Hrun).
  unfold plain_char in Hc. apply andb_true_iff in Hc as [Hc _].
  apply negb_true_iff in Hc. by rewrite Hc.
Qed.

Lemma span_parts (f : ascii → bool) (s : string) :
  s = (span f s).1 +:+ (span f s).2 ∧ all_chars f (span f s).1 = true.
Proof.
  induction s as [|c s [IH1 IH2]]; [done|]. cbn [span].
  destruct (f c) eqn:Hc; [|done]. destruct (span f s) as [a b]. cbn in *.
  rewrite Hc. split; [by rewrite IH1 at 1|done].
Qed.

(** On one line the pattern matches nothing that a slash follows. *)
Lemma last_segment_rex_slash (a r : string) :
  all_chars plain_char a = true →
  last_segment_rex (a +:+ String slash r) = None.
Proof.
  intros Ha. unfold last_segment_rex.
  destruct (span_parts not_slash (a +:+ String slash r)) as [E Hrun].
  destruct (span not_slash (a +:+ String slash r)) as [run rest]. cbn [fst snd] in *.
  assert (Hplain : all_chars plain_char run = true ∧ rest ≠ "").
  { clear -E Hrun Ha. revert run E Hrun. induction a as [|c a IH]; intros run E Hrun.
    - rewrite append_nil_l in E. destruct run as [|x run].
      + rewrite append_nil_l in E. by subst rest.
      + rewrite append_cons in E. injection E as <- _. by cbn in Hrun.
    - rewrite append_cons in E. cbn [all_chars] in Ha. apply andb_true_iff in Ha as [Hc Ha].
      destruct run as [|x run].
      + rewrite append_nil_l in E. by subst rest.
      + rewrite append_cons in E. injection E as <- E. cbn [all_chars] in Hrun |- *.
        apply andb_true_iff in Hrun as [_ Hrun].
        destruct (IH Ha run E Hrun) as [H1 H2]. by rewrite Hc, H1. }
  destruct Hplain as [Hplain Hrest]. destruct rest; [done|].
  by rewrite (before_last_lf_none run Hplain).
Qed.

Lemma last_segment_rex_end (d : string) :
  d ≠ "" → all_chars not_slash d = true → last_segment_rex d = Some d.
Proof.
  intros Hne Hd. unfold last_segment_rex. rewrite (span_all not_slash d Hd). by destruct d.
Qed.

(** On one line the pattern finds what follows the last slash, and nothing
    when the line ends with a slash. *)
Lemma re_search_last_segment (a d : string) :
  all_chars plain_char a = true →
  all_chars not_slash d = true →
  re_search last_segment_rex (a +:+ String slash d)
  = match d with "" => None | _ => Some d end.
Proof.
  intros Ha Hd. induction a as [|c a IH].
  - rewrite append_nil_l. rewrite re_search_skip by reflexivity.
    destruct d as [|x d]; [reflexivity|]. cbn [re_search].
    by rewrite (last_segment_rex_end (String x d)).
  - cbn [all_chars] in Ha. apply andb_true_iff in Ha as [Hc Ha].
    rewrite append_cons. rewrite re_search_skip; [by apply IH|].
    rewrite <- append_cons. apply last_segment_rex_slash. cbn [all_chars]. by rewrite Hc, Ha.
Qed.

Lemma pictures_nodes {S} (urls : list string) (s : S) :
  comprehension (λ pic, pic_url <- lift_result (dp_url pic) ;;
                        ret (make_node_segment_one (SegImage pic_url)))
    (map picture urls) s
  = Outcome (Ok (map picture_node urls)) s [].
Proof.
  induction urls as [|u urls IH]; [done|]. cbn [map comprehension].
  assert (E : (pic_url <- lift_result (dp_url (picture u)) ;;
               ret (make_node_segment_one (SegImage pic_url))) s
              = Outcome (Ok (picture_node u)) s []) by reflexivity.
  rewrite (bind_run _ _ _ _ _ _ E). cbn beta iota.
  by rewrite (bind_run _ _ _ _ _ _ IH).
Qed.

(** X23.  A link to a dynamic, with session data set, on one line.  The
    number asked for is what follows the last slash of the address, the
    query cut off.  When the address ends with a slash the handler raises
    TypeError before any request.  Otherwise, when the platform has
    nothing for that number the handler returns with nothing sent, and
    when the request raises the handler raises that error. *)
Theorem dynamic_link_asks_for_last_segment
    (cfg : config) (w : world) (get_info : Z → result (option dynamic_info)) (ev : chat_event)
    (a d query : string) (fs : fsys) :
  let url := a +:+ String slash d +:+ query in
  let o := handle_bilibili cfg w ev url fs in
  all_chars plain_char a = true →
  all_chars is_digit d = true →
  (query = "" ∨ ∃ q, query = String "?" q) →
  strip url = url →
  all_chars not_backslash url = true →
  contains "b23.tv" url || contains "bili2233.cn" url || contains "QQ小程序" url = false →
  contains "t.bilibili.com" url || contains "/opus" url = true →
  truthy (BILI_SESSDATA cfg) = true →
  (∀ u s, w_dynamic w u s = dynamic_branch cfg w get_info ev u s) →
  (d = "" → o = Outcome (Raise NoneType_subscript) fs [])
  ∧ (d ≠ "" →
     re_search last_segment_rex (before_char "?" url) = Some d
     ∧ ∀ k, w_int w d = Some k →
         (get_info k = Ok None → o = Outcome (Ok tt) fs [])
         ∧ (∀ e, get_info k = Raise e → o = Outcome (Raise e) fs [])).
Proof.
  intros url o Ha Hd Hquery Hstrip Hbs Hshort Hcont Hsess Hdyn.
  assert (Hcut : before_char "?" url = a +:+ String slash d).
  { subst url. rewrite before_char_app
      by (eapply all_chars_impl; [apply plain_char_not_question|done]).
    f_equal. rewrite append_cons. cbn [before_char Ascii.eqb Bool.eqb slash]. f_equal.
    rewrite before_char_app by (eapply all_chars_impl; [apply digit_not_question|done]).
    destruct Hquery as [->|(q & ->)]; cbn [before_char Ascii.eqb Bool.eqb];
      by rewrite append_nil_r. }
  assert (R : re_search last_segment_rex (before_char "?" url)
              = match d with "" => None | _ => Some d end).
  { rewrite Hcut. apply re_search_last_segment; [done|].
    eapply all_chars_impl; [apply digit_not_slash|done]. }
  assert (Hhandle : o = dynamic_branch cfg w get_info ev url fs).
  { subst o. unfold handle_bilibili. cbv zeta. rewrite Hstrip.
    assert (bv_expand url = false) as ->.
    { destruct (bv_expand url) eqn:E; [|done]. apply bv_expand_chars in E.
      subst url. rewrite all_chars_app, append_cons in E. cbn [all_chars] in E.
      apply andb_true_iff in E as [_ E]. by apply andb_true_iff in E as [E _]. }
    rewrite Hshort, (url_reg_needs_backslash url Hbs), bind_ret_l, Hsess, Hcont.
    cbn [orb andb]. apply Hdyn. }
  rewrite Hhandle. unfold dynamic_branch. cbv zeta. rewrite R. split.
  - by intros ->.
  - intros Hne. destruct d as [|x d]; [done|]. split; [done|].
    intros k Hint. rewrite bind_ret_l, Hint, bind_ret_l.
    split; [intros ->; reflexivity|intros e ->; reflexivity].
Qed.

Lemma dynamic_link_sample :
  let cfg := Config "Bot" "sessdata" 480 in
  let nothing : Z → result (option dynamic_info) := λ _, Ok None in
  let w := with_session_apis calm_world (dynamic_branch cfg calm_world nothing sample_event)
             (w_favlist calm_world) (w_ai_summary calm_world) in
  handle_bilibili cfg w sample_event "https://t.bilibili.com/123/" ∅
  = Outcome (Raise NoneType_subscript) ∅ []
  ∧ handle_bilibili cfg w sample_event "https://t.bilibili.com/123?spm=1" ∅
    = Outcome (Ok tt) ∅ [].
Proof.
  intros cfg nothing w. split.
  - refine (proj1 (dynamic_link_asks_for_last_segment cfg w nothing sample_event
                     "https://t.bilibili.com/123" "" "" ∅ eq_refl eq_refl (or_introl eq_refl)
                     eq_refl eq_refl eq_refl eq_refl eq_refl (λ _ _, eq_refl)) eq_refl).
  - refine (proj1 (proj2 (proj2 (dynamic_link_asks_for_last_segment cfg w nothing sample_event
                     "https://t.bilibili.com" "123" "?spm=1" ∅ eq_refl eq_refl _
                     eq_refl eq_refl eq_refl eq_refl eq_refl (λ _ _, eq_refl)) _)
                     123 eq_refl) eq_refl).
    + right. by exists "spm=1".
    + discriminate.
Defined.

(** X24.  What the dynamic branch sends.  Of the list the modules give only
    the first entry is read.  With no module nothing is sent.  When the
    first module has fewer than two paragraphs the handler raises
    IndexError before anything is sent.  When it has two, the text is read
    from the first and the pictures from the second: the handler sends one
    message with the title and that text, then one forward message with
    one node for each picture, in their order; no file is touched. *)
Theorem dynamic_reads_first_module
    (cfg : config) (w : world) (get_info : Z → result (option dynamic_info)) (ev : chat_event)
    (url matched title : string) (k : Z) (info : dynamic_info)
    (modules : list dyn_paragraphs) (fs : fsys) :
  re_search last_segment_rex (before_char "?" url) = Some matched →
  w_int w matched = Some k →
  get_info k = Ok (Some info) →
  di_title info = Ok title →
  di_paragraphs info = Ok modules →
  let o := dynamic_branch cfg w get_info ev url fs in
  (modules = [] → o = Outcome (Ok tt) fs [])
  ∧ (∀ l others, modules = Paragraphs l :: others →
       (List.length l < 2)%nat →
       (∀ p, l !! 0%nat = Some p → is_ok (pa_words p) = true) →
       o = Outcome (Raise (IndexError "list index out of range")) fs [])
  ∧ (∀ desc urls pics0 words1 more others,
       modules = Paragraphs (DynParagraph (Ok desc) pics0
                             :: DynParagraph words1 (Ok (Pics (map picture urls)))
                             :: more) :: others →
       let message :=
         [SegText (GLOBAL_NICKNAME cfg +:+ "识别：B站动态，" +:+ title +:+ nl +:+ desc)] in
       st o = fs
       ∧ ∃ tail, emitted o = EvSend message :: tail
                 ∧ (w_send w Origin message = IoOk → ev ≠ OtherEvent →
                    tail = [EvForward (map picture_node urls)])).
Proof.
  intros Hre Hint Hinfo Htitle Hmods o. subst o. unfold dynamic_branch. cbv zeta.
  rewrite Hre, bind_ret_l, Hint, bind_ret_l, Hinfo. cbn [lift_result]. rewrite bind_ret_l.
  rewrite Htitle. cbn [lift_result]. rewrite bind_ret_l.
  rewrite Hmods. cbn [lift_result]. rewrite bind_ret_l.
  split; [by intros ->|]. split.
  - intros l others -> Hlen Hwords.
    destruct l as [|p0 [|p1 l]]; [reflexivity| |cbn in Hlen; lia].
    cbn [paragraph_at lookup list_lookup]. rewrite bind_ret_l.
    specialize (Hwords p0 eq_refl). destruct (pa_words p0) as [desc|e]; [|done].
    cbn [lift_result]. rewrite bind_ret_l. reflexivity.
  - intros desc urls pics0 words1 more others ->.
    pose (message := [SegText (GLOBAL_NICKNAME cfg +:+ "识别：B站动态，" +:+ title +:+ nl +:+ desc)]).
    cbn [paragraph_at lookup list_lookup].
    repeat (cbn [pa_words pa_pics lift_result]; rewrite bind_ret_l).
    rewrite (bind_run _ _ _ _ _ _ (adapter_send_text_run w Origin _ fs)). fold message.
    destruct (w_send w Origin message) as [|e]; cbn beta iota.
    + rewrite (bind_run _ _ _ _ _ _ (pictures_nodes urls fs)). cbn beta iota.
      unfold send_forward_both. destruct ev as [g|u|]; py_unfold; cbn.
      * destruct (w_forward w (ToGroup g) _); cbn; (split; [done|eauto]).
      * destruct (w_forward w (ToUser u) _); cbn; (split; [done|eauto]).
      * split; [done|]. eexists. split; [done|]. by intros _ [].
    + split; [done|]. eexists. split; [done|]. by intros [=].
Qed.

Lemma dynamic_sample :
  let info := DynamicInfo (Ok "T")
                (Ok [Paragraphs [DynParagraph (Ok "D") (Raise (KeyError "'pic'"));
                                 DynParagraph (Raise (KeyError "'text'"))
                                   (Ok (Pics (map picture ["a.png"; "b.png"])))]]) in
  ∃ tail,
    emitted (dynamic_branch default_config calm_world (λ _, Ok (Some info)) sample_event
               "https://t.bilibili.com/123" ∅)
    = EvSend [SegText ("Bot识别：B站动态，T" +:+ nl +:+ "D")] :: tail
    ∧ tail = [EvForward [[SegImage "a.png"]; [SegImage "b.png"]]].
Proof.
  intros info.
  destruct (proj2 (proj2 (proj2 (dynamic_reads_first_module default_config calm_world
              (λ _, Ok (Some info)) sample_event "https://t.bilibili.com/123" "123" "T" 123
              info _ ∅ eq_refl eq_refl eq_refl eq_refl eq_refl))
              "D" ["a.png"; "b.png"] _ _ [] [] eq_refl))
    as (tail & E & Ht).
  exists tail. split; [exact E|]. apply Ht; [reflexivity|discriminate].
Defined.
